(** * The Infinity Agency Paradox: knowledge, loop clock and quantum subsystems

    A shallow embedding of the rules engine of the repository:
    - [knowledge_menu.py]      -> [Module KnowledgeMenu]
    - [loop_manager.py]        -> [Module LoopManager]
    - [poi_system.py]          -> [Module POISystem]
    - [quantum_navigation.py]  -> [Module QuantumNavigator]
    - [quantum_system.py]      -> [Module QuantumSystem]
    - [content_loader.py]      -> [Module ContentLoader]
    - [new_orchestrator.py]    -> [Module Orchestrator]

    Python objects become records; a method becomes a function that
    takes the object and returns the updated object next to the
    method's result, inside [Py.result] when the method can raise.
    Console output, [time.sleep] and [input] carry no state of the
    engine and are left out.  Python [int] is [Z], [set] is
    [gset string], [dict] is [gmap string _], and [str] is [string]
    holding the text's UTF-8 bytes.  White space is the white space of
    Unicode; the case methods and [isdigit] act on the ASCII letters
    and digits and leave every other character as it is, so a property
    of a command that folds the case of what the player types is stated
    for ASCII input.  Every value the random generator draws is an
    explicit argument of the function that draws it. *)

From Stdlib Require Import ZArith QArith Lia Ascii String.
From stdpp Require Import gmap strings list fin_maps.

Set Warnings "-clear-no-such-hyp".

Close Scope Q_scope.
Local Open Scope Z_scope.

(** ** Python runtime pieces used by the engine *)
Module Py.

(** The exceptions the modelled code can raise. *)
Inductive exn : Type :=
| KeyError (key : string)
| ValueError
| IndexError.

(** A computation either returns or raises. *)
Inductive result (A : Type) : Type :=
| Ok (a : A)
| Raise (e : exn).
Arguments Ok {A} a.
Arguments Raise {A} e.

Definition bind {A B} (m : result A) (k : A -> result B) : result B :=
  match m with
  | Ok a => k a
  | Raise e => Raise e
  end.

(** [d[k]] on a dict. *)
Definition getitem {V} (d : gmap string V) (k : string) : result V :=
  match d !! k with
  | Some v => Ok v
  | None => Raise (KeyError k)
  end.

(** [l.remove(x)]: drops the first occurrence, [ValueError] when there
    is none. *)
Fixpoint list_remove (x : string) (l : list string) : result (list string) :=
  match l with
  | [] => Raise ValueError
  | y :: l' =>
      if decide (y = x) then Ok l'
      else bind (list_remove x l') (fun t => Ok (y :: t))
  end.

(** [random.choice(seq)] is [seq[_randbelow(len(seq))]]; the argument
    [r] is the value drawn by [_randbelow], which the generator takes
    uniformly from [0 .. len(seq) - 1].  An empty sequence raises
    [IndexError]; a draw beyond the range, which the generator never
    makes, is given the same answer. *)
Definition random_choice {A} (l : list A) (r : nat) : result A :=
  match l !! r with
  | Some a => Ok a
  | None => Raise IndexError
  end.

(** [random.randint(a, b)] is [a + _randbelow(b - a + 1)]; an empty
    range raises [ValueError], and so does, in the model, a draw beyond
    the range. *)
Definition random_randint (a b : Z) (r : nat) : result Z :=
  if decide (Z.of_nat r < b - a + 1) then Ok (a + Z.of_nat r)
  else Raise ValueError.

(** [s.split(sep)] for a one-character separator. *)
Fixpoint str_split (sep : ascii) (s : string) : list string :=
  match s with
  | EmptyString => [EmptyString]
  | String c s' =>
      if Ascii.eqb c sep then EmptyString :: str_split sep s'
      else match str_split sep s' with
           | [] => [String c EmptyString]
           | p :: ps => String c p :: ps
           end
  end.

(** [range(a, b)] *)
Definition range (a b : Z) : list Z :=
  (fun i => a + Z.of_nat i) <$> seq 0 (Z.to_nat (b - a)).

(** [str.lower], on the ASCII letters; any other byte is left as it
    is. *)
Definition ascii_lower (c : ascii) : ascii :=
  let n := nat_of_ascii c in
  if ((65 <=? n) && (n <=? 90))%nat then ascii_of_nat (n + 32) else c.

Fixpoint str_lower (s : string) : string :=
  match s with
  | EmptyString => EmptyString
  | String c s' => String (ascii_lower c) (str_lower s')
  end.

(** A [str] is held as its UTF-8 bytes.  A byte [10xxxxxx] continues
    the character begun before it, so the characters of a text are its
    bytes grouped behind their leading byte. *)
Definition is_continuation (c : ascii) : bool :=
  let n := nat_of_ascii c in ((128 <=? n) && (n <=? 191))%nat.

Fixpoint chars (s : string) : list string :=
  match s with
  | EmptyString => []
  | String c s' =>
      match chars s' with
      | String d p :: ps =>
          if is_continuation d then String c (String d p) :: ps
          else String c EmptyString :: String d p :: ps
      | ps => String c EmptyString :: ps
      end
  end.

(** The code point a character stands for: the payload bits of the
    leading byte, followed by six bits of every continuation byte. *)
Definition code_point (ch : string) : Z :=
  match ch with
  | EmptyString => 0
  | String c rest =>
      let n := Z.of_nat (nat_of_ascii c) in
      let lead :=
        if n <? 128 then n
        else if n <? 224 then n - 192
        else if n <? 240 then n - 224
        else n - 240 in
      foldl (fun acc b => acc * 64 + (Z.of_nat (nat_of_ascii b) - 128)) lead
        (list_ascii_of_string rest)
  end.

(** The characters [str.isspace], [str.strip] and [str.split] take for
    white space: the ASCII ones and those Unicode adds. *)
Definition whitespace : list Z :=
  [0x09; 0x0A; 0x0B; 0x0C; 0x0D; 0x1C; 0x1D; 0x1E; 0x1F; 0x20;
   0x85; 0xA0; 0x1680;
   0x2000; 0x2001; 0x2002; 0x2003; 0x2004; 0x2005; 0x2006; 0x2007;
   0x2008; 0x2009; 0x200A;
   0x2028; 0x2029; 0x202F; 0x205F; 0x3000].

(** [str.isspace] on one character. *)
Definition isspace (ch : string) : bool :=
  existsb (Z.eqb (code_point ch)) whitespace.

(** The text made of the given characters. *)
Definition of_chars (cs : list string) : string :=
  fold_right String.append EmptyString cs.

Fixpoint drop_spaces (cs : list string) : list string :=
  match cs with
  | [] => []
  | ch :: cs' => if isspace ch then drop_spaces cs' else cs
  end.

(** [s.lstrip()] and [s.rstrip()] *)
Definition str_lstrip (s : string) : string :=
  of_chars (drop_spaces (chars s)).

Definition str_rstrip (s : string) : string :=
  of_chars (rev (drop_spaces (rev (chars s)))).

(** [s.strip()] *)
Definition str_strip (s : string) : string :=
  of_chars (rev (drop_spaces (rev (drop_spaces (chars s))))).

(** [s.split()]: the maximal runs of characters that are no white
    space.  [cur] is the run being read, reversed. *)
Fixpoint split_ws_aux (cur : list string) (cs : list string) : list string :=
  let flush (rest : list string) :=
    match cur with
    | [] => rest
    | _ => of_chars (rev cur) :: rest
    end in
  match cs with
  | [] => flush []
  | ch :: cs' =>
      if isspace ch then flush (split_ws_aux [] cs')
      else split_ws_aux (ch :: cur) cs'
  end.

Definition str_split_ws (s : string) : list string :=
  split_ws_aux [] (chars s).

(** Whether a text is written with ASCII characters only. *)
Definition is_ascii (s : string) : bool :=
  forallb (fun c => (nat_of_ascii c <? 128)%nat) (list_ascii_of_string s).

(** [sep.join(parts)] *)
Fixpoint str_join (sep : string) (parts : list string) : string :=
  match parts with
  | [] => EmptyString
  | [p] => p
  | p :: ps => p +:+ sep +:+ str_join sep ps
  end.

(** [int(x)] on a number with a fraction: rounds toward zero. *)
Definition int_of_Q (x : Q) : Z := Z.quot (Qnum x) (Z.pos (Qden x)).

(** [for x in xs: s.add(x)] *)
Definition set_add_all (s : gset string) (xs : list string) : gset string :=
  foldl (fun acc x => acc ∪ {[x]}) s xs.

(** The results of a randomized call, one per equally likely draw
    [0 .. n - 1]. *)
Definition outcomes {A} (n : nat) (f : nat -> A) : list A :=
  f <$> seq 0 n.

(** [str.upper], [str.replace] of one character by another, and
    [str.title], on the ASCII letters, any other byte being left as it
    is: [title] writes a letter in upper case after a character that is
    no letter and in lower case after a letter. *)
Definition ascii_upper (c : ascii) : ascii :=
  let n := nat_of_ascii c in
  if ((97 <=? n) && (n <=? 122))%nat then ascii_of_nat (n - 32) else c.

Fixpoint str_upper (s : string) : string :=
  match s with
  | EmptyString => EmptyString
  | String c s' => String (ascii_upper c) (str_upper s')
  end.

Fixpoint str_replace_char (old new : ascii) (s : string) : string :=
  match s with
  | EmptyString => EmptyString
  | String c s' =>
      String (if Ascii.eqb c old then new else c) (str_replace_char old new s')
  end.

Definition is_cased (c : ascii) : bool :=
  let n := nat_of_ascii c in
  (((65 <=? n) && (n <=? 90)) || ((97 <=? n) && (n <=? 122)))%nat.

Fixpoint title_aux (previous_is_cased : bool) (s : string) : string :=
  match s with
  | EmptyString => EmptyString
  | String c s' =>
      String (if previous_is_cased then ascii_lower c else ascii_upper c)
        (title_aux (is_cased c) s')
  end.

Definition str_title (s : string) : string := title_aux false s.

(** [s.isdigit()], on the ASCII digits: a non-empty string of digits. *)
Definition is_digit (c : ascii) : bool :=
  let n := nat_of_ascii c in ((48 <=? n) && (n <=? 57))%nat.

Definition str_isdigit (s : string) : bool :=
  negb (String.eqb s "") && forallb is_digit (list_ascii_of_string s).

End Py.

#[global] Instance result_ret : MRet Py.result := @Py.Ok.
#[global] Instance result_bind : MBind Py.result := fun A B k m => Py.bind m k.

(** ** The static content description ([content/data/locations.json])

    The file itself is not part of the sources; the records below list
    the keys the engine reads.  Keys read with [dict.get(key, default)]
    that have one default at every call site hold that default when the
    key is absent; [starting_poi], [name] of a POI and [distance_to] are
    read with different defaults and stay optional. *)
Module EntryData.
Record t : Type := mk {
  title : string;
  type : string;
  format : string;
  quantum : bool;
  knowledge_grants : list string;
  importance : string;
  short_desc : string;
  adds_to_log : bool;
  appears_after : list string;
  key_info : string;
  requires_knowledge : list string;
  requires_dialogue_count : Z;
  requires_exploration_percentage : Q
}.
End EntryData.

Module POIData.
Record t : Type := mk {
  name : option string;
  description : string;
  connections : list string;
  distance_to : gmap string Z;
  entries : list string;
  has_ship : bool;
  npcs : list string
}.
End POIData.

Module Location.
Record t : Type := mk {
  name : option string;
  starting_poi : option string;
  points_of_interest : gmap string POIData.t;
  entries : gmap string EntryData.t;
  requires_knowledge : list string;
  always_accessible : bool
}.
End Location.

Module LocationData.
Record t : Type := mk {
  locations : gmap string Location.t;
  actions_until_supernova : Z
}.
End LocationData.

(** ** knowledge_menu.py *)
Module KnowledgeMenu.

(** [@dataclass KnowledgeEntry] *)
Record KnowledgeEntry : Type := mkEntry {
  entry_id : string;
  location_id : string;
  title : string;
  entry_type : string;
  format_type : string;
  is_quantum : bool;
  knowledge_grants : list string;
  discovered : bool;
  discovered_loop : Z;
  importance : string;
  short_desc : string;
  adds_to_log : bool;
  appears_after : list string;
  key_info : string
}.

(** [entry.discovered = True; entry.discovered_loop = loop] *)
Definition mark_discovered (loop : Z) (e : KnowledgeEntry) : KnowledgeEntry :=
  mkEntry (entry_id e) (location_id e) (title e) (entry_type e)
    (format_type e) (is_quantum e) (knowledge_grants e) true loop
    (importance e) (short_desc e) (adds_to_log e) (appears_after e)
    (key_info e).

(** [@dataclass KnowledgeProgress] *)
Record KnowledgeProgress : Type := mkProgress {
  entries_discovered : gset string;
  knowledge_gained : gset string;
  locations_visited : gset string;
  current_loop : Z;
  total_visits : Z;
  dialogue_topics_asked : Z;
  new_entries_since_last_view : Z;
  discovered_commands : gset string
}.

Definition initial_progress : KnowledgeProgress :=
  mkProgress ∅ ∅ ∅ 1 0 0 0
    (list_to_set ["explore"; "visit"; "locations"; "check log"; "help"; "quit"]).

Definition set_knowledge_gained (k : gset string) (p : KnowledgeProgress)
  : KnowledgeProgress :=
  mkProgress (entries_discovered p) k (locations_visited p) (current_loop p)
    (total_visits p) (dialogue_topics_asked p)
    (new_entries_since_last_view p) (discovered_commands p).

Definition set_current_loop (n : Z) (p : KnowledgeProgress)
  : KnowledgeProgress :=
  mkProgress (entries_discovered p) (knowledge_gained p) (locations_visited p)
    n (total_visits p) (dialogue_topics_asked p)
    (new_entries_since_last_view p) (discovered_commands p).

(** [KnowledgeProgress.add_entry]: the result, the updated progress and
    the updated entry object. *)
Definition add_entry (p : KnowledgeProgress) (entry : KnowledgeEntry) (loop : Z)
  : bool * KnowledgeProgress * KnowledgeEntry :=
  if decide (entry_id entry ∈ entries_discovered p) then (false, p, entry)
  else
    (true,
     mkProgress (entries_discovered p ∪ {[entry_id entry]})
       (Py.set_add_all (knowledge_gained p) (knowledge_grants entry))
       (locations_visited p) (current_loop p) (total_visits p)
       (dialogue_topics_asked p) (new_entries_since_last_view p + 1)
       (discovered_commands p),
     mark_discovered loop entry).

(** [KnowledgeProgress.has_knowledge] *)
Definition progress_has_knowledge (p : KnowledgeProgress) (knowledge_id : string)
  : bool :=
  bool_decide (knowledge_id ∈ knowledge_gained p).

(** [KnowledgeProgress.has_all_knowledge] *)
Definition has_all_knowledge (p : KnowledgeProgress) (knowledge_ids : list string)
  : bool :=
  forallb (fun k => bool_decide (k ∈ knowledge_gained p)) knowledge_ids.

(** [KnowledgeProgress.get_completion_percentage].  Python computes it
    on floats; the model uses exact rationals. *)
Definition get_completion_percentage (p : KnowledgeProgress) (total_entries : Z)
  : Q :=
  if total_entries =? 0 then 0%Q
  else ((inject_Z (Z.of_nat (size (entries_discovered p)))
         / inject_Z total_entries) * 100)%Q.

(** [class KnowledgeMenu] *)
Record t : Type := mk {
  progress : KnowledgeProgress;
  all_entries : gmap string KnowledgeEntry;
  location_data : LocationData.t
}.

(** [KnowledgeMenu.__init__]; [location_data] starts as an empty dict. *)
Definition init : t := mk initial_progress ∅ (LocationData.mk ∅ 0).

Definition set_progress (p : KnowledgeProgress) (km : t) : t :=
  mk p (all_entries km) (location_data km).

(** The entry object built by [register_entries]. *)
Definition entry_of_data (loc_id full_entry_id : string) (d : EntryData.t)
  : KnowledgeEntry :=
  mkEntry full_entry_id loc_id (EntryData.title d) (EntryData.type d)
    (EntryData.format d) (EntryData.quantum d) (EntryData.knowledge_grants d)
    false 0 (EntryData.importance d) (EntryData.short_desc d)
    (EntryData.adds_to_log d) (EntryData.appears_after d)
    (EntryData.key_info d).

(** [KnowledgeMenu.register_entries] *)
Definition register_entries (km : t) (location_data : LocationData.t) : t :=
  let add_entry_of loc_id (acc : gmap string KnowledgeEntry)
        (kv : string * EntryData.t) :=
    let full_entry_id := loc_id +:+ "." +:+ kv.1 in
    if negb (EntryData.adds_to_log kv.2) then acc
    else <[full_entry_id := entry_of_data loc_id full_entry_id kv.2]> acc in
  let add_location (acc : gmap string KnowledgeEntry)
        (kv : string * Location.t) :=
    foldl (add_entry_of kv.1) acc (map_to_list (Location.entries kv.2)) in
  mk (progress km)
     (foldl add_location (all_entries km)
        (map_to_list (LocationData.locations location_data)))
     location_data.

(** [KnowledgeMenu.discover_entry] *)
Definition discover_entry (km : t) (entry_id : string) : bool * t :=
  match all_entries km !! entry_id with
  | None => (false, km)
  | Some entry =>
      let '(was_new, p, entry') :=
        add_entry (progress km) entry (current_loop (progress km)) in
      (was_new, mk p (<[entry_id := entry']> (all_entries km)) (location_data km))
  end.

(** [KnowledgeMenu._get_entry_data] *)
Definition _get_entry_data (km : t) (entry_id : string) : option EntryData.t :=
  match Py.str_split "." entry_id with
  | [loc_id; ent_id] =>
      match LocationData.locations (location_data km) !! loc_id with
      | Some loc => Location.entries loc !! ent_id
      | None => None
      end
  | _ => None
  end.

(** The second component of [can_access_entry]'s result.  The source
    builds a sentence; the model keeps what the sentence is built from. *)
Inductive reason : Type :=
| no_reason
| something_missing
| cant_find
| need_stabilization
| need_ship
| not_yet (missing : list string)
| talk_more (remaining : Z)
| explore_more (needed : Z).

Definition Qlt_bool (a b : Q) : bool := negb (Qle_bool b a).

(** [KnowledgeMenu.can_access_entry] *)
Definition can_access_entry (km : t) (entry_id : string) : bool * reason :=
  if negb (bool_decide (entry_id ∈ dom (all_entries km)))
  then (false, something_missing)
  else
  match _get_entry_data km entry_id with
  | None => (false, cant_find)
  | Some entry_data =>
      let required_knowledge := EntryData.requires_knowledge entry_data in
      let missing :=
        List.filter (fun k => negb (progress_has_knowledge (progress km) k))
          required_knowledge in
      if negb (has_all_knowledge (progress km) required_knowledge) then
        if bool_decide ("quantum_stabilization_ability" ∈ missing)
        then (false, need_stabilization)
        else if bool_decide ("ship_operation" ∈ missing)
        then (false, need_ship)
        else (false, not_yet missing)
      else
      let required_dialogue := EntryData.requires_dialogue_count entry_data in
      if (required_dialogue >? 0)
         && (dialogue_topics_asked (progress km) <? required_dialogue)
      then (false, talk_more (required_dialogue
                              - dialogue_topics_asked (progress km)))
      else
      let required_pct := EntryData.requires_exploration_percentage entry_data in
      let total_entries := Z.of_nat (size (all_entries km)) in
      let current_pct :=
        (get_completion_percentage (progress km) total_entries / 100)%Q in
      if Qlt_bool 0 required_pct && Qlt_bool current_pct required_pct
      then (false, explore_more (Py.int_of_Q ((required_pct - current_pct) * 100)))
      else (true, no_reason)
  end.

(** [KnowledgeMenu._should_entry_appear] *)
Definition _should_entry_appear (km : t) (entry : KnowledgeEntry) : bool :=
  forallb (fun knowledge_id => progress_has_knowledge (progress km) knowledge_id)
    (appears_after entry).

(** [KnowledgeMenu._get_visible_entries].  Python walks the dict in
    insertion order; the order of the result plays no role below. *)
Definition _get_visible_entries (km : t) : list KnowledgeEntry :=
  List.filter
    (fun entry =>
       _should_entry_appear km entry
       && ((can_access_entry km (entry_id entry)).1 || discovered entry))
    (map_to_list (all_entries km)).*2.

(** [KnowledgeMenu.increment_loop] *)
Definition increment_loop (km : t) : t :=
  set_progress (set_current_loop (current_loop (progress km) + 1) (progress km)) km.

(** [KnowledgeMenu.has_knowledge] *)
Definition has_knowledge (km : t) (knowledge_id : string) : bool :=
  progress_has_knowledge (progress km) knowledge_id.

(** [KnowledgeMenu.add_knowledge] with a single string *)
Definition add_knowledge (km : t) (knowledge_id : string) : t :=
  set_progress
    (set_knowledge_gained (knowledge_gained (progress km) ∪ {[knowledge_id]})
       (progress km)) km.

(** [KnowledgeMenu.add_knowledge] with a list *)
Definition add_knowledge_list (km : t) (knowledge_ids : list string) : t :=
  set_progress
    (set_knowledge_gained
       (Py.set_add_all (knowledge_gained (progress km)) knowledge_ids)
       (progress km)) km.

(** [KnowledgeMenu.get_discovered_count] *)
Definition get_discovered_count (km : t) : Z :=
  Z.of_nat (size (entries_discovered (progress km))).

(** [KnowledgeMenu.get_total_entries] *)
Definition get_total_entries (km : t) : Z :=
  Z.of_nat (size (all_entries km)).

End KnowledgeMenu.

(** ** loop_manager.py *)
Module LoopManager.

Record t : Type := mk {
  actions_until_supernova : Z;
  current_actions : Z;
  loop_count : Z;
  is_first_loop : bool;
  cavern_has_collapsed : bool
}.

(** [LoopManager.__init__] *)
Definition init (actions_until_supernova : Z) : t :=
  mk actions_until_supernova 0 1 true false.

(** What [increment_action] returns: one of two strings, or [False]. *)
Inductive signal : Type :=
| quantum_cavern_collapse
| supernova
| no_signal.

#[global] Instance signal_eq_dec : EqDecision signal.
Proof. solve_decision. Defined.

Definition set_current_actions (n : Z) (lm : t) : t :=
  mk (actions_until_supernova lm) n (loop_count lm)
     (is_first_loop lm) (cavern_has_collapsed lm).

Definition set_cavern_has_collapsed (b : bool) (lm : t) : t :=
  mk (actions_until_supernova lm) (current_actions lm) (loop_count lm)
     (is_first_loop lm) b.

(** [LoopManager.increment_action].  The warning panel shown when the
    counter equals [actions_until_supernova - 4] changes no state. *)
Definition increment_action (lm : t) (action_cost : Z) : signal * t :=
  let lm := set_current_actions (current_actions lm + action_cost) lm in
  if (current_actions lm =? 14) && negb (cavern_has_collapsed lm)
  then (quantum_cavern_collapse, set_cavern_has_collapsed true lm)
  else if current_actions lm >=? actions_until_supernova lm
  then (supernova, lm)
  else (no_signal, lm).

(** The signals of a series of [increment_action] calls in one loop:
    the caller resets only on [supernova], so the run stops there. *)
Fixpoint run (lm : t) (costs : list Z) : list signal * t :=
  match costs with
  | [] => ([], lm)
  | c :: costs' =>
      let '(s, lm1) := increment_action lm c in
      match s with
      | supernova => ([s], lm1)
      | _ => let '(ss, lm2) := run lm1 costs' in (s :: ss, lm2)
      end
  end.

(** [LoopManager.trigger_supernova].  Both narrative sequences only
    read the knowledge menu and print. *)
Definition trigger_supernova (lm : t) (knowledge_menu : KnowledgeMenu.t)
  : bool * t * KnowledgeMenu.t :=
  let lm := mk (actions_until_supernova lm) 0 (loop_count lm + 1) false false in
  (true, lm, KnowledgeMenu.increment_loop knowledge_menu).

(** [LoopManager.get_actions_remaining] *)
Definition get_actions_remaining (lm : t) : Z :=
  actions_until_supernova lm - current_actions lm.

End LoopManager.

(** ** poi_system.py *)
Module POISystem.

(** [current_poi] is [None] only inside [__init__], until
    [_initialize_starting_position] has run. *)
Record t : Type := mk {
  location_data : LocationData.t;
  current_location : string;
  current_poi : string;
  in_ship : bool;
  ship_flying : bool;
  discovered_pois : gset string;
  visited_pois : gset string
}.

Definition set_current_location (l : string) (s : t) : t :=
  mk (location_data s) l (current_poi s) (in_ship s) (ship_flying s)
     (discovered_pois s) (visited_pois s).

Definition set_current_poi (p : string) (s : t) : t :=
  mk (location_data s) (current_location s) p (in_ship s) (ship_flying s)
     (discovered_pois s) (visited_pois s).

Definition set_in_ship (b : bool) (s : t) : t :=
  mk (location_data s) (current_location s) (current_poi s) b (ship_flying s)
     (discovered_pois s) (visited_pois s).

Definition set_ship_flying (b : bool) (s : t) : t :=
  mk (location_data s) (current_location s) (current_poi s) (in_ship s) b
     (discovered_pois s) (visited_pois s).

Definition add_visited (full_poi_id : string) (s : t) : t :=
  mk (location_data s) (current_location s) (current_poi s) (in_ship s)
     (ship_flying s) (discovered_pois s) (visited_pois s ∪ {[full_poi_id]}).

(** [POISystem._discover_poi] *)
Definition _discover_poi (s : t) (location poi : string) : t :=
  let full_poi_id := location +:+ "." +:+ poi in
  mk (location_data s) (current_location s) (current_poi s) (in_ship s)
     (ship_flying s) (discovered_pois s ∪ {[full_poi_id]}) (visited_pois s).

(** [POISystem._initialize_starting_position] *)
Definition _initialize_starting_position (s : t) : Py.result t :=
  loc_data ← Py.getitem (LocationData.locations (location_data s))
                (current_location s);
  let s := set_current_poi
             (default "village_center" (Location.starting_poi loc_data)) s in
  let s := _discover_poi s (current_location s) (current_poi s) in
  let full_poi_id := current_location s +:+ "." +:+ current_poi s in
  Py.Ok (add_visited full_poi_id s).

(** [POISystem.__init__] *)
Definition init (location_data : LocationData.t) : Py.result t :=
  _initialize_starting_position
    (mk location_data "timber_hearth" "" false false ∅ ∅).

(** [POISystem.get_current_poi_data]; [None] stands for the empty dict
    the source returns when the location or the POI is unknown. *)
Definition get_current_poi_data (s : t) : option POIData.t :=
  match LocationData.locations (location_data s) !! current_location s with
  | None => None
  | Some loc_data => Location.points_of_interest loc_data !! current_poi s
  end.

(** [POISystem.move_to_poi] *)
Definition move_to_poi (s : t) (poi_id : string)
  : Py.result ((bool * Z * string) * t) :=
  let current_poi_data := get_current_poi_data s in
  let connections := from_option POIData.connections [] current_poi_data in
  if negb (bool_decide (poi_id ∈ connections))
  then Py.Ok ((false, 0, "You can't reach " +:+ poi_id +:+ " from here."), s)
  else
    let distance :=
      default 1 (d ← current_poi_data; POIData.distance_to d !! poi_id) in
    let s := set_current_poi poi_id s in
    let s := _discover_poi s (current_location s) poi_id in
    let full_poi_id := current_location s +:+ "." +:+ poi_id in
    let s := add_visited full_poi_id s in
    loc_data ← Py.getitem (LocationData.locations (location_data s))
                  (current_location s);
    let poi_name :=
      default poi_id
        (d ← Location.points_of_interest loc_data !! poi_id; POIData.name d) in
    Py.Ok ((true, distance, "You travel to " +:+ poi_name +:+ "..."), s).

(** [POISystem.is_poi_discovered] *)
Definition is_poi_discovered (s : t) (location poi : string) : bool :=
  bool_decide (location +:+ "." +:+ poi ∈ discovered_pois s).

(** One element of the list [get_available_pois] returns. *)
Record AvailablePOI : Type := mkAvailable {
  id : string;
  name : string;
  distance : Z;
  discovered : bool;
  description : string
}.

(** [POISystem.get_available_pois] *)
Definition get_available_pois (s : t) : list AvailablePOI :=
  let current_poi_data := get_current_poi_data s in
  let connections := from_option POIData.connections [] current_poi_data in
  match LocationData.locations (location_data s) !! current_location s with
  | None => []
  | Some loc_data =>
      let pois := Location.points_of_interest loc_data in
      omap
        (fun poi_id =>
           match pois !! poi_id with
           | None => None
           | Some poi_data =>
               Some (mkAvailable poi_id
                       (default (Py.str_title (Py.str_replace_char "_" " " poi_id))
                          (POIData.name poi_data))
                       (default 1
                          (d ← current_poi_data; POIData.distance_to d !! poi_id))
                       (is_poi_discovered s (current_location s) poi_id)
                       (POIData.description poi_data))
           end)
        connections
  end.

(** [POISystem.enter_ship] *)
Definition enter_ship (s : t) : (bool * string) * t :=
  if negb (from_option POIData.has_ship false (get_current_poi_data s))
  then ((false, "Your ship isn't here."), s)
  else if in_ship s then ((false, "You're already in the ship."), s)
  else ((true, "You climb into the ship's cockpit."), set_in_ship true s).

(** [POISystem.exit_ship] *)
Definition exit_ship (s : t) : (bool * string) * t :=
  if negb (in_ship s) then ((false, "You're not in the ship."), s)
  else if ship_flying s
  then ((false, "You can't exit while flying! Land first."), s)
  else ((true, "You step out of the ship."), set_in_ship false s).

(** [POISystem.launch_ship] *)
Definition launch_ship (s : t) : (bool * string) * t :=
  if negb (in_ship s) then ((false, "You need to be in the ship."), s)
  else if ship_flying s then ((false, "You're already flying."), s)
  else ((true, "The ship lifts off into space..."), set_ship_flying true s).

(** [POISystem.land_at_location] *)
Definition land_at_location (s : t) (location_id : string)
    (knowledge_menu : KnowledgeMenu.t) : (bool * Z * string) * t :=
  if negb (ship_flying s) then ((false, 0, "You need to launch first."), s)
  else
  match LocationData.locations (location_data s) !! location_id with
  | None => ((false, 0, "Unknown location: " +:+ location_id), s)
  | Some loc_info =>
      let required_knowledge := Location.requires_knowledge loc_info in
      if negb (KnowledgeMenu.has_all_knowledge
                 (KnowledgeMenu.progress knowledge_menu) required_knowledge)
      then
        let missing :=
          List.filter
            (fun k => negb (KnowledgeMenu.has_knowledge knowledge_menu k))
            required_knowledge in
        ((false, 0,
          "Cannot access this location: requires " +:+ Py.str_join ", " missing),
         s)
      else
        let s := set_current_location location_id s in
        let s := set_ship_flying false s in
        let starting_poi :=
          default "landing_site" (Location.starting_poi loc_info) in
        let s := set_current_poi starting_poi s in
        let s := _discover_poi s location_id starting_poi in
        let full_poi_id := location_id +:+ "." +:+ starting_poi in
        let s := add_visited full_poi_id s in
        let loc_name := default location_id (Location.name loc_info) in
        ((true, 2, "You land on " +:+ loc_name +:+ "..."), s)
  end.

End POISystem.

(** ** quantum_navigation.py *)
Module QuantumNavigator.

Record t : Type := mk {
  current_location : string;
  has_visited_platform : bool
}.

(** One value of the [locations] table.  The [description] and
    [observations] texts are only printed and are left out. *)
Record LocInfo : Type := mkLoc {
  name : string;
  stable_path : gmap string string
}.

(** [self.locations] *)
Definition locations : gmap string LocInfo :=
  list_to_map
    [("platform", mkLoc "Weathered Stone Platform" {["east" := "crystals"]});
     ("crystals", mkLoc "Singing Crystal Field" {["west" := "tree"]});
     ("tree", mkLoc "Ancient Tree Grove" {["north" := "arch"]});
     ("arch", mkLoc "Prismatic Archway" {["south" := "convergence"]});
     ("convergence", mkLoc "Quantum Convergence" ∅)].

(** [QuantumNavigator.__init__] *)
Definition init : t := mk "platform" false.

(** [QuantumNavigator.reset_navigation] *)
Definition reset_navigation (nav : t) : t :=
  mk "platform" (has_visited_platform nav).

(** [QuantumNavigator.is_at_grove] *)
Definition is_at_grove (nav : t) : bool :=
  String.eqb (current_location nav) "grove".

(** [QuantumNavigator._reach_grove] *)
Definition _reach_grove (nav : t) : (bool * string * bool) * t :=
  ((true, "You've reached Solanum's Grove!", true),
   mk "grove" (has_visited_platform nav)).

(** [QuantumNavigator.close_eyes_reset] *)
Definition close_eyes_reset (nav : t) : (bool * string * bool) * t :=
  if String.eqb (current_location nav) "convergence" then _reach_grove nav
  else
    ((true,
      "You close your eyes. When you open them, you're back at the weathered platform.",
      false),
     mk "platform" true).

(** The local [direction_map] of [observe_direction]. *)
Definition direction_map : gmap string string :=
  list_to_map
    [("look east", "east"); ("east", "east");
     ("look west", "west"); ("west", "west");
     ("look north", "north"); ("north", "north");
     ("look south", "south"); ("south", "south");
     ("close eyes", "close eyes")].

(** [QuantumNavigator.observe_direction].  [r] is the draw of the one
    [random.choice] call of the random branch.  A raised exception is
    reported without the object; on every path that raises below, no
    field was assigned before the raise except [current_location] on the
    stable branch. *)
Definition observe_direction (nav : t) (direction : string) (r : nat)
  : Py.result ((bool * string * bool) * t) :=
  let direction_clean := Py.str_strip (Py.str_lower direction) in
  match direction_map !! direction_clean with
  | None => Py.Ok ((false, "Invalid direction.", false), nav)
  | Some canonical_dir =>
      if is_at_grove nav
      then Py.Ok ((true, "You're already at the grove.", true), nav)
      else if String.eqb canonical_dir "close eyes"
      then Py.Ok (close_eyes_reset nav)
      else
        loc_info ← Py.getitem locations (current_location nav);
        match stable_path loc_info !! canonical_dir with
        | Some next_location =>
            let nav := mk next_location (has_visited_platform nav) in
            next_info ← Py.getitem locations next_location;
            let message :=
              "The quantum waveform shifts. You find yourself at: "
              +:+ name next_info in
            Py.Ok ((true, message, false), nav)
        | None =>
            possible_locations ←
              Py.list_remove (current_location nav)
                ["platform"; "crystals"; "tree"; "arch"];
            random_location ← Py.random_choice possible_locations r;
            let nav := mk random_location (has_visited_platform nav) in
            random_info ← Py.getitem locations random_location;
            let nav :=
              if String.eqb random_location "platform"
              then mk (current_location nav) true else nav in
            Py.Ok ((true, "Quantum teleport to " +:+ name random_info, false),
                   nav)
        end
  end.

(** Where an observation leaves the navigator, when it returns. *)
Definition destination (res : Py.result ((bool * string * bool) * t))
  : option string :=
  match res with
  | Py.Ok (_, nav) => Some (current_location nav)
  | Py.Raise _ => None
  end.

End QuantumNavigator.

(** ** The interface of [random.Random] used for scrambling

    [random.Random(seed)] and [rng.shuffle(words)] belong to the Python
    library: a generator state made from the seed alone, and a shuffle
    that returns the new order together with the advanced state. *)
Class PyRandom : Type := {
  rng : Type;
  Random : Z -> rng;
  shuffle : rng -> list string -> list string * rng
}.

(** What the library promises of [shuffle]: the list it returns holds
    the same items, in some order. *)
Class ShuffleReorders `{PyRandom} : Prop :=
  shuffle_reorders : ∀ (g : rng) (words : list string),
    (shuffle g words).1 ≡ₚ words.

(** The loop shared by both copies of the scrambling routine: each
    non-blank line has its words shuffled by the one generator. *)
Fixpoint scramble_lines `{PyRandom} (g : rng) (lines : list string)
  : list string :=
  match lines with
  | [] => []
  | line :: rest =>
      if negb (String.eqb (Py.str_strip line) "") then
        let '(words, g') := shuffle g (Py.str_split_ws line) in
        Py.str_join " " words :: scramble_lines g' rest
      else line :: scramble_lines g rest
  end.

(** ** quantum_system.py *)
Module QuantumSystem.

Record t : Type := mk {
  eyes_closed : bool;
  quantum_states : gmap string Z
}.

(** [QuantumSystem.__init__] *)
Definition init : t := mk false ∅.

(** [QuantumSystem._get_all_quantum_entries_at_poi] *)
Definition _get_all_quantum_entries_at_poi (location_system : POISystem.t)
  : list (string * EntryData.t) :=
  let current_loc := POISystem.current_location location_system in
  let current_poi := POISystem.current_poi location_system in
  match LocationData.locations (POISystem.location_data location_system)
          !! current_loc with
  | None => []
  | Some loc_info =>
      match Location.points_of_interest loc_info !! current_poi with
      | None => []
      | Some poi_info =>
          omap
            (fun entry_id =>
               let full_entry_id := current_loc +:+ "." +:+ entry_id in
               match Location.entries loc_info !! entry_id with
               | Some entry_data =>
                   if EntryData.quantum entry_data
                   then Some (full_entry_id, entry_data) else None
               | None => None
               end)
            (POIData.entries poi_info)
      end
  end.

(** [QuantumSystem._get_new_state]; [r] is the generator's draw. *)
Definition _get_new_state (old_state : Z) (r : nat) : Py.result Z :=
  if old_state =? 0 then Py.random_randint 1 6 r
  else
    let valid_states :=
      List.filter (fun s => negb (s =? old_state)) (Py.range 1 7) in
    Py.random_choice valid_states r.

(** The number of equally likely draws behind one roll. *)
Definition draws (old_state : Z) : nat :=
  if old_state =? 0 then 6%nat
  else length (List.filter (fun s => negb (s =? old_state)) (Py.range 1 7)).

(** [QuantumSystem.get_entry_state] *)
Definition get_entry_state (qs : t) (full_entry_id : string) : Z :=
  default 0 (quantum_states qs !! full_entry_id).

(** The [for] loop of [quantum_observation]; [draw k] is the k-th value
    the generator yields during the call. *)
Fixpoint reroll (states : gmap string Z) (quantum_entries : list (string * EntryData.t))
    (draw : nat -> nat) (k : nat) : Py.result (gmap string Z) :=
  match quantum_entries with
  | [] => Py.Ok states
  | (full_entry_id, _) :: rest =>
      let old_state := default 0 (states !! full_entry_id) in
      new_state ← _get_new_state old_state (draw k);
      reroll (<[full_entry_id := new_state]> states) rest draw (S k)
  end.

(** [QuantumSystem.quantum_observation] *)
Definition quantum_observation (qs : t) (location_system : POISystem.t)
    (draw : nat -> nat) : Py.result (bool * t) :=
  if eyes_closed qs then Py.Ok (false, qs)
  else
    let quantum_entries := _get_all_quantum_entries_at_poi location_system in
    states ← reroll (quantum_states qs) quantum_entries draw 0;
    Py.Ok (false, mk false states).

(** [QuantumSystem.scramble_text] *)
Definition scramble_text `{PyRandom} (content : string) (state : Z) : string :=
  if state =? 6 then content
  else
    Py.str_join (String "010" EmptyString)
      (scramble_lines (Random state)
         (Py.str_split "010" content)).

End QuantumSystem.

(** ** content_loader.py *)
Module ContentLoader.

(** [files] holds the text of every file that exists under
    [content_dir], by file name. *)
Record t : Type := mk {
  files : gmap string string
}.

(** The local [content_map] of [load_and_display_entry]. *)
Definition content_map : gmap string string :=
  list_to_map
    [("timber_hearth.deontic_critique", "timber_hearth_deontic_critique.md");
     ("timber_hearth.epistemic_intro", "timber_hearth_epistemic_intro.md");
     ("timber_hearth.launch_code_discovery", "observatory_launch_code.md");
     ("timber_hearth.ship_access_tutorial", "ship_access_tutorial.md");
     ("timber_hearth.signal_frequencies_log", "timber_hearth_signal_frequencies.md");
     ("timber_hearth.cardinal_directions_poem", "timber_hearth_cardinal_directions.md");
     ("timber_hearth.quantum_moon_rumor", "timber_hearth_quantum_moon_rumor.md");
     ("attlerock.jenkins_overview", "attlerock_jenkins_overview.md");
     ("attlerock.quantum_stabilization", "attlerock_quantum_stabilization.md");
     ("attlerock.evocative_spaces", "attlerock_evocative_spaces.md");
     ("attlerock.embedded_narratives", "attlerock_embedded_narratives.md");
     ("attlerock.enacting_stories", "attlerock_enacting_stories.md");
     ("attlerock.emergent_narratives", "attlerock_emergent_narratives.md");
     ("attlerock.frequency_codes", "attlerock_frequency_codes.md");
     ("brittle_hollow.time_loop_intro", "brittle_hollow_time_loop_intro.md");
     ("brittle_hollow.majora_comparison", "brittle_hollow_majora_comparison.md");
     ("brittle_hollow.quantum_moon_frequency", "brittle_hollow_quantum_moon_frequency.md");
     ("brittle_hollow.quantum_research_notes", "brittle_hollow_quantum_research_notes.md");
     ("quantum_moon.solanum_location", "quantum_moon_arrival.md");
     ("quantum_moon.guidance_dialogue", "solanum_guidance_dialogue.md");
     ("quantum_moon.thesis_ending", "ending_sequence.md")].

(** What ends up on the screen: the text handed to the panel of the
    entry's type, or the placeholder panel. *)
Inductive screen : Type :=
| file_content (content : string)
| placeholder.

(** [ContentLoader._scramble_text] *)
Definition _scramble_text `{PyRandom} (content : string) (state : Z) : string :=
  Py.str_join (String "010" EmptyString)
    (scramble_lines (Random state) (Py.str_split "010" content)).

(** [ContentLoader._display_from_file]; [entry_data] is [None] for the
    empty dict, whose ["title"] is missing. *)
Definition _display_from_file `{PyRandom} (content : string)
    (entry_data : option EntryData.t) (quantum_state : option Z)
  : Py.result screen :=
  let content :=
    match quantum_state with
    | Some state => if negb (state =? 6) then _scramble_text content state
                    else content
    | None => content
    end in
  match entry_data with
  | Some _ => Py.Ok (file_content content)
  | None => Py.Raise (Py.KeyError "title")
  end.

(** [ContentLoader.load_and_display_entry] *)
Definition load_and_display_entry `{PyRandom} (cl : t)
    (location_id entry_id : string) (entry_data : option EntryData.t)
    (quantum_state : option Z) : Py.result (bool * screen) :=
  let full_entry_id := location_id +:+ "." +:+ entry_id in
  match file_name ← content_map !! full_entry_id; files cl !! file_name with
  | Some content =>
      scr ← _display_from_file content entry_data quantum_state;
      Py.Ok (true, scr)
  | None => Py.Ok (false, placeholder)
  end.

End ContentLoader.

(** ** new_orchestrator.py *)
Module Orchestrator.

Record t : Type := mk {
  location_data : LocationData.t;
  knowledge_menu : KnowledgeMenu.t;
  loop_manager : LoopManager.t;
  poi_system : POISystem.t;
  quantum_system : QuantumSystem.t;
  quantum_navigator : QuantumNavigator.t;
  content_loader : ContentLoader.t;
  intro_complete : bool;
  observatory_tutorial_shown : bool;
  quantum_frequency_entered : bool;
  launch_code_entered : bool;
  eyes_closed : bool;
  eyes_closed_at_location : option string
}.

Definition set_knowledge_menu (km : KnowledgeMenu.t) (o : t) : t :=
  mk (location_data o) km (loop_manager o) (poi_system o) (quantum_system o)
     (quantum_navigator o) (content_loader o) (intro_complete o)
     (observatory_tutorial_shown o) (quantum_frequency_entered o)
     (launch_code_entered o) (eyes_closed o) (eyes_closed_at_location o).

Definition set_loop_manager (lm : LoopManager.t) (o : t) : t :=
  mk (location_data o) (knowledge_menu o) lm (poi_system o) (quantum_system o)
     (quantum_navigator o) (content_loader o) (intro_complete o)
     (observatory_tutorial_shown o) (quantum_frequency_entered o)
     (launch_code_entered o) (eyes_closed o) (eyes_closed_at_location o).

(** [OuterWildsOrchestrator.__init__], from the loaded content and the
    content directory. *)
Definition init (location_data : LocationData.t) (content : ContentLoader.t)
  : Py.result t :=
  poi ← POISystem.init location_data;
  Py.Ok (mk location_data
           (KnowledgeMenu.register_entries KnowledgeMenu.init location_data)
           (LoopManager.init (LocationData.actions_until_supernova location_data))
           poi QuantumSystem.init QuantumNavigator.init content
           false false false false false None).

(** [if "cavern_collapse_witnessed" in knowledge_gained: remove it] *)
Definition clear_loop_flags (km : KnowledgeMenu.t) : KnowledgeMenu.t :=
  let gained := KnowledgeMenu.knowledge_gained (KnowledgeMenu.progress km) in
  if bool_decide ("cavern_collapse_witnessed" ∈ gained)
  then KnowledgeMenu.set_progress
         (KnowledgeMenu.set_knowledge_gained
            (gained ∖ {["cavern_collapse_witnessed"]})
            (KnowledgeMenu.progress km)) km
  else km.

(** The position reset shared by both reset paths. *)
Definition reset_position (ps : POISystem.t) : Py.result POISystem.t :=
  let ps := POISystem.set_current_location "timber_hearth" ps in
  let ps := POISystem.set_in_ship false ps in
  let ps := POISystem.set_ship_flying false ps in
  POISystem._initialize_starting_position ps.

(** The [if result == "supernova":] block of [_exploration_loop]. *)
Definition supernova_reset (o : t) : Py.result t :=
  let '(_, lm, km) :=
    LoopManager.trigger_supernova (loop_manager o) (knowledge_menu o) in
  ps ← reset_position (poi_system o);
  let nav := QuantumNavigator.reset_navigation (quantum_navigator o) in
  let km := clear_loop_flags km in
  Py.Ok (mk (location_data o) km lm ps (quantum_system o) nav
           (content_loader o) (intro_complete o)
           (observatory_tutorial_shown o) false false false None).

(** [OuterWildsOrchestrator._handle_cavern_collapse] *)
Definition _handle_cavern_collapse (o : t) : Py.result t :=
  let current_loc := POISystem.current_location (poi_system o) in
  let current_poi := POISystem.current_poi (poi_system o) in
  if String.eqb current_loc "brittle_hollow"
     && String.eqb current_poi "quantum_cavern" then
    let km := KnowledgeMenu.increment_loop (knowledge_menu o) in
    ps ← reset_position (poi_system o);
    let lm := loop_manager o in
    let lm := LoopManager.mk (LoopManager.actions_until_supernova lm) 0
                (LoopManager.loop_count lm + 1) (LoopManager.is_first_loop lm)
                false in
    let km := clear_loop_flags km in
    Py.Ok (mk (location_data o) km lm ps (quantum_system o)
             (quantum_navigator o) (content_loader o) (intro_complete o)
             (observatory_tutorial_shown o) false false false None)
  else if String.eqb current_loc "brittle_hollow" then
    Py.Ok (set_knowledge_menu
             (KnowledgeMenu.add_knowledge (knowledge_menu o)
                "cavern_collapse_witnessed") o)
  else Py.Ok o.

(** The part of one turn of [_exploration_loop] that follows
    [_process_command]: the clock tick and the reaction to its signal. *)
Definition after_command (o : t) (costs_action : bool) : Py.result t :=
  let at_grove :=
    String.eqb (POISystem.current_location (poi_system o)) "quantum_moon"
    && String.eqb (POISystem.current_poi (poi_system o)) "grove" in
  if costs_action && negb at_grove then
    let '(result, lm) := LoopManager.increment_action (loop_manager o) 1 in
    let o := set_loop_manager lm o in
    match result with
    | LoopManager.quantum_cavern_collapse => _handle_cavern_collapse o
    | LoopManager.supernova => supernova_reset o
    | LoopManager.no_signal => Py.Ok o
    end
  else Py.Ok o.

(** [OuterWildsOrchestrator._get_entry_raw_data]; [None] is the empty
    dict. *)
Definition _get_entry_raw_data (o : t) (full_entry_id : string)
  : option EntryData.t :=
  match Py.str_split "." full_entry_id with
  | [loc_id; entry_id] =>
      match LocationData.locations (location_data o) !! loc_id with
      | Some loc => Location.entries loc !! entry_id
      | None => None
      end
  | _ => None
  end.

(** What [_read_entry] puts in front of the player. *)
Inductive read_outcome : Type :=
| displayed (scr : ContentLoader.screen)
| cannot_access (why : KnowledgeMenu.reason).

(** [OuterWildsOrchestrator._read_entry] *)
Definition _read_entry `{PyRandom} (o : t) (location_id entry_id : string)
  : Py.result (read_outcome * t) :=
  let full_id := location_id +:+ "." +:+ entry_id in
  let entry_data := _get_entry_raw_data o full_id in
  if from_option EntryData.quantum false entry_data then
    let quantum_state :=
      QuantumSystem.get_entry_state (quantum_system o) full_id in
    if quantum_state =? 6 then
      let '(was_new, km) :=
        KnowledgeMenu.discover_entry (knowledge_menu o) full_id in
      let km :=
        if was_new
        then foldl KnowledgeMenu.add_knowledge km
               (from_option EntryData.knowledge_grants [] entry_data)
        else km in
      shown ← ContentLoader.load_and_display_entry (content_loader o)
                location_id entry_id entry_data (Some 6);
      Py.Ok (displayed shown.2, set_knowledge_menu km o)
    else
      shown ← ContentLoader.load_and_display_entry (content_loader o)
                location_id entry_id entry_data (Some quantum_state);
      Py.Ok (displayed shown.2, o)
  else
    let '(can_access, why) :=
      KnowledgeMenu.can_access_entry (knowledge_menu o) full_id in
    if negb can_access then Py.Ok (cannot_access why, o)
    else
      let '(was_new, km) :=
        KnowledgeMenu.discover_entry (knowledge_menu o) full_id in
      if was_new && negb (bool_decide (is_Some entry_data))
      then Py.Raise (Py.KeyError "title")
      else
        shown ← ContentLoader.load_and_display_entry (content_loader o)
                  location_id entry_id entry_data None;
        Py.Ok (displayed shown.2, set_knowledge_menu km o).

(** The [mk]-style update of two further fields. *)
Definition set_quantum_frequency_entered (b : bool) (o : t) : t :=
  mk (location_data o) (knowledge_menu o) (loop_manager o) (poi_system o)
     (quantum_system o) (quantum_navigator o) (content_loader o)
     (intro_complete o) (observatory_tutorial_shown o) b
     (launch_code_entered o) (eyes_closed o) (eyes_closed_at_location o).

Definition set_launch_code_entered (b : bool) (o : t) : t :=
  mk (location_data o) (knowledge_menu o) (loop_manager o) (poi_system o)
     (quantum_system o) (quantum_navigator o) (content_loader o)
     (intro_complete o) (observatory_tutorial_shown o)
     (quantum_frequency_entered o) b (eyes_closed o)
     (eyes_closed_at_location o).

(** [OuterWildsOrchestrator._can_access_location] *)
Definition _can_access_location (o : t) (location_id : string)
  : Py.result (bool * string) :=
  loc_info ← Py.getitem (LocationData.locations (location_data o)) location_id;
  let required_knowledge := Location.requires_knowledge loc_info in
  if negb (KnowledgeMenu.has_all_knowledge
             (KnowledgeMenu.progress (knowledge_menu o)) required_knowledge)
  then Py.Ok (false, "Missing required knowledge")
  else if String.eqb location_id "quantum_moon"
          && negb (quantum_frequency_entered o)
  then Py.Ok (false, "Frequency not entered this loop")
  else Py.Ok (true, "").

(** [OuterWildsOrchestrator._handle_insert_frequency]; [typed] is the
    line the player types when asked, read only on the path that
    asks. *)
Definition _handle_insert_frequency (o : t) (typed : string) : t :=
  if negb (String.eqb (POISystem.current_location (poi_system o)) "timber_hearth")
     || negb (String.eqb (POISystem.current_poi (poi_system o)) "radio_station")
  then o
  else if negb (KnowledgeMenu.has_knowledge (knowledge_menu o)
                  "signal_scope_frequencies")
  then o
  else
    let frequency_input := Py.str_strip typed in
    if negb (Py.str_isdigit frequency_input)
       || negb (Nat.eqb (String.length frequency_input) 4)
    then o
    else if String.eqb frequency_input "5555"
    then
      set_knowledge_menu
        (KnowledgeMenu.add_knowledge (knowledge_menu o) "quantum_moon_frequency")
        (set_quantum_frequency_entered true o)
    else o.

(** [OuterWildsOrchestrator._handle_enter_launch_code]; [typed] as
    above. *)
Definition _handle_enter_launch_code (o : t) (typed : string) : t :=
  if POISystem.in_ship (poi_system o) && negb (launch_code_entered o) then
    let code := Py.str_upper (Py.str_strip typed) in
    if String.eqb code "EPISTEMIC" then
      let km := KnowledgeMenu.add_knowledge (knowledge_menu o)
                  "launch_code_epistemic" in
      let km := KnowledgeMenu.add_knowledge km "ship_operation" in
      set_launch_code_entered true (set_knowledge_menu km o)
    else o
  else o.

(** [OuterWildsOrchestrator._handle_cardinal_navigation]; [r] is the
    draw handed to [observe_direction]. *)
Definition _handle_cardinal_navigation (o : t) (direction : string) (r : nat)
  : Py.result t :=
  Py.bind
    (QuantumNavigator.observe_direction (quantum_navigator o) direction r)
    (fun observed =>
  let '((success, message, reached_grove), nav) := observed in
  let o := mk (location_data o) (knowledge_menu o) (loop_manager o)
             (poi_system o) (quantum_system o) nav (content_loader o)
             (intro_complete o) (observatory_tutorial_shown o)
             (quantum_frequency_entered o) (launch_code_entered o)
             (eyes_closed o) (eyes_closed_at_location o) in
  if reached_grove then
    let km := KnowledgeMenu.add_knowledge (knowledge_menu o)
                "grove_navigation_complete" in
    let ps := POISystem.set_current_poi "grove" (poi_system o) in
    let ps := POISystem._discover_poi ps "quantum_moon" "grove" in
    let ps := POISystem.add_visited "quantum_moon.grove" ps in
    Py.Ok (mk (location_data o) km (loop_manager o) ps (quantum_system o)
             (quantum_navigator o) (content_loader o) (intro_complete o)
             (observatory_tutorial_shown o) (quantum_frequency_entered o)
             (launch_code_entered o) (eyes_closed o)
             (eyes_closed_at_location o))
  else Py.Ok o).

End Orchestrator.

(** ** Invariants the engine keeps *)

(** Every registered entry sits under its own id, and its [discovered]
    flag agrees with the discovered set. *)
Definition menu_consistent (km : KnowledgeMenu.t) : Prop :=
  ∀ id e,
    KnowledgeMenu.all_entries km !! id = Some e →
    KnowledgeMenu.entry_id e = id
    ∧ (KnowledgeMenu.discovered e = true
       ↔ id ∈ KnowledgeMenu.entries_discovered (KnowledgeMenu.progress km)).

(** A ship in flight has its pilot aboard. *)
Definition pilot_aboard (s : POISystem.t) : Prop :=
  POISystem.ship_flying s = true → POISystem.in_ship s = true.

(** The POI the player stands at is marked visited and discovered. *)
Definition position_recorded (s : POISystem.t) : Prop :=
  let full_poi_id :=
    POISystem.current_location s +:+ "." +:+ POISystem.current_poi s in
  full_poi_id ∈ POISystem.visited_pois s
  ∧ full_poi_id ∈ POISystem.discovered_pois s.

(** The loop number the clock shows is the one the log shows. *)
Definition loops_in_sync (o : Orchestrator.t) : Prop :=
  LoopManager.loop_count (Orchestrator.loop_manager o)
  = KnowledgeMenu.current_loop
      (KnowledgeMenu.progress (Orchestrator.knowledge_menu o)).

(** What [register_entries] may put under an id. *)
Definition registered_from (location_data : LocationData.t) (id : string)
    (e : KnowledgeMenu.KnowledgeEntry) : Prop :=
  ∃ loc_id loc ent_id d,
    LocationData.locations location_data !! loc_id = Some loc
    ∧ Location.entries loc !! ent_id = Some d
    ∧ EntryData.adds_to_log d = true
    ∧ id = loc_id +:+ "." +:+ ent_id
    ∧ e = KnowledgeMenu.entry_of_data loc_id id d.

(** What scrambling may turn one line into. *)
Definition scrambled_line (line line' : string) : Prop :=
  if String.eqb (Py.str_strip line) "" then line' = line
  else ∃ words, words ≡ₚ Py.str_split_ws line
                ∧ line' = Py.str_join " " words.

(** The scrambled view of a text, line by line, from the generator [g]
    on: a blank line is shown as it is and uses no shuffle; any other
    line is shown as its words in the order the generator's shuffle
    gives them, one space apart, and the lines below are shuffled with
    the generator that shuffle leaves behind. *)
Inductive shuffled_view `{PyRandom} : rng → list string → list string → Prop :=
| view_end (g : rng) : shuffled_view g [] []
| view_blank (g : rng) (line : string) (rest rest' : list string) :
    Py.str_strip line = "" →
    shuffled_view g rest rest' →
    shuffled_view g (line :: rest) (line :: rest')
| view_words (g : rng) (line : string) (rest rest' : list string) :
    Py.str_strip line ≠ "" →
    shuffled_view (shuffle g (Py.str_split_ws line)).2 rest rest' →
    shuffled_view g (line :: rest)
      (Py.str_join " " (shuffle g (Py.str_split_ws line)).1 :: rest').

(** The draws of one [quantum_observation] are in range: the roll of
    each listed entry, in turn, draws below the number of states it
    chooses from, which is six for an entry never observed and five
    otherwise. *)
Fixpoint draws_in_range (states : gmap string Z)
    (quantum_entries : list (string * EntryData.t)) (draw : nat → nat)
    (k : nat) : Prop :=
  match quantum_entries with
  | [] => True
  | (full_entry_id, _) :: rest =>
      let old_state := default 0 (states !! full_entry_id) in
      (draw k < QuantumSystem.draws old_state)%nat
      ∧ ∀ new_state,
          QuantumSystem._get_new_state old_state (draw k) = Py.Ok new_state →
          draws_in_range (<[full_entry_id := new_state]> states) rest draw (S k)
  end.

(** ** Sample content for the worked examples *)

Definition nl : string := String "010" EmptyString.

(** Characters outside ASCII, as their UTF-8 bytes: the white space
    U+00A0, U+0085, U+2003 and U+3000, and two characters that are no
    white space, U+200B and U+00E9. *)
Definition no_break_space : string := String "194" (String "160" EmptyString).

Definition next_line : string := String "194" (String "133" EmptyString).

Definition em_space : string :=
  String "226" (String "128" (String "131" EmptyString)).

Definition ideographic_space : string :=
  String "227" (String "128" (String "128" EmptyString)).

Definition zero_width_space : string :=
  String "226" (String "128" (String "139" EmptyString)).

Definition e_acute : string := String "195" (String "169" EmptyString).

(** A text with white space outside ASCII, and a frequency typed with
    such white space around it. *)
Definition spaced_content : string :=
  "observe" +:+ no_break_space +:+ "the rules" +:+ nl +:+ em_space +:+ nl
  +:+ " of quantum   objects".

Definition typed_frequency : string :=
  no_break_space +:+ " 5555" +:+ next_line.

(** A stand-in for [random.Random]: the generator state is a counter
    and a shuffle reverses the words. *)
Definition sample_random : PyRandom :=
  {| rng := Z; Random := fun seed => seed;
     shuffle := fun g words => (reverse words, g + 1) |}.

Definition research_notes : EntryData.t :=
  EntryData.mk "Quantum Research Notes" "wall_text" "academic" true
    ["quantum_rules"] "important" "" true ["time_loop_understanding"] ""
    [] 0 0.

Definition time_loop_intro : EntryData.t :=
  EntryData.mk "The Time Loop" "wall_text" "academic" false
    ["time_loop_understanding"] "critical" "" true [] "" [] 0 0.

Definition deontic_critique : EntryData.t :=
  EntryData.mk "Deontic Critique" "wall_text" "academic" false
    ["deontic_critique"] "optional" "" true ["hornfels_met"] "" [] 0 0.

Definition timber_hearth : Location.t :=
  Location.mk (Some "Timber Hearth") (Some "village_center")
    (list_to_map
       [("village_center",
         POIData.mk (Some "Village Center") "" ["observatory"; "launch_pad"]
           {["launch_pad" := 2]} ["deontic_critique"] false []);
        ("observatory",
         POIData.mk (Some "The Observatory") "" ["village_center"] ∅ []
           false ["hornfels"]);
        ("launch_pad",
         POIData.mk (Some "Launch Pad") "" ["village_center"] ∅ [] true [])])
    {["deontic_critique" := deontic_critique]} [] true.

Definition brittle_hollow : Location.t :=
  Location.mk (Some "Brittle Hollow") (Some "landing_site")
    (list_to_map
       [("landing_site",
         POIData.mk (Some "Landing Site") "" ["quantum_cavern"] ∅
           ["time_loop_intro"] true []);
        ("quantum_cavern",
         POIData.mk (Some "Quantum Cavern") "" ["landing_site"] ∅
           ["quantum_research_notes"] false [])])
    (list_to_map
       [("time_loop_intro", time_loop_intro);
        ("quantum_research_notes", research_notes)])
    ["ship_operation"] false.

Definition sample_data : LocationData.t :=
  LocationData.mk
    (list_to_map [("timber_hearth", timber_hearth);
                  ("brittle_hollow", brittle_hollow)]) 22.

Definition sample_content : string :=
  "observe the rules" +:+ nl +:+ nl +:+ "of quantum objects".

Definition sample_files : ContentLoader.t :=
  ContentLoader.mk
    {["brittle_hollow_quantum_research_notes.md" := sample_content]}.

(** The player in the quantum cavern of Brittle Hollow, nine actions
    into the second loop, having witnessed nothing yet there. *)
Definition sample_poi : POISystem.t :=
  POISystem.mk sample_data "brittle_hollow" "quantum_cavern" false false
    {["timber_hearth.village_center"; "brittle_hollow.landing_site";
      "brittle_hollow.quantum_cavern"]}
    {["timber_hearth.village_center"; "brittle_hollow.landing_site";
      "brittle_hollow.quantum_cavern"]}.

Definition sample_game (research_state : Z) : Orchestrator.t :=
  Orchestrator.mk sample_data
    (KnowledgeMenu.add_knowledge_list
       (KnowledgeMenu.register_entries KnowledgeMenu.init sample_data)
       ["ship_operation"; "cavern_collapse_witnessed"])
    (LoopManager.mk 22 9 2 false false)
    sample_poi
    (QuantumSystem.mk false
       {["brittle_hollow.quantum_research_notes" := research_state]})
    (QuantumNavigator.mk "tree" true)
    sample_files true true true true false None.

(** The menu right after registration of the sample content. *)
Definition sample_menu : KnowledgeMenu.t := KnowledgeMenu.register_entries KnowledgeMenu.init sample_data.

(** The sample menu after the entry gated behind [hornfels_met] was
    read at its POI. *)
Definition menu_after_critique : KnowledgeMenu.t :=
  (KnowledgeMenu.discover_entry sample_menu "timber_hearth.deontic_critique").2.

(** The sample menu after the ungated entry was read. *)
Definition menu_after_intro : KnowledgeMenu.t :=
  (KnowledgeMenu.discover_entry sample_menu "brittle_hollow.time_loop_intro").2.

(** The player outside the grounded ship on the launch pad, the same
    player in orbit, and a menu that knows how to fly. *)
Definition sample_pad : POISystem.t :=
  POISystem.mk sample_data "timber_hearth" "launch_pad" false false
    {["timber_hearth.village_center"; "timber_hearth.launch_pad"]}
    {["timber_hearth.village_center"; "timber_hearth.launch_pad"]}.

Definition sample_orbit : POISystem.t :=
  POISystem.mk sample_data "timber_hearth" "launch_pad" true true
    {["timber_hearth.village_center"; "timber_hearth.launch_pad"]}
    {["timber_hearth.village_center"; "timber_hearth.launch_pad"]}.

Definition pilot_menu : KnowledgeMenu.t :=
  KnowledgeMenu.add_knowledge sample_menu "ship_operation".

(** Content with a connection to a POI that is not described. *)
Definition broken_data : LocationData.t :=
  LocationData.mk
    {["timber_hearth" :=
        Location.mk (Some "Timber Hearth") (Some "village_center")
          {["village_center" :=
              POIData.mk (Some "Village Center") "" ["old_mine"] ∅ [] false []]}
          ∅ [] true]} 22.

Definition broken_poi : POISystem.t :=
  POISystem.mk broken_data "timber_hearth" "village_center" false false
    {["timber_hearth.village_center"]} {["timber_hearth.village_center"]}.

(** A quantum system with its eyes open that has seen the research
    notes in state 3, and a generator that always draws 2. *)
Definition sample_quantum : QuantumSystem.t :=
  QuantumSystem.mk false {["brittle_hollow.quantum_research_notes" := 3]}.

Definition always_two : nat → nat := fun _ => 2%nat.

Definition always_five : nat → nat := fun _ => 5%nat.

(** The sample content with the Quantum Moon added, and a game on it:
    the player at the radio station, aboard nothing, knowing the
    signal frequencies and how to fly. *)
Definition quantum_moon : Location.t :=
  Location.mk (Some "Quantum Moon") (Some "surface")
    {["surface" := POIData.mk (Some "Surface") "" [] ∅ [] true []]}
    ∅ ["ship_operation"] false.

Definition radio_hearth : Location.t :=
  Location.mk (Some "Timber Hearth") (Some "village_center")
    (list_to_map
       [("village_center",
         POIData.mk (Some "Village Center") "" ["radio_station"] ∅
           ["deontic_critique"] false []);
        ("radio_station",
         POIData.mk (Some "Radio Station") "" ["village_center"] ∅ [] true [])])
    {["deontic_critique" := deontic_critique]} [] true.

Definition moon_data : LocationData.t :=
  LocationData.mk
    (list_to_map [("timber_hearth", radio_hearth);
                  ("quantum_moon", quantum_moon)]) 22.

Definition moon_game : Orchestrator.t :=
  Orchestrator.mk moon_data
    (KnowledgeMenu.add_knowledge_list
       (KnowledgeMenu.register_entries KnowledgeMenu.init moon_data)
       ["ship_operation"; "signal_scope_frequencies"])
    (LoopManager.mk 22 5 1 true false)
    (POISystem.mk moon_data "timber_hearth" "radio_station" true false
       {["timber_hearth.village_center"; "timber_hearth.radio_station"]}
       {["timber_hearth.village_center"; "timber_hearth.radio_station"]})
    QuantumSystem.init QuantumNavigator.init (ContentLoader.mk ∅)
    true true false false false None.

(** The sample game with the ungated entry's text on disk, the player
    standing where that entry is. *)
Definition reader_game : Orchestrator.t :=
  Orchestrator.mk sample_data
    (KnowledgeMenu.register_entries KnowledgeMenu.init sample_data)
    (LoopManager.mk 22 3 1 true false)
    (POISystem.mk sample_data "brittle_hollow" "landing_site" false false
       {["brittle_hollow.landing_site"]} {["brittle_hollow.landing_site"]})
    QuantumSystem.init QuantumNavigator.init
    (ContentLoader.mk {["brittle_hollow_time_loop_intro.md" := sample_content]})
    true true false false false None.

(** * Properties *)

(** ** Text *)
Section Text.

(** The characters of an ASCII text are its bytes. *)
Lemma chars_ascii (s : string) :
  Py.is_ascii s = true →
  Py.chars s = (fun c => String c EmptyString) <$> list_ascii_of_string s.
Proof.
  induction s as [|c s IH]; [reflexivity|].
  cbn [Py.is_ascii list_ascii_of_string forallb]. intros Hs.
  apply andb_true_iff in Hs. destruct Hs as [_ Hs].
  cbn [Py.chars]. rewrite (IH Hs).
  destruct s as [|d s]; [reflexivity|].
  cbn [list_ascii_of_string fmap list_fmap].
  cbn [Py.is_ascii list_ascii_of_string forallb] in Hs.
  apply andb_true_iff in Hs. destruct Hs as [Hd _].
  apply Nat.ltb_lt in Hd.
  unfold Py.is_continuation.
  destruct (Nat.leb_spec 128 (nat_of_ascii d)) as [L|L]; [lia|reflexivity].
Qed.

(** [strip] and [split] take the white space outside ASCII like the
    white space of ASCII, and no other character: a zero-width space
    and an accented letter stay. *)
Lemma strip_split_beyond_ascii :
  Py.str_strip (no_break_space +:+ " 5555" +:+ next_line) = "5555"
  ∧ Py.str_strip ("east" +:+ no_break_space) = "east"
  ∧ Py.str_split_ws
      (" of" +:+ em_space +:+ "quantum" +:+ ideographic_space +:+ " objects")
    = ["of"; "quantum"; "objects"]
  ∧ Py.str_strip (zero_width_space +:+ "5555") = zero_width_space +:+ "5555"
  ∧ Py.str_split_ws ("caf" +:+ e_acute +:+ " cr" +:+ e_acute +:+ "me")
    = ["caf" +:+ e_acute; "cr" +:+ e_acute +:+ "me"]
  ∧ Py.code_point <$> Py.chars ("a" +:+ e_acute +:+ em_space)
    = [0x61; 0xE9; 0x2003].
Proof. vm_compute. repeat split. Qed.

End Text.

(** ** Helper facts on the Python runtime model *)

Lemma elem_of_set_add_all (s : gset string) (xs : list string) (k : string) :
  k ∈ Py.set_add_all s xs ↔ k ∈ s ∨ k ∈ xs.
Proof.
  unfold Py.set_add_all. revert s.
  induction xs as [|x xs IH]; intros s; simpl.
  - set_solver.
  - rewrite IH. set_solver.
Qed.

Lemma set_add_all_union (s : gset string) (xs : list string) :
  Py.set_add_all s xs = s ∪ list_to_set xs.
Proof.
  apply set_eq. intros k. rewrite elem_of_set_add_all. set_solver.
Qed.

(** ** The loop clock *)
Section LoopClock.
Import LoopManager.

(** The collapse signal is returned exactly when the counter lands on
    14 with the flag still down. *)
Lemma increment_action_collapse (lm : t) (cost : Z) :
  (increment_action lm cost).1 = quantum_cavern_collapse
  ↔ current_actions lm + cost = 14 ∧ cavern_has_collapsed lm = false.
Proof.
  unfold increment_action; simpl.
  destruct (Z.eqb_spec (current_actions lm + cost) 14) as [E|E];
    destruct (cavern_has_collapsed lm); simpl;
    try destruct (_ >=? _); simpl; split; intros; try easy; intuition.
Qed.

Lemma increment_action_flag (lm : t) (cost : Z) :
  cavern_has_collapsed lm = true →
  cavern_has_collapsed (increment_action lm cost).2 = true
  ∧ (increment_action lm cost).1 ≠ quantum_cavern_collapse.
Proof.
  intros Hc. unfold increment_action; simpl. rewrite Hc.
  rewrite andb_false_r. destruct (_ >=? _); simpl; auto.
Qed.

Lemma run_flag_no_collapse (costs : list Z) (lm : t) :
  cavern_has_collapsed lm = true →
  quantum_cavern_collapse ∉ (run lm costs).1.
Proof.
  revert lm. induction costs as [|c costs IH]; intros lm Hc; simpl.
  - set_solver.
  - destruct (increment_action_flag lm c Hc) as [Hf Hs].
    destruct (increment_action lm c) as [s lm1] eqn:E; simpl in *.
    destruct s; try congruence.
    + set_solver.
    + specialize (IH lm1 Hf). destruct (run lm1 costs) as [ss lm2].
      simpl in *. set_solver.
Qed.

(** X1.  Whatever the costs, positive or not, one loop never sees the
    collapse signal twice. *)
Lemma run_collapse_at_most_once (costs : list Z) (lm : t) :
  (length (List.filter (fun s => bool_decide (s = quantum_cavern_collapse))
             (run lm costs).1) <= 1)%nat.
Proof.
  revert lm. induction costs as [|c costs IH]; intros lm; simpl.
  - lia.
  - destruct (increment_action lm c) as [s lm1] eqn:E.
    destruct s.
    + assert (Hf : cavern_has_collapsed lm1 = true).
      { unfold increment_action in E; simpl in E.
        destruct (_ && _); [|destruct (_ >=? _)]; inversion E; reflexivity. }
      pose proof (run_flag_no_collapse costs lm1 Hf) as Hno.
      destruct (run lm1 costs) as [ss lm2]; simpl in *.
      enough (List.filter
                (fun s => bool_decide (s = quantum_cavern_collapse)) ss = [])
        as -> by (simpl; lia).
      clear -Hno. induction ss as [|a ss IHs]; simpl; [reflexivity|].
      case_bool_decide; [set_solver|]. apply IHs. set_solver.
    + simpl. lia.
    + specialize (IH lm1). destruct (run lm1 costs) as [ss lm2]; simpl in *.
      exact IH.
Qed.

Lemma increment_action_quiet (lm : t) (cost : Z) :
  current_actions lm + cost ≠ 14 →
  current_actions lm + cost < actions_until_supernova lm →
  increment_action lm cost
  = (no_signal, set_current_actions (current_actions lm + cost) lm).
Proof.
  intros E G. unfold increment_action; simpl.
  destruct (Z.eqb_spec (current_actions lm + cost) 14); [lia|]. simpl.
  destruct (Z.geb_spec (current_actions lm + cost)
              (actions_until_supernova lm)); [lia|reflexivity].
Qed.

(** With unit costs and a terminal threshold above 14, the signal comes
    on the call that brings the counter to 14. *)
Lemma run_unit_costs_collapse (n : nat) (lm : t) :
  cavern_has_collapsed lm = false →
  current_actions lm = 13 - Z.of_nat n →
  14 < actions_until_supernova lm →
  (run lm (replicate (S n) 1)).1
  = replicate n no_signal ++ [quantum_cavern_collapse].
Proof.
  revert lm. induction n as [|n IH]; intros lm Hc Ha Ht.
  - simpl. unfold increment_action; simpl. rewrite Hc, Ha. reflexivity.
  - change (replicate (S (S n)) 1) with (1 :: replicate (S n) 1).
    cbn [run]. rewrite increment_action_quiet by lia.
    set (lm1 := set_current_actions (current_actions lm + 1) lm).
    specialize (IH lm1 Hc).
    destruct (run lm1 (replicate (S n) 1)) as [ss lm2]. simpl in *.
    rewrite IH; [reflexivity | lia | exact Ht].
Qed.

(** Once the counter is past 14, no call of positive cost brings the
    signal for the rest of the loop. *)
Lemma run_past_mid_loop (costs : list Z) (lm : t) :
  14 < current_actions lm →
  Forall (fun c => 0 < c) costs →
  quantum_cavern_collapse ∉ (run lm costs).1.
Proof.
  revert lm. induction costs as [|c costs IH]; intros lm Hpast Hpos; simpl.
  - set_solver.
  - apply Forall_cons in Hpos. destruct Hpos as [Hc Hpos].
    assert (Hs : (increment_action lm c).1 ≠ quantum_cavern_collapse).
    { rewrite increment_action_collapse. lia. }
    assert (Hn : 14 < current_actions (increment_action lm c).2).
    { unfold increment_action; simpl.
      destruct (_ && _); [|destruct (_ >=? _)]; simpl; lia. }
    destruct (increment_action lm c) as [s lm1]; simpl in *.
    destruct s; try congruence.
    + set_solver.
    + specialize (IH lm1 Hn Hpos). destruct (run lm1 costs) as [ss lm2].
      simpl in *. set_solver.
Qed.

(** C5 (evaluation at the failing input).  Thirteen calls of cost 1 and
    then one call of cost 2, the cost [land_at_location] reports, take
    the counter from 13 to 15: no call returns the collapse signal, the
    flag stays down, and the counter is past 14 and short of 22. *)
Theorem increment_action_skips_collapse :
  run (init 22) (replicate 13 1 ++ [2])
  = (replicate 14 no_signal, mk 22 15 1 true false).
Proof. reflexivity. Qed.

End LoopClock.

(** ** The quantum navigator *)
Section Navigator.
Import QuantumNavigator.

(** C3 (evaluation at the failing input).  At [convergence] every
    cardinal observation raises [ValueError]: the node has no stable
    path, and [possible_locations.remove] is asked to drop a node that
    is not in the list. *)
Theorem observe_direction_at_convergence_raises (visited : bool) (r : nat) :
  Forall
    (fun direction =>
       observe_direction (mk "convergence" visited) direction r
       = Py.Raise Py.ValueError)
    ["north"; "south"; "east"; "west"].
Proof. repeat constructor. Qed.

(** C2 (the claim as stated fails).  From the platform the random
    branch can land on [crystals], the successor of the stable edge. *)
Lemma observe_direction_platform_reaches_crystals :
  ¬ (∀ direction r,
        direction ∈ ["north"; "south"; "west"] → (r < 3)%nat →
        destination (observe_direction init direction r)
          ∈ [Some "tree"; Some "arch"]).
Proof.
  intros H. specialize (H "north" 0%nat).
  assert (Hin : "north" ∈ ["north"; "south"; "west"]) by set_solver.
  specialize (H Hin ltac:(lia)). vm_compute in H.
  set_solver.
Qed.

(** C2 (amended).  At the platform, looking east always leads to
    [crystals]; looking north, south or west leads, for the three
    equally likely draws, to [crystals], [tree] and [arch] in turn, and
    never to the platform. *)
Theorem observe_direction_platform (visited : bool) :
  (∀ r, destination (observe_direction (mk "platform" visited) "east" r)
        = Some "crystals")
  ∧ Forall
      (fun direction =>
         Py.outcomes 3
           (fun r => destination
                       (observe_direction (mk "platform" visited) direction r))
         = [Some "crystals"; Some "tree"; Some "arch"]
         ∧ ∀ r, destination
                  (observe_direction (mk "platform" visited) direction r)
                ≠ Some "platform")
      ["north"; "south"; "west"].
Proof.
  split; [intros r; reflexivity|].
  repeat constructor;
    intros r; do 3 (destruct r as [|r]; [vm_compute; congruence|]);
    vm_compute; congruence.
Qed.

End Navigator.

(** ** The knowledge store *)
Section Knowledge.
Import KnowledgeMenu.

Lemma entry_id_mark_discovered (loop : Z) (e : KnowledgeEntry) :
  entry_id (mark_discovered loop e) = entry_id e.
Proof. reflexivity. Qed.

(** Discovering a registered, already discovered entry is a no-op. *)
Lemma discover_entry_again (km : t) (id : string) (e : KnowledgeEntry) :
  all_entries km !! id = Some e →
  entry_id e ∈ entries_discovered (progress km) →
  discover_entry km id = (false, km).
Proof.
  intros Hreg Hdisc. unfold discover_entry, add_entry. rewrite Hreg.
  destruct (decide _) as [_|N]; [|contradiction].
  destruct km as [p entries ld]; simpl in *.
  f_equal. f_equal. apply insert_id. exact Hreg.
Qed.

(** C6.  For a registered entry that is not discovered yet, the first
    [discover_entry] returns [True], adds the entry to the discovered
    set, unions its knowledge grants into the knowledge set and raises
    the new-entry counter by one; the second returns [False] and leaves
    the whole menu as the first call left it. *)
Theorem discover_entry_twice (km : t) (id : string) (e : KnowledgeEntry) :
  all_entries km !! id = Some e →
  entry_id e ∉ entries_discovered (progress km) →
  let first := discover_entry km id in
  let second := discover_entry first.2 id in
  first.1 = true
  ∧ second.1 = false
  ∧ second.2 = first.2
  ∧ knowledge_gained (progress first.2)
    = knowledge_gained (progress km) ∪ list_to_set (knowledge_grants e)
  ∧ entries_discovered (progress first.2)
    = entries_discovered (progress km) ∪ {[entry_id e]}
  ∧ new_entries_since_last_view (progress first.2)
    = new_entries_since_last_view (progress km) + 1
  ∧ all_entries first.2
    = <[id := mark_discovered (current_loop (progress km)) e]> (all_entries km).
Proof.
  intros Hreg Hnew first second.
  assert (Hfirst : first
    = (true,
       mk (mkProgress (entries_discovered (progress km) ∪ {[entry_id e]})
             (Py.set_add_all (knowledge_gained (progress km))
                (knowledge_grants e))
             (locations_visited (progress km)) (current_loop (progress km))
             (total_visits (progress km))
             (dialogue_topics_asked (progress km))
             (new_entries_since_last_view (progress km) + 1)
             (discovered_commands (progress km)))
          (<[id := mark_discovered (current_loop (progress km)) e]>
             (all_entries km))
          (location_data km))).
  { subst first. unfold discover_entry, add_entry. rewrite Hreg.
    destruct (decide _) as [Y|_]; [contradiction|reflexivity]. }
  assert (Hsecond : second = (false, first.2)).
  { subst second. rewrite Hfirst. simpl.
    apply (discover_entry_again _ id
             (mark_discovered (current_loop (progress km)) e)).
    - simpl. apply lookup_insert_eq.
    - simpl. set_solver. }
  rewrite Hsecond, Hfirst. simpl.
  repeat split; try reflexivity. apply set_add_all_union.
Qed.

Lemma discover_entry_twice_witness :
  (discover_entry sample_menu "brittle_hollow.time_loop_intro").1 = true
  ∧ (discover_entry
       (discover_entry sample_menu "brittle_hollow.time_loop_intro").2
       "brittle_hollow.time_loop_intro").1 = false.
Proof.
  pose proof (discover_entry_twice sample_menu "brittle_hollow.time_loop_intro"
                (entry_of_data "brittle_hollow" "brittle_hollow.time_loop_intro"
                   time_loop_intro)) as H.
  assert (H1 : all_entries sample_menu !! "brittle_hollow.time_loop_intro"
               = Some (entry_of_data "brittle_hollow"
                         "brittle_hollow.time_loop_intro" time_loop_intro))
    by (vm_compute; reflexivity).
  assert (H2 : "brittle_hollow.time_loop_intro"
               ∉ entries_discovered (progress sample_menu))
    by (apply (bool_decide_unpack _); vm_compute; exact I).
  destruct (H H1 H2) as (A & B & _). split; assumption.
Defined.

Lemma elem_of_visible (km : t) (e : KnowledgeEntry) :
  e ∈ _get_visible_entries km
  ↔ (∃ id, all_entries km !! id = Some e)
    ∧ _should_entry_appear km e = true
    ∧ ((can_access_entry km (entry_id e)).1 = true ∨ discovered e = true).
Proof.
  unfold _get_visible_entries.
  rewrite list_elem_of_In, filter_In, <- list_elem_of_In, list_elem_of_fmap.
  rewrite andb_true_iff, orb_true_iff.
  split.
  - intros [([id x] & -> & Hin) Hp]. apply elem_of_map_to_list in Hin.
    split; [exists id; exact Hin | exact Hp].
  - intros [[id Hin] Hp]. split; [|tauto].
    exists (id, e). split; [reflexivity|]. apply elem_of_map_to_list, Hin.
Qed.

Lemma should_entry_appear_spec (km : t) (e : KnowledgeEntry) :
  _should_entry_appear km e = true
  ↔ ∀ k, k ∈ appears_after e → k ∈ knowledge_gained (progress km).
Proof.
  unfold _should_entry_appear, progress_has_knowledge.
  rewrite forallb_forall. split.
  - intros H k Hk. apply list_elem_of_In in Hk.
    apply (bool_decide_eq_true_1 _), H, Hk.
  - intros H k Hk. apply bool_decide_eq_true_2, H, list_elem_of_In, Hk.
Qed.

(** C4 (the claim as stated fails).  An entry discovered before its
    appears-after token was gained is left out of the visible list. *)
Lemma discovered_entry_hidden :
  ¬ (∀ (km : t) (id : string) (e : KnowledgeEntry),
        all_entries km !! id = Some e → discovered e = true →
        e ∈ _get_visible_entries km).
Proof.
  intros H.
  specialize (H menu_after_critique "timber_hearth.deontic_critique"
                (mark_discovered 1
                   (entry_of_data "timber_hearth"
                      "timber_hearth.deontic_critique" deontic_critique))).
  assert (Hin : mark_discovered 1
                  (entry_of_data "timber_hearth"
                     "timber_hearth.deontic_critique" deontic_critique)
                ∈ _get_visible_entries menu_after_critique)
    by (apply H; vm_compute; reflexivity).
  apply elem_of_visible in Hin. destruct Hin as (_ & Happ & _).
  vm_compute in Happ. discriminate.
Qed.

(** C4 (amended).  A registered entry with [discovered = True] is in
    the visible list exactly when every one of its appears-after tokens
    is in the knowledge set, whatever [can_access_entry] answers. *)
Theorem discovered_entry_visible (km : t) (id : string) (e : KnowledgeEntry) :
  all_entries km !! id = Some e →
  discovered e = true →
  (e ∈ _get_visible_entries km
   ↔ ∀ k, k ∈ appears_after e → k ∈ knowledge_gained (progress km)).
Proof.
  intros Hreg Hdisc.
  rewrite elem_of_visible, should_entry_appear_spec.
  split; [tauto|]. intros H. split; [exists id; exact Hreg | tauto].
Qed.

Lemma discovered_entry_visible_witness :
  mark_discovered 1
    (entry_of_data "brittle_hollow" "brittle_hollow.time_loop_intro"
       time_loop_intro)
  ∈ _get_visible_entries menu_after_intro.
Proof.
  apply (discovered_entry_visible menu_after_intro
           "brittle_hollow.time_loop_intro").
  - vm_compute; reflexivity.
  - reflexivity.
  - intros k Hk. simpl in Hk. inversion Hk.
Defined.

End Knowledge.

(** ** The spatial graph *)
Section Spatial.
Import POISystem.

(** C8.  Moving to a POI that is not among the connections of the
    current POI returns [(False, 0, "You can't reach ... from here.")]
    and hands back the very same object: position, ship flags, visited
    and discovered sets are untouched. *)
Theorem move_to_poi_invalid_target (s : t) (poi_id : string) :
  poi_id ∉ from_option POIData.connections [] (get_current_poi_data s) →
  move_to_poi s poi_id
  = Py.Ok ((false, 0, "You can't reach " +:+ poi_id +:+ " from here."), s).
Proof.
  intros Hnot. unfold move_to_poi.
  rewrite bool_decide_eq_false_2 by exact Hnot. reflexivity.
Qed.

Lemma move_to_poi_invalid_target_witness :
  move_to_poi sample_poi "observatory"
  = Py.Ok ((false, 0, "You can't reach observatory from here."), sample_poi).
Proof.
  apply (move_to_poi_invalid_target sample_poi "observatory").
  apply (bool_decide_unpack _). vm_compute. exact I.
Defined.

(** A connected target, by contrast, is reached and recorded. *)
Lemma move_to_poi_connected (s : t) (poi_id : string) (loc : Location.t) :
  poi_id ∈ from_option POIData.connections [] (get_current_poi_data s) →
  LocationData.locations (location_data s) !! current_location s = Some loc →
  ∃ cost message s',
    move_to_poi s poi_id = Py.Ok ((true, cost, message), s')
    ∧ current_poi s' = poi_id
    ∧ current_location s' = current_location s
    ∧ visited_pois s'
      = visited_pois s ∪ {[current_location s +:+ "." +:+ poi_id]}
    ∧ discovered_pois s'
      = discovered_pois s ∪ {[current_location s +:+ "." +:+ poi_id]}.
Proof.
  intros Hin Hloc. unfold move_to_poi.
  rewrite bool_decide_eq_true_2 by exact Hin. simpl.
  unfold Py.getitem. rewrite Hloc. simpl.
  do 3 eexists. split; [reflexivity|]. simpl. auto.
Qed.

End Spatial.

(** ** Quantum entry states *)
Section QuantumStates.
Import QuantumSystem.

Lemma range_1_7 : Py.range 1 7 = [1; 2; 3; 4; 5; 6].
Proof. reflexivity. Qed.

(** Any roll that returns yields a state in 1..6 other than the old one,
    whatever integer the old state is. *)
Lemma get_new_state_range (old_state : Z) (r : nat) (s : Z) :
  _get_new_state old_state r = Py.Ok s → 1 ≤ s ≤ 6 ∧ s ≠ old_state.
Proof.
  unfold _get_new_state.
  destruct (Z.eqb_spec old_state 0) as [E|E].
  - unfold Py.random_randint. destruct (decide _) as [L|L]; [|discriminate].
    intros [= <-]. lia.
  - unfold Py.random_choice.
    destruct (_ !! r) as [x|] eqn:Hr; [|discriminate].
    intros [= <-]. apply list_elem_of_lookup_2, list_elem_of_In in Hr.
    apply filter_In in Hr. destruct Hr as [Hin Hne].
    rewrite range_1_7 in Hin. apply negb_true_iff, Z.eqb_neq in Hne.
    simpl in Hin. intuition lia.
Qed.

(** A draw below 5 is in range whatever the old state is. *)
Lemma get_new_state_returns (old_state : Z) (r : nat) :
  (r < 5)%nat → ∃ s, _get_new_state old_state r = Py.Ok s.
Proof.
  intros Hr. unfold _get_new_state.
  destruct (Z.eqb_spec old_state 0) as [E|E].
  - unfold Py.random_randint. destruct (decide _) as [L|L]; [eauto|lia].
  - unfold Py.random_choice. rewrite range_1_7.
    assert (Hlen : (5 <= length (List.filter
                                   (fun s => negb (Z.eqb s old_state))
                                   [1%Z; 2%Z; 3%Z; 4%Z; 5%Z; 6%Z]))%nat).
    { cbn [List.filter].
      destruct (Z.eqb_spec 1 old_state), (Z.eqb_spec 2 old_state),
        (Z.eqb_spec 3 old_state), (Z.eqb_spec 4 old_state),
        (Z.eqb_spec 5 old_state), (Z.eqb_spec 6 old_state);
        cbn [negb length]; lia. }
    destruct (lookup_lt_is_Some_2
                (List.filter (fun s => negb (s =? old_state)) [1; 2; 3; 4; 5; 6])
                r ltac:(lia)) as [x ->].
    eauto.
Qed.

(** The batch re-roll of one observation: entries that are not listed
    keep their state, listed entries end in a state of 1..6, and an
    entry listed once ends in a state other than the one it had. *)
Lemma reroll_spec (quantum_entries : list (string * EntryData.t))
    (states states' : gmap string Z) (draw : nat → nat) (k : nat) :
  reroll states quantum_entries draw k = Py.Ok states' →
  (∀ id, id ∉ quantum_entries.*1 → states' !! id = states !! id)
  ∧ (∀ id, id ∈ quantum_entries.*1 →
       ∃ s, states' !! id = Some s ∧ 1 ≤ s ≤ 6)
  ∧ (NoDup quantum_entries.*1 →
     ∀ id, id ∈ quantum_entries.*1 →
       default 0 (states' !! id) ≠ default 0 (states !! id)).
Proof.
  revert states k.
  induction quantum_entries as [|[id0 d] rest IH]; intros states k Hrun.
  - simpl in Hrun. injection Hrun as <-.
    split; [auto|]. split; intros; set_solver.
  - cbn [reroll] in Hrun.
    destruct (_get_new_state (default 0 (states !! id0)) (draw k))
      as [new|err] eqn:Hnew; [|discriminate].
    cbn in Hrun. apply IH in Hrun. destruct Hrun as (Hout & Hin & Hdiff).
    destruct (get_new_state_range _ _ _ Hnew) as [Hrange Hne].
    assert (Hkeep : ∀ id, id ∉ rest.*1 →
              states' !! id = <[id0:=new]> states !! id) by exact Hout.
    cbn [fmap list_fmap fst]. repeat split.
    + intros id Hid. apply not_elem_of_cons in Hid. destruct Hid as [N1 N2].
      rewrite (Hkeep id N2). apply lookup_insert_ne. congruence.
    + intros id Hid.
      destruct (decide (id ∈ rest.*1)) as [Y|N]; [apply Hin, Y|].
      apply elem_of_cons in Hid. destruct Hid as [->|Hid]; [|contradiction].
      exists new. rewrite (Hkeep id0 N), lookup_insert_eq. auto.
    + intros Hnd id Hid. apply NoDup_cons in Hnd. destruct Hnd as [Hfresh Hnd].
      apply elem_of_cons in Hid. destruct Hid as [->|Hid].
      * rewrite (Hkeep id0 Hfresh), lookup_insert_eq. exact Hne.
      * assert (id ≠ id0) by (intros ->; contradiction).
        specialize (Hdiff Hnd id Hid).
        rewrite lookup_insert_ne in Hdiff by congruence. exact Hdiff.
Qed.

Lemma reroll_returns (quantum_entries : list (string * EntryData.t))
    (states : gmap string Z) (draw : nat → nat) (k : nat) :
  (∀ i, (draw i < 5)%nat) →
  ∃ states', reroll states quantum_entries draw k = Py.Ok states'.
Proof.
  intros Hdraw. revert states k.
  induction quantum_entries as [|[id0 d] rest IH]; intros states k.
  - eexists; reflexivity.
  - cbn [reroll].
    destruct (get_new_state_returns (default 0 (states !! id0)) (draw k)
                (Hdraw k)) as [new ->].
    cbn. apply IH.
Qed.

(** With draws below 5, which are in range for every roll, one
    observation with open eyes returns [False], leaves the eyes open,
    re-rolls every quantum entry listed at the current POI into a state
    of 1..6 and touches no other entry; when no entry is listed twice,
    each listed entry ends in a state other than the one it had. *)
Lemma quantum_observation_spec (qs : t) (location_system : POISystem.t)
    (draw : nat → nat) :
  eyes_closed qs = false →
  (∀ i, (draw i < 5)%nat) →
  ∃ qs',
    quantum_observation qs location_system draw = Py.Ok (false, qs')
    ∧ eyes_closed qs' = false
    ∧ (∀ id, id ∉ (_get_all_quantum_entries_at_poi location_system).*1 →
         get_entry_state qs' id = get_entry_state qs id)
    ∧ (∀ id, id ∈ (_get_all_quantum_entries_at_poi location_system).*1 →
         1 ≤ get_entry_state qs' id ≤ 6)
    ∧ (NoDup (_get_all_quantum_entries_at_poi location_system).*1 →
       ∀ id, id ∈ (_get_all_quantum_entries_at_poi location_system).*1 →
         get_entry_state qs' id ≠ get_entry_state qs id).
Proof.
  intros Hopen Hdraw. unfold quantum_observation. rewrite Hopen.
  destruct (reroll_returns (_get_all_quantum_entries_at_poi location_system)
              (quantum_states qs) draw 0 Hdraw) as [states' Hrun].
  rewrite Hrun. cbn. eexists. split; [reflexivity|].
  destruct (reroll_spec _ _ _ _ _ Hrun) as (Hout & Hin & Hdiff).
  unfold get_entry_state. cbn [eyes_closed quantum_states].
  repeat split.
  - intros id Hid. rewrite (Hout id Hid). reflexivity.
  - destruct (Hin id H) as (s & -> & Hs). simpl. lia.
  - destruct (Hin id H) as (s & -> & Hs). simpl. lia.
  - intros Hnd id Hid. apply (Hdiff Hnd id Hid).
Qed.

(** A draw within the range of its roll gives a state. *)
Lemma get_new_state_in_range (old_state : Z) (r : nat) :
  (r < draws old_state)%nat → ∃ s, _get_new_state old_state r = Py.Ok s.
Proof.
  unfold draws, _get_new_state. intros Hr.
  destruct (Z.eqb_spec old_state 0) as [E|E].
  - unfold Py.random_randint. destruct (decide _) as [L|L]; [eauto|lia].
  - unfold Py.random_choice.
    destruct (lookup_lt_is_Some_2 _ r Hr) as [x ->]. eauto.
Qed.

Lemma reroll_in_range (quantum_entries : list (string * EntryData.t))
    (states : gmap string Z) (draw : nat → nat) (k : nat) :
  draws_in_range states quantum_entries draw k →
  ∃ states', reroll states quantum_entries draw k = Py.Ok states'.
Proof.
  revert states k.
  induction quantum_entries as [|[id0 d] rest IH]; intros states k Hdraw.
  - eexists; reflexivity.
  - cbn [draws_in_range] in Hdraw. destruct Hdraw as [Hlt Hrest].
    cbn [reroll].
    destruct (get_new_state_in_range _ _ Hlt) as [new Hnew].
    rewrite Hnew. cbn. apply IH, Hrest, Hnew.
Qed.

(** An entry listed once, whatever else is listed and however often,
    leaves the batch re-roll in a state other than the one it had. *)
Lemma reroll_listed_once (quantum_entries : list (string * EntryData.t))
    (states states' : gmap string Z) (draw : nat → nat) (k : nat)
    (id : string) (before after : list string) :
  reroll states quantum_entries draw k = Py.Ok states' →
  quantum_entries.*1 = before ++ id :: after →
  id ∉ before → id ∉ after →
  default 0 (states' !! id) ≠ default 0 (states !! id).
Proof.
  revert states k before.
  induction quantum_entries as [|[id0 d] rest IH];
    intros states k before Hrun Hsplit Hbefore Hafter.
  - destruct before; discriminate.
  - cbn [reroll] in Hrun.
    destruct (_get_new_state (default 0 (states !! id0)) (draw k))
      as [new|err] eqn:Hnew; [|discriminate].
    cbn in Hrun.
    destruct (get_new_state_range _ _ _ Hnew) as [_ Hne].
    cbn [fmap list_fmap fst] in Hsplit.
    destruct before as [|b before'].
    + injection Hsplit as -> Hrest.
      destruct (reroll_spec _ _ _ _ _ Hrun) as (Hout & _).
      rewrite Hout by (rewrite Hrest; exact Hafter).
      rewrite lookup_insert_eq. exact Hne.
    + injection Hsplit as -> Hrest.
      apply not_elem_of_cons in Hbefore. destruct Hbefore as [Hid Hbefore].
      specialize (IH _ _ _ Hrun Hrest Hbefore Hafter).
      rewrite lookup_insert_ne in IH by congruence. exact IH.
Qed.

(** X19.  One observation with open eyes, every draw within the range
    of its roll (below 6 for an entry never observed, below 5
    otherwise), returns [False], leaves the eyes open, re-rolls every
    quantum entry listed at the current POI into a state of 1..6 and
    touches no other entry; an entry that is listed once, whatever else
    is listed, ends in a state other than the one it had. *)
Theorem quantum_observation_rerolls (qs : t) (location_system : POISystem.t)
    (draw : nat → nat) :
  let quantum_entries := _get_all_quantum_entries_at_poi location_system in
  eyes_closed qs = false →
  draws_in_range (quantum_states qs) quantum_entries draw 0 →
  ∃ qs',
    quantum_observation qs location_system draw = Py.Ok (false, qs')
    ∧ eyes_closed qs' = false
    ∧ (∀ id, id ∉ quantum_entries.*1 →
         get_entry_state qs' id = get_entry_state qs id)
    ∧ (∀ id, id ∈ quantum_entries.*1 → 1 ≤ get_entry_state qs' id ≤ 6)
    ∧ (∀ id before after,
         quantum_entries.*1 = before ++ id :: after →
         id ∉ before → id ∉ after →
         get_entry_state qs' id ≠ get_entry_state qs id).
Proof.
  intros quantum_entries Hopen Hdraw. unfold quantum_observation.
  rewrite Hopen. fold quantum_entries.
  destruct (reroll_in_range quantum_entries (quantum_states qs) draw 0 Hdraw)
    as [states' Hrun].
  rewrite Hrun. cbn. eexists. split; [reflexivity|].
  destruct (reroll_spec _ _ _ _ _ Hrun) as (Hout & Hin & _).
  unfold get_entry_state. cbn [eyes_closed quantum_states].
  split; [reflexivity|]. split; [|split].
  - intros id Hid. rewrite (Hout id Hid). reflexivity.
  - intros id Hid. destruct (Hin id Hid) as (s & -> & Hs). simpl. lia.
  - intros id before after Hsplit Hbefore Hafter.
    apply (reroll_listed_once _ _ _ _ _ _ _ _ Hrun Hsplit Hbefore Hafter).
Qed.



End QuantumStates.

(** ** Reset and reading at the orchestrator *)
Section Game.
Import Orchestrator.

Lemma clear_loop_flags_knowledge (km : KnowledgeMenu.t) :
  KnowledgeMenu.knowledge_gained (KnowledgeMenu.progress (clear_loop_flags km))
  = KnowledgeMenu.knowledge_gained (KnowledgeMenu.progress km)
    ∖ {["cavern_collapse_witnessed"]}.
Proof.
  unfold clear_loop_flags. case_bool_decide; simpl; [reflexivity|].
  set_solver.
Qed.

Lemma clear_loop_flags_frame (km : KnowledgeMenu.t) :
  KnowledgeMenu.entries_discovered (KnowledgeMenu.progress (clear_loop_flags km))
  = KnowledgeMenu.entries_discovered (KnowledgeMenu.progress km)
  ∧ KnowledgeMenu.all_entries (clear_loop_flags km)
    = KnowledgeMenu.all_entries km
  ∧ KnowledgeMenu.current_loop (KnowledgeMenu.progress (clear_loop_flags km))
    = KnowledgeMenu.current_loop (KnowledgeMenu.progress km).
Proof. unfold clear_loop_flags. case_bool_decide; simpl; auto. Qed.

(** The reset returns as soon as the content knows [timber_hearth]. *)
Lemma supernova_reset_returns (o : t) (home : Location.t) :
  LocationData.locations (POISystem.location_data (poi_system o))
    !! "timber_hearth" = Some home →
  supernova_reset o
  = Py.Ok
      (mk (location_data o)
         (clear_loop_flags (KnowledgeMenu.increment_loop (knowledge_menu o)))
         (LoopManager.mk
            (LoopManager.actions_until_supernova (loop_manager o)) 0
            (LoopManager.loop_count (loop_manager o) + 1) false false)
         (POISystem.mk (POISystem.location_data (poi_system o))
            "timber_hearth"
            (default "village_center" (Location.starting_poi home))
            false false
            (POISystem.discovered_pois (poi_system o)
             ∪ {["timber_hearth" +:+ "."
                 +:+ default "village_center" (Location.starting_poi home)]})
            (POISystem.visited_pois (poi_system o)
             ∪ {["timber_hearth" +:+ "."
                 +:+ default "village_center" (Location.starting_poi home)]}))
         (quantum_system o)
         (QuantumNavigator.mk "platform"
            (QuantumNavigator.has_visited_platform (quantum_navigator o)))
         (content_loader o) (intro_complete o)
         (observatory_tutorial_shown o) false false false None).
Proof.
  intros Hhome. unfold supernova_reset, reset_position,
    POISystem._initialize_starting_position, Py.getitem. simpl.
  rewrite Hhome. reflexivity.
Qed.

(** The turn on which the counter reaches the terminal threshold runs
    the supernova reset on the ticked clock. *)
Lemma after_command_supernova (o : t) :
  (String.eqb (POISystem.current_location (poi_system o)) "quantum_moon"
   && String.eqb (POISystem.current_poi (poi_system o)) "grove") = false →
  LoopManager.current_actions (loop_manager o) + 1 ≠ 14 →
  LoopManager.actions_until_supernova (loop_manager o)
    ≤ LoopManager.current_actions (loop_manager o) + 1 →
  after_command o true
  = supernova_reset
      (set_loop_manager
         (LoopManager.set_current_actions
            (LoopManager.current_actions (loop_manager o) + 1)
            (loop_manager o)) o).
Proof.
  intros Hgrove Hmid Hend. unfold after_command. rewrite Hgrove.
  cbn [andb negb]. unfold LoopManager.increment_action.
  cbn [LoopManager.current_actions LoopManager.set_current_actions
       LoopManager.actions_until_supernova LoopManager.cavern_has_collapsed].
  destruct (Z.eqb_spec (LoopManager.current_actions (loop_manager o) + 1) 14)
    as [E|E]; [contradiction|]. cbn [andb].
  destruct (Z.geb_spec (LoopManager.current_actions (loop_manager o) + 1)
              (LoopManager.actions_until_supernova (loop_manager o)))
    as [G|G]; [reflexivity|lia].
Qed.

(** C1.  When the content has the home location, the supernova reset
    returns; afterwards the action counter is 0, the collapse flag is
    down, the loop counter is one higher, the player stands at the
    starting POI of [timber_hearth] outside a grounded ship, the token
    [cavern_collapse_witnessed] is gone, every other knowledge token is
    present exactly when it was before, and the discovered set and the
    registered entries are as before. *)
Theorem supernova_reset_spec (o : t) (home : Location.t) :
  LocationData.locations (POISystem.location_data (poi_system o))
    !! "timber_hearth" = Some home →
  ∃ o',
    supernova_reset o = Py.Ok o'
    ∧ LoopManager.current_actions (loop_manager o') = 0
    ∧ LoopManager.cavern_has_collapsed (loop_manager o') = false
    ∧ LoopManager.loop_count (loop_manager o')
      = LoopManager.loop_count (loop_manager o) + 1
    ∧ POISystem.current_location (poi_system o') = "timber_hearth"
    ∧ POISystem.current_poi (poi_system o')
      = default "village_center" (Location.starting_poi home)
    ∧ POISystem.in_ship (poi_system o') = false
    ∧ POISystem.ship_flying (poi_system o') = false
    ∧ ("cavern_collapse_witnessed"
       ∉ KnowledgeMenu.knowledge_gained
           (KnowledgeMenu.progress (knowledge_menu o')))
    ∧ (∀ k, k ≠ "cavern_collapse_witnessed" →
         (k ∈ KnowledgeMenu.knowledge_gained
                (KnowledgeMenu.progress (knowledge_menu o'))
          ↔ k ∈ KnowledgeMenu.knowledge_gained
                  (KnowledgeMenu.progress (knowledge_menu o))))
    ∧ KnowledgeMenu.entries_discovered (KnowledgeMenu.progress (knowledge_menu o'))
      = KnowledgeMenu.entries_discovered (KnowledgeMenu.progress (knowledge_menu o))
    ∧ KnowledgeMenu.all_entries (knowledge_menu o')
      = KnowledgeMenu.all_entries (knowledge_menu o).
Proof.
  intros Hhome. eexists. split; [apply (supernova_reset_returns o home Hhome)|].
  cbn [loop_manager poi_system knowledge_menu LoopManager.current_actions
       LoopManager.cavern_has_collapsed LoopManager.loop_count
       POISystem.current_location POISystem.current_poi POISystem.in_ship
       POISystem.ship_flying].
  rewrite clear_loop_flags_knowledge.
  destruct (clear_loop_flags_frame
              (KnowledgeMenu.increment_loop (knowledge_menu o))) as (-> & -> & _).
  simpl. repeat split; try reflexivity; set_solver.
Qed.

Lemma supernova_reset_spec_witness :
  ∃ o',
    supernova_reset (sample_game 6) = Py.Ok o'
    ∧ LoopManager.current_actions (loop_manager o') = 0
    ∧ LoopManager.cavern_has_collapsed (loop_manager o') = false
    ∧ LoopManager.loop_count (loop_manager o') = 3
    ∧ POISystem.current_location (poi_system o') = "timber_hearth"
    ∧ POISystem.current_poi (poi_system o') = "village_center".
Proof.
  destruct (supernova_reset_spec (sample_game 6) timber_hearth)
    as (o' & E & A & B & C & D & F & _).
  - vm_compute; reflexivity.
  - exists o'. repeat split; assumption.
Defined.

(** C10.  The supernova reset hands the quantum system back as it
    found it, so every entry keeps its quantum state into the next
    loop, while the navigator is back on the platform and the player
    back at the home location with both ship flags down. *)
Theorem supernova_reset_keeps_quantum_states (o : t) (home : Location.t) :
  LocationData.locations (POISystem.location_data (poi_system o))
    !! "timber_hearth" = Some home →
  ∃ o',
    supernova_reset o = Py.Ok o'
    ∧ QuantumSystem.quantum_states (quantum_system o')
      = QuantumSystem.quantum_states (quantum_system o)
    ∧ (∀ full_entry_id,
         QuantumSystem.get_entry_state (quantum_system o') full_entry_id
         = QuantumSystem.get_entry_state (quantum_system o) full_entry_id)
    ∧ QuantumNavigator.current_location (quantum_navigator o') = "platform"
    ∧ POISystem.current_location (poi_system o') = "timber_hearth"
    ∧ POISystem.in_ship (poi_system o') = false
    ∧ POISystem.ship_flying (poi_system o') = false.
Proof.
  intros Hhome. eexists. split; [apply (supernova_reset_returns o home Hhome)|].
  simpl. repeat split; reflexivity.
Qed.

Lemma supernova_reset_keeps_quantum_states_witness :
  ∃ o',
    supernova_reset (sample_game 6) = Py.Ok o'
    ∧ QuantumSystem.get_entry_state (quantum_system o')
        "brittle_hollow.quantum_research_notes" = 6
    ∧ QuantumNavigator.current_location (quantum_navigator o') = "platform".
Proof.
  destruct (supernova_reset_keeps_quantum_states (sample_game 6) timber_hearth)
    as (o' & E & _ & S & N & _).
  - vm_compute; reflexivity.
  - exists o'. split; [exact E|]. split; [rewrite S; reflexivity | exact N].
Defined.

End Game.

(** ** Reading quantum entries *)
Section Reading.
Context `{PyRandom}.
Import Orchestrator.

Lemma foldl_add_knowledge_frame (grants : list string) (km : KnowledgeMenu.t) :
  KnowledgeMenu.all_entries (foldl KnowledgeMenu.add_knowledge km grants)
  = KnowledgeMenu.all_entries km
  ∧ KnowledgeMenu.entries_discovered
      (KnowledgeMenu.progress (foldl KnowledgeMenu.add_knowledge km grants))
    = KnowledgeMenu.entries_discovered (KnowledgeMenu.progress km)
  ∧ KnowledgeMenu.location_data (foldl KnowledgeMenu.add_knowledge km grants)
    = KnowledgeMenu.location_data km.
Proof.
  revert km. induction grants as [|g grants IH]; intros km; simpl; [auto|].
  destruct (IH (KnowledgeMenu.add_knowledge km g)) as (-> & -> & ->).
  auto.
Qed.

Lemma load_and_display_existing (cl : ContentLoader.t)
    (location_id entry_id file_name content : string)
    (entry_data : EntryData.t) (quantum_state : Z) :
  ContentLoader.content_map !! (location_id +:+ "." +:+ entry_id)
    = Some file_name →
  ContentLoader.files cl !! file_name = Some content →
  ContentLoader.load_and_display_entry cl location_id entry_id
    (Some entry_data) (Some quantum_state)
  = Py.Ok (true,
           ContentLoader.file_content
             (QuantumSystem.scramble_text content quantum_state)).
Proof.
  intros Hmap Hfile. unfold ContentLoader.load_and_display_entry.
  rewrite Hmap. cbn [mbind option_bind]. rewrite Hfile.
  unfold ContentLoader._display_from_file, QuantumSystem.scramble_text,
    ContentLoader._scramble_text.
  destruct (quantum_state =? 6); reflexivity.
Qed.

(** What [_read_entry] does on a quantum entry whose content file
    exists. *)
Lemma read_entry_quantum (o : t)
    (location_id entry_id file_name content : string)
    (entry_data : EntryData.t) :
  let full_id := location_id +:+ "." +:+ entry_id in
  _get_entry_raw_data o full_id = Some entry_data →
  EntryData.quantum entry_data = true →
  ContentLoader.content_map !! full_id = Some file_name →
  ContentLoader.files (content_loader o) !! file_name = Some content →
  _read_entry o location_id entry_id
  = let s := QuantumSystem.get_entry_state (quantum_system o) full_id in
    Py.Ok
      (displayed
         (ContentLoader.file_content (QuantumSystem.scramble_text content s)),
       if s =? 6 then
         let found := KnowledgeMenu.discover_entry (knowledge_menu o) full_id in
         set_knowledge_menu
           (if found.1
            then foldl KnowledgeMenu.add_knowledge found.2
                   (EntryData.knowledge_grants entry_data)
            else found.2) o
       else o).
Proof.
  intros full_id Hraw Hq Hmap Hfile. unfold _read_entry.
  fold full_id. rewrite Hraw. cbn [from_option]. rewrite Hq.
  cbn zeta.
  destruct (Z.eqb_spec
              (QuantumSystem.get_entry_state (quantum_system o) full_id) 6)
    as [E|E].
  - rewrite E.
    destruct (KnowledgeMenu.discover_entry (knowledge_menu o) full_id)
      as [was_new km].
    rewrite (load_and_display_existing _ _ _ file_name content) by assumption.
    reflexivity.
  - rewrite (load_and_display_existing _ _ _ file_name content) by assumption.
    reflexivity.
Qed.

(** Scrambling follows the scrambled view, whatever the generator. *)
Lemma scramble_lines_view (lines : list string) (g : rng) :
  shuffled_view g lines (scramble_lines g lines).
Proof.
  revert g. induction lines as [|line rest IH]; intros g; cbn [scramble_lines].
  - constructor.
  - destruct (String.eqb_spec (Py.str_strip line) "") as [E|E]; cbn [negb].
    + apply view_blank; [exact E | apply IH].
    + destruct (shuffle g (Py.str_split_ws line)) as [words g'] eqn:Hs.
      change words with (words, g').1. change g' with (words, g').2 at 2.
      rewrite <- Hs. apply view_words; [exact E|]. rewrite Hs. apply IH.
Qed.

(** When the library's shuffle only reorders its list, every scrambled
    line is the line it comes from, reordered. *)
Lemma scramble_lines_structure (lines : list string) (g : rng) :
  (∀ g words, (shuffle g words).1 ≡ₚ words) →
  Forall2 scrambled_line lines (scramble_lines g lines).
Proof.
  intros Hperm. revert g. induction lines as [|line rest IH]; intros g.
  - constructor.
  - cbn [scramble_lines]. unfold scrambled_line at 1.
    destruct (String.eqb (Py.str_strip line) "") eqn:Hblank; cbn [negb].
    + constructor; [|apply IH]. unfold scrambled_line. rewrite Hblank.
      reflexivity.
    + pose proof (Hperm g (Py.str_split_ws line)) as Hp.
      destruct (shuffle g (Py.str_split_ws line)) as [words g'].
      constructor; [|apply IH]. unfold scrambled_line. rewrite Hblank.
      exists words. split; [exact Hp | reflexivity].
Qed.

(** Whatever a first [discover_entry] found, and whatever knowledge was
    granted after it, a second one for the same id finds nothing new. *)
Lemma discover_entry_settles (km : KnowledgeMenu.t) (id : string)
    (grants : list string) :
  let found := KnowledgeMenu.discover_entry km id in
  let km' :=
    if found.1 then foldl KnowledgeMenu.add_knowledge found.2 grants
    else found.2 in
  KnowledgeMenu.discover_entry km' id = (false, km').
Proof.
  intros found km'.
  destruct (KnowledgeMenu.all_entries km !! id) as [e|] eqn:Hreg.
  - destruct (decide (KnowledgeMenu.entry_id e
                      ∈ KnowledgeMenu.entries_discovered
                          (KnowledgeMenu.progress km))) as [Y|N].
    + assert (Hfound : found = (false, km))
        by (apply (discover_entry_again km id e); assumption).
      subst km'. rewrite Hfound. cbn [fst snd]. exact Hfound.
    + set (loop := KnowledgeMenu.current_loop (KnowledgeMenu.progress km)).
      assert (Hfound : found.1 = true
                ∧ KnowledgeMenu.all_entries found.2
                  = <[id := KnowledgeMenu.mark_discovered loop e]>
                      (KnowledgeMenu.all_entries km)
                ∧ KnowledgeMenu.entries_discovered
                    (KnowledgeMenu.progress found.2)
                  = KnowledgeMenu.entries_discovered (KnowledgeMenu.progress km)
                    ∪ {[KnowledgeMenu.entry_id e]}).
      { subst found. unfold KnowledgeMenu.discover_entry, KnowledgeMenu.add_entry.
        rewrite Hreg. destruct (decide _) as [Y|_]; [contradiction|].
        cbn [fst snd KnowledgeMenu.all_entries KnowledgeMenu.progress
             KnowledgeMenu.entries_discovered]. auto. }
      destruct Hfound as (Hnew1 & Hall1 & Hdisc1).
      subst km'. rewrite Hnew1.
      destruct (foldl_add_knowledge_frame grants found.2) as (Hall & Hdisc & _).
      apply (discover_entry_again _ id (KnowledgeMenu.mark_discovered loop e)).
      * rewrite Hall, Hall1. apply lookup_insert_eq.
      * rewrite Hdisc, Hdisc1, entry_id_mark_discovered.
        apply elem_of_union. right. apply elem_of_singleton. reflexivity.
  - assert (Hfound : found = (false, km)).
    { subst found. unfold KnowledgeMenu.discover_entry. rewrite Hreg.
      reflexivity. }
    subst km'. rewrite Hfound. cbn [fst snd]. exact Hfound.
Qed.

Context {Hreorders : ShuffleReorders}.

(** C9.  Reading a quantum entry whose content file exists, in state
    [s] of 1..6, shows a text fixed by the content and [s], and a second
    read right after shows the same text and changes nothing.  In the
    states 1..5 the first read changes nothing either, so the entry
    stays undiscovered, and the text is the scrambled view of the
    content: line by line, with one generator seeded by [s], a line of
    white space only as it is and any other line as its words in the
    order the shuffle gives them, one space apart; these are the words
    of the line itself, reordered.  In state 6 the text is the content
    as written, and the first read, and only the first, adds a
    registered entry not yet discovered to the discovered set. *)
Theorem read_quantum_entry (o : t)
    (location_id entry_id file_name content : string)
    (entry_data : EntryData.t) :
  let full_id := location_id +:+ "." +:+ entry_id in
  let s := QuantumSystem.get_entry_state (quantum_system o) full_id in
  _get_entry_raw_data o full_id = Some entry_data →
  EntryData.quantum entry_data = true →
  ContentLoader.content_map !! full_id = Some file_name →
  ContentLoader.files (content_loader o) !! file_name = Some content →
  1 ≤ s ≤ 6 →
  ∃ shown o',
    _read_entry o location_id entry_id
    = Py.Ok (displayed (ContentLoader.file_content shown), o')
    ∧ _read_entry o' location_id entry_id
      = Py.Ok (displayed (ContentLoader.file_content shown), o')
    ∧ shown = QuantumSystem.scramble_text content s
    ∧ (s ≠ 6 →
       o' = o
       ∧ ∃ lines',
           shown = Py.str_join nl lines'
           ∧ shuffled_view (Random s) (Py.str_split "010" content) lines'
           ∧ Forall2 scrambled_line (Py.str_split "010" content) lines')
    ∧ (s = 6 →
       shown = content
       ∧ quantum_system o' = quantum_system o
       ∧ ∀ e,
           KnowledgeMenu.all_entries (knowledge_menu o) !! full_id = Some e →
           KnowledgeMenu.entry_id e
             ∉ KnowledgeMenu.entries_discovered
                 (KnowledgeMenu.progress (knowledge_menu o)) →
           KnowledgeMenu.entries_discovered
             (KnowledgeMenu.progress (knowledge_menu o'))
           = KnowledgeMenu.entries_discovered
               (KnowledgeMenu.progress (knowledge_menu o))
             ∪ {[KnowledgeMenu.entry_id e]}
           ∧ KnowledgeMenu.all_entries (knowledge_menu o') !! full_id
             = Some (KnowledgeMenu.mark_discovered
                       (KnowledgeMenu.current_loop
                          (KnowledgeMenu.progress (knowledge_menu o))) e)).
Proof.
  intros full_id s Hraw Hq Hmap Hfile Hrange.
  pose proof (read_entry_quantum o location_id entry_id file_name content
                entry_data Hraw Hq Hmap Hfile) as Hread.
  fold full_id in Hread. cbn zeta in Hread. fold s in Hread.
  assert (Hs : QuantumSystem.get_entry_state (quantum_system o) full_id = s)
    by reflexivity.
  clearbody s.
  destruct (Z.eqb_spec s 6) as [E|E].
  - (* stabilized: the first read discovers *)
    set (found := KnowledgeMenu.discover_entry (knowledge_menu o) full_id) in *.
    set (km' := if found.1
                then foldl KnowledgeMenu.add_knowledge found.2
                       (EntryData.knowledge_grants entry_data)
                else found.2) in *.
    assert (Hshown : QuantumSystem.scramble_text content s = content).
    { unfold QuantumSystem.scramble_text. rewrite E. reflexivity. }
    exists content, (set_knowledge_menu km' o).
    split; [rewrite <- Hshown at 1; exact Hread|]. split; [|split; [|split]].
    + rewrite (read_entry_quantum (set_knowledge_menu km' o) location_id
                 entry_id file_name content entry_data Hraw Hq Hmap Hfile).
      fold full_id. cbn zeta.
      cbn [quantum_system set_knowledge_menu knowledge_menu].
      rewrite Hs, Hshown. destruct (Z.eqb_spec s 6); [|contradiction].
      subst km' found.
      rewrite (discover_entry_settles (knowledge_menu o) full_id
                 (EntryData.knowledge_grants entry_data)).
      reflexivity.
    + symmetry. exact Hshown.
    + intros N. contradiction.
    + intros _. split; [reflexivity|]. split; [reflexivity|].
      intros e Hreg Hnew.
      set (loop := KnowledgeMenu.current_loop
                     (KnowledgeMenu.progress (knowledge_menu o))).
      assert (Hfound : found.1 = true
                ∧ KnowledgeMenu.all_entries found.2
                  = <[full_id := KnowledgeMenu.mark_discovered loop e]>
                      (KnowledgeMenu.all_entries (knowledge_menu o))
                ∧ KnowledgeMenu.entries_discovered
                    (KnowledgeMenu.progress found.2)
                  = KnowledgeMenu.entries_discovered
                      (KnowledgeMenu.progress (knowledge_menu o))
                    ∪ {[KnowledgeMenu.entry_id e]}).
      { subst found. unfold KnowledgeMenu.discover_entry, KnowledgeMenu.add_entry.
        rewrite Hreg. destruct (decide _) as [Y|_]; [contradiction|].
        cbn [fst snd KnowledgeMenu.all_entries KnowledgeMenu.progress
             KnowledgeMenu.entries_discovered]. auto. }
      destruct Hfound as (Hnew1 & Hall1 & Hdisc1).
      cbn [set_knowledge_menu knowledge_menu]. subst km'. rewrite Hnew1.
      destruct (foldl_add_knowledge_frame
                  (EntryData.knowledge_grants entry_data) found.2)
        as (Hall & Hdisc & _).
      rewrite Hall, Hdisc, Hall1, Hdisc1.
      split; [reflexivity | apply lookup_insert_eq].
  - (* scrambled: nothing changes *)
    exists (QuantumSystem.scramble_text content s), o.
    split; [exact Hread|]. split; [exact Hread|]. split; [reflexivity|].
    split; [|intros N; contradiction].
    intros _. split; [reflexivity|].
    exists (scramble_lines (Random s) (Py.str_split "010" content)).
    split; [|split].
    + unfold QuantumSystem.scramble_text.
      destruct (Z.eqb_spec s 6); [contradiction | reflexivity].
    + apply scramble_lines_view.
    + apply scramble_lines_structure. exact Hreorders.
Qed.

End Reading.

(** The word-reversing stand-in keeps the library's promise. *)
Lemma sample_random_reorders : ShuffleReorders (H := sample_random).
Proof. intros g words. cbn. apply reverse_Permutation. Qed.

Lemma read_quantum_entry_witness :
  ∃ o3 o6,
    sample_content = "observe the rules" +:+ nl +:+ nl +:+ "of quantum objects"
    ∧ Orchestrator._read_entry (H := sample_random) (sample_game 3)
        "brittle_hollow" "quantum_research_notes"
      = Py.Ok (Orchestrator.displayed
                 (ContentLoader.file_content
                    ("rules the observe" +:+ nl +:+ nl +:+ "objects quantum of")),
               o3)
    ∧ o3 = sample_game 3
    ∧ Orchestrator._read_entry (H := sample_random) (sample_game 6)
        "brittle_hollow" "quantum_research_notes"
      = Py.Ok (Orchestrator.displayed (ContentLoader.file_content sample_content),
               o6)
    ∧ KnowledgeMenu.entries_discovered
        (KnowledgeMenu.progress (Orchestrator.knowledge_menu o6))
      = KnowledgeMenu.entries_discovered
          (KnowledgeMenu.progress (Orchestrator.knowledge_menu (sample_game 6)))
        ∪ {["brittle_hollow.quantum_research_notes"]}
    ∧ Orchestrator._read_entry (H := sample_random) o6
        "brittle_hollow" "quantum_research_notes"
      = Py.Ok (Orchestrator.displayed (ContentLoader.file_content sample_content),
               o6).
Proof.
  destruct (read_quantum_entry (H := sample_random)
              (Hreorders := sample_random_reorders) (sample_game 3)
              "brittle_hollow" "quantum_research_notes"
              "brittle_hollow_quantum_research_notes.md" sample_content
              research_notes)
    as (shown & o3 & R1 & _ & Hshown & Same & _);
    [vm_compute; reflexivity | reflexivity | vm_compute; reflexivity
     | vm_compute; reflexivity | vm_compute; split; discriminate |].
  destruct (read_quantum_entry (H := sample_random)
              (Hreorders := sample_random_reorders) (sample_game 6)
              "brittle_hollow" "quantum_research_notes"
              "brittle_hollow_quantum_research_notes.md" sample_content
              research_notes)
    as (shown6 & o6 & R6 & Again & _ & _ & Stable);
    [vm_compute; reflexivity | reflexivity | vm_compute; reflexivity
     | vm_compute; reflexivity | vm_compute; split; discriminate |].
  destruct Stable as (Hshown6 & _ & Hdisc); [vm_compute; reflexivity|].
  destruct (Hdisc (KnowledgeMenu.entry_of_data "brittle_hollow"
                     "brittle_hollow.quantum_research_notes" research_notes))
    as [Hset _];
    [vm_compute; reflexivity
     | apply (bool_decide_unpack _); vm_compute; exact I |].
  exists o3, o6. rewrite Hshown in R1. rewrite Hshown6 in R6, Again.
  split; [reflexivity|]. split; [exact R1|].
  split; [apply Same; vm_compute; discriminate|].
  split; [exact R6|]. split; [exact Hset | exact Again].
Defined.

(** ** More on the loop clock *)
Section LoopClockMore.
Import LoopManager.

Lemma run_units_quiet (n : nat) (lm : t) (rest : list Z) :
  current_actions lm + Z.of_nat n < 14 ∨ 14 ≤ current_actions lm →
  current_actions lm + Z.of_nat n < actions_until_supernova lm →
  run lm (replicate n 1 ++ rest)
  = ((replicate n no_signal
      ++ (run (set_current_actions (current_actions lm + Z.of_nat n) lm) rest).1),
     (run (set_current_actions (current_actions lm + Z.of_nat n) lm) rest).2).
Proof.
  revert lm. induction n as [|n IH]; intros lm Hmid Hend.
  - cbn [replicate app]. replace (current_actions lm + Z.of_nat 0)
      with (current_actions lm) by lia.
    destruct lm; cbn. destruct (run _ rest); reflexivity.
  - cbn [replicate app run]. rewrite increment_action_quiet by lia.
    rewrite IH by (cbn; lia). cbn.
    replace (current_actions lm + 1 + Z.of_nat n)
      with (current_actions lm + Z.of_nat (S n)) by lia.
    reflexivity.
Qed.

Lemma run_collapse_step (lm : t) (cost : Z) (rest : list Z) :
  current_actions lm + cost = 14 →
  cavern_has_collapsed lm = false →
  run lm (cost :: rest)
  = (quantum_cavern_collapse
     :: (run (mk (actions_until_supernova lm) 14 (loop_count lm)
               (is_first_loop lm) true) rest).1,
     (run (mk (actions_until_supernova lm) 14 (loop_count lm)
            (is_first_loop lm) true) rest).2).
Proof.
  intros Hmid Hflag. cbn [run]. unfold increment_action. cbn.
  rewrite Hmid, Hflag. cbn. destruct (run _ rest). reflexivity.
Qed.

Lemma run_supernova_step (lm : t) (cost : Z) (rest : list Z) :
  current_actions lm + cost ≠ 14 →
  actions_until_supernova lm ≤ current_actions lm + cost →
  run lm (cost :: rest)
  = ([supernova], set_current_actions (current_actions lm + cost) lm).
Proof.
  intros Hmid Hend. cbn [run]. unfold increment_action. cbn.
  destruct (Z.eqb_spec (current_actions lm + cost) 14); [contradiction|].
  cbn. destruct (Z.geb_spec (current_actions lm + cost)
                   (actions_until_supernova lm)); [reflexivity|lia].
Qed.

(** X2.  A whole loop of unit actions under a terminal threshold above
    14: thirteen quiet calls, the collapse signal on the 14th, quiet
    calls again, and the supernova signal on the call that brings the
    counter to the threshold; the counter is not reset and the loop
    number is not changed by [increment_action] itself. *)
Theorem run_full_unit_loop (threshold : Z) :
  14 < threshold →
  run (init threshold) (replicate (Z.to_nat threshold) 1)
  = (replicate 13 no_signal ++ [quantum_cavern_collapse]
     ++ replicate (Z.to_nat threshold - 15) no_signal ++ [supernova],
     mk threshold threshold 1 true true).
Proof.
  intros Hthr.
  replace (Z.to_nat threshold)
    with (13 + (1 + ((Z.to_nat threshold - 15) + 1)))%nat at 1 by lia.
  rewrite !replicate_add.
  rewrite (run_units_quiet 13 (init threshold)); [|cbn; lia|cbn; lia].
  change (set_current_actions (current_actions (init threshold) + Z.of_nat 13)
            (init threshold)) with (mk threshold 13 1 true false).
  change (replicate 1 1 ++ replicate (Z.to_nat threshold - 15) 1
          ++ replicate 1 1)
    with (1 :: replicate (Z.to_nat threshold - 15) 1 ++ [1]).
  rewrite run_collapse_step by reflexivity.
  cbn [actions_until_supernova loop_count is_first_loop].
  rewrite (run_units_quiet (Z.to_nat threshold - 15)
             (mk threshold 14 1 true true)); [|cbn; lia|cbn; lia].
  rewrite run_supernova_step by (cbn; lia).
  cbn [fst snd current_actions set_current_actions actions_until_supernova
       loop_count is_first_loop cavern_has_collapsed].
  unfold set_current_actions. cbn.
  replace (14 + Z.of_nat (Z.to_nat threshold - 15) + 1) with threshold by lia.
  reflexivity.
Qed.

Lemma run_full_unit_loop_witness :
  run (init 22) (replicate 22 1)
  = (replicate 13 no_signal ++ [quantum_cavern_collapse]
     ++ replicate 7 no_signal ++ [supernova],
     mk 22 22 1 true true).
Proof. apply (run_full_unit_loop 22). lia. Defined.

(** X3.  When the counter lands on 14 with the flag down, the collapse
    signal is returned even if the terminal threshold is already
    reached; the supernova signal then comes with the next call of
    positive cost. *)
Theorem collapse_masks_supernova (lm : t) (cost next_cost : Z) :
  actions_until_supernova lm ≤ 14 →
  cavern_has_collapsed lm = false →
  current_actions lm + cost = 14 →
  0 < next_cost →
  (increment_action lm cost).1 = quantum_cavern_collapse
  ∧ current_actions (increment_action lm cost).2 = 14
  ∧ (increment_action (increment_action lm cost).2 next_cost).1 = supernova.
Proof.
  intros Hthr Hflag Hmid Hpos. unfold increment_action. cbn.
  rewrite Hflag, Hmid. cbn.
  destruct (Z.eqb_spec (14 + next_cost) 14) as [E|E]; [lia|]. cbn.
  destruct (Z.geb_spec (14 + next_cost) (actions_until_supernova lm));
    [auto|lia].
Qed.

Lemma collapse_masks_supernova_witness :
  (increment_action (mk 14 13 1 true false) 1).1 = quantum_cavern_collapse
  ∧ current_actions (increment_action (mk 14 13 1 true false) 1).2 = 14
  ∧ (increment_action (increment_action (mk 14 13 1 true false) 1).2 1).1
    = supernova.
Proof.
  apply (collapse_masks_supernova (mk 14 13 1 true false) 1 1);
    [cbn; lia | reflexivity | reflexivity | lia].
Defined.

End LoopClockMore.

(** ** More on the knowledge store *)
Section KnowledgeMore.
Import KnowledgeMenu.

Lemma foldl_invariant {A B} (P : A → Prop) (f : A → B → A) (l : list B) (a : A) :
  P a → (∀ a x, x ∈ l → P a → P (f a x)) → P (foldl f a l).
Proof.
  revert a. induction l as [|x l IH]; intros a Ha Hstep; simpl; [exact Ha|].
  apply IH.
  - apply Hstep; [left | exact Ha].
  - intros a' y Hy. apply Hstep. right. exact Hy.
Qed.

Lemma register_entries_sound (location_data : LocationData.t) (id : string)
    (e : KnowledgeEntry) :
  all_entries (register_entries init location_data) !! id = Some e →
  registered_from location_data id e.
Proof.
  unfold register_entries. cbn [all_entries init].
  revert id e.
  apply (foldl_invariant
           (fun acc : gmap string KnowledgeEntry =>
              ∀ id e, acc !! id = Some e → registered_from location_data id e)).
  - intros id e Hl. rewrite lookup_empty in Hl. discriminate.
  - intros acc [loc_id loc] Hloc Hacc. apply elem_of_map_to_list in Hloc.
    cbn [fst snd].
    apply (foldl_invariant
             (fun acc : gmap string KnowledgeEntry =>
                ∀ id e, acc !! id = Some e → registered_from location_data id e));
      [exact Hacc|].
    intros acc' [ent_id d] Hent Hacc'. apply elem_of_map_to_list in Hent.
    cbn [fst snd]. destruct (EntryData.adds_to_log d) eqn:Hlog; cbn [negb];
      [|exact Hacc'].
    intros id e Hl. destruct (decide (id = loc_id +:+ "." +:+ ent_id)) as [->|N].
    + rewrite lookup_insert_eq in Hl. injection Hl as <-.
      exists loc_id, loc, ent_id, d. auto.
    + rewrite lookup_insert_ne in Hl by congruence. apply Hacc', Hl.
Qed.

Lemma foldl_keeps_key {B} (f : gmap string KnowledgeEntry → B → gmap string KnowledgeEntry)
    (l : list B) (acc : gmap string KnowledgeEntry) (k : string) :
  (∀ a x, is_Some (a !! k) → is_Some (f a x !! k)) →
  is_Some (acc !! k) → is_Some (foldl f acc l !! k).
Proof.
  intros Hstep. revert acc. induction l as [|x l IH]; intros acc Hk; simpl; auto.
Qed.

Lemma foldl_reaches_key {B} (f : gmap string KnowledgeEntry → B → gmap string KnowledgeEntry)
    (l : list B) (acc : gmap string KnowledgeEntry) (k : string) (x : B) :
  (∀ a y, is_Some (a !! k) → is_Some (f a y !! k)) →
  (∀ a, is_Some (f a x !! k)) →
  x ∈ l → is_Some (foldl f acc l !! k).
Proof.
  intros Hkeep Hput. revert acc. induction l as [|y l IH]; intros acc Hin.
  - inversion Hin.
  - simpl. apply elem_of_cons in Hin. destruct Hin as [<-|Hin].
    + apply foldl_keeps_key; [exact Hkeep | apply Hput].
    + apply IH, Hin.
Qed.

Lemma register_entries_complete (location_data : LocationData.t)
    (loc_id ent_id : string) (loc : Location.t) (d : EntryData.t) :
  LocationData.locations location_data !! loc_id = Some loc →
  Location.entries loc !! ent_id = Some d →
  EntryData.adds_to_log d = true →
  is_Some (all_entries (register_entries init location_data)
             !! (loc_id +:+ "." +:+ ent_id)).
Proof.
  intros Hloc Hent Hlog. unfold register_entries. cbn [all_entries init].
  set (k := loc_id +:+ "." +:+ ent_id).
  assert (Hinner : ∀ (l0 : string) (a : gmap string KnowledgeEntry)
                     (y : string * EntryData.t),
            is_Some (a !! k) →
            is_Some ((if negb (EntryData.adds_to_log y.2) then a
                      else <[l0 +:+ "." +:+ y.1
                             := entry_of_data l0 (l0 +:+ "." +:+ y.1) y.2]> a)
                     !! k)).
  { intros l0 a y Ha. destruct (negb _); [exact Ha|].
    rewrite lookup_insert_is_Some'. right. exact Ha. }
  apply (foldl_reaches_key _ _ _ k (loc_id, loc)).
  - intros a y Ha. apply foldl_keeps_key; [|exact Ha].
    intros a' z. apply Hinner.
  - intros a. cbn [fst snd].
    apply (foldl_reaches_key _ _ _ k (ent_id, d)).
    + intros a' z. apply Hinner.
    + intros a'. cbn [fst snd]. rewrite Hlog. cbn [negb].
      subst k. rewrite lookup_insert_eq. eauto.
    + apply elem_of_map_to_list, Hent.
  - apply elem_of_map_to_list, Hloc.
Qed.

Lemma register_entries_consistent (location_data : LocationData.t) :
  menu_consistent (register_entries init location_data).
Proof.
  intros id e Hl. apply register_entries_sound in Hl.
  destruct Hl as (loc_id & loc & ent_id & d & _ & _ & _ & -> & ->).
  split; [reflexivity|]. cbn. split; [discriminate|].
  intros Hin. apply not_elem_of_empty in Hin. contradiction.
Qed.

(** X4.  [register_entries] on a fresh menu registers exactly the
    entries of the content whose [adds_to_log] is not false, each under
    [location.entry], built from its data, undiscovered; nothing is
    discovered or known yet. *)
Theorem register_entries_fresh (location_data : LocationData.t) :
  (∀ id e,
     all_entries (register_entries init location_data) !! id = Some e →
     registered_from location_data id e
     ∧ entry_id e = id ∧ discovered e = false ∧ adds_to_log e = true)
  ∧ (∀ loc_id loc ent_id d,
       LocationData.locations location_data !! loc_id = Some loc →
       Location.entries loc !! ent_id = Some d →
       EntryData.adds_to_log d = true →
       is_Some (all_entries (register_entries init location_data)
                  !! (loc_id +:+ "." +:+ ent_id)))
  ∧ progress (register_entries init location_data) = initial_progress
  ∧ menu_consistent (register_entries init location_data).
Proof.
  split; [|split; [|split]].
  - intros id e Hl. pose proof (register_entries_sound _ _ _ Hl) as Hreg.
    split; [exact Hreg|].
    destruct Hreg as (loc_id & loc & ent_id & d & _ & _ & Hlog & -> & ->).
    cbn. auto.
  - intros loc_id loc ent_id d. apply register_entries_complete.
  - reflexivity.
  - apply register_entries_consistent.
Qed.

Lemma discover_entry_new (km : t) (id : string) (e : KnowledgeEntry) :
  all_entries km !! id = Some e →
  entry_id e ∉ entries_discovered (progress km) →
  discover_entry km id
  = (true,
     mk (mkProgress (entries_discovered (progress km) ∪ {[entry_id e]})
           (Py.set_add_all (knowledge_gained (progress km))
              (knowledge_grants e))
           (locations_visited (progress km)) (current_loop (progress km))
           (total_visits (progress km)) (dialogue_topics_asked (progress km))
           (new_entries_since_last_view (progress km) + 1)
           (discovered_commands (progress km)))
        (<[id := mark_discovered (current_loop (progress km)) e]>
           (all_entries km))
        (location_data km)).
Proof.
  intros Hreg Hnew. unfold discover_entry, add_entry. rewrite Hreg.
  destruct (decide _) as [Y|_]; [contradiction|reflexivity].
Qed.

Lemma discover_entry_keeps_consistent (km : t) (id : string) :
  menu_consistent km → menu_consistent (discover_entry km id).2.
Proof.
  intros Hcons.
  destruct (all_entries km !! id) as [e|] eqn:Hreg.
  2:{ unfold discover_entry. rewrite Hreg. exact Hcons. }
  destruct (Hcons id e Hreg) as [Hid Hflag].
  destruct (decide (entry_id e ∈ entries_discovered (progress km))) as [Y|N].
  - rewrite (discover_entry_again km id e Hreg Y). exact Hcons.
  - rewrite (discover_entry_new km id e Hreg N). cbn [snd].
    intros id' e' Hl. cbn [all_entries progress entries_discovered] in *.
    rewrite Hid.
    destruct (decide (id' = id)) as [->|Hne].
    + rewrite lookup_insert_eq in Hl. injection Hl as <-.
      cbn. split; [exact Hid|]. split; [intros _; set_solver|reflexivity].
    + rewrite lookup_insert_ne in Hl by congruence.
      destruct (Hcons id' e' Hl) as [Hid' Hflag'].
      split; [exact Hid'|]. rewrite Hflag'. set_solver.
Qed.

(** X5.  [discover_entry] keeps the menu consistent: afterwards every
    registered entry still sits under its own id and its [discovered]
    flag is up exactly when its id is in the discovered set. *)
Theorem discover_entry_consistent (km : t) (id : string) :
  menu_consistent km → menu_consistent (discover_entry km id).2.
Proof. apply discover_entry_keeps_consistent. Qed.

Lemma discover_entry_consistent_witness :
  menu_consistent menu_after_intro
  ∧ all_entries menu_after_intro !! "brittle_hollow.time_loop_intro"
    = Some (mark_discovered 1
              (entry_of_data "brittle_hollow" "brittle_hollow.time_loop_intro"
                 time_loop_intro)).
Proof.
  split.
  - apply (discover_entry_consistent sample_menu
             "brittle_hollow.time_loop_intro").
    apply register_entries_consistent.
  - vm_compute. reflexivity.
Defined.

(** X6.  [discover_entry] never forgets: the discovered set and the
    knowledge set only grow, the registered ids and their number stay
    the same, and the discovered count goes up by one exactly when the
    call returns [True] and stays put otherwise. *)
Theorem discover_entry_monotone (km : t) (id : string) :
  entries_discovered (progress km)
    ⊆ entries_discovered (progress (discover_entry km id).2)
  ∧ knowledge_gained (progress km)
      ⊆ knowledge_gained (progress (discover_entry km id).2)
  ∧ dom (all_entries (discover_entry km id).2) = dom (all_entries km)
  ∧ get_total_entries (discover_entry km id).2 = get_total_entries km
  ∧ get_discovered_count (discover_entry km id).2
    = get_discovered_count km + (if (discover_entry km id).1 then 1 else 0).
Proof.
  unfold discover_entry, get_total_entries, get_discovered_count.
  destruct (all_entries km !! id) as [e|] eqn:Hreg.
  2:{ cbn. repeat split; try reflexivity. lia. }
  unfold add_entry.
  destruct (decide (entry_id e ∈ entries_discovered (progress km))) as [Y|N];
    cbn [fst snd progress all_entries entries_discovered knowledge_gained].
  - rewrite insert_id by exact Hreg. repeat split; try reflexivity. lia.
  - split; [set_solver|]. split.
    { intros k Hk. apply elem_of_set_add_all. left. exact Hk. }
    split.
    { rewrite dom_insert_L. apply elem_of_dom_2 in Hreg. set_solver. }
    split.
    { rewrite map_size_insert_Some by eauto. reflexivity. }
    rewrite size_union by set_solver. rewrite size_singleton. lia.
Qed.

Lemma can_access_entry_iff (km : t) (id : string) (d : EntryData.t) :
  id ∈ dom (all_entries km) →
  _get_entry_data km id = Some d →
  Qlt_bool 0 (EntryData.requires_exploration_percentage d) = false →
  ((can_access_entry km id).1 = true
   ↔ (∀ k, k ∈ EntryData.requires_knowledge d →
           k ∈ knowledge_gained (progress km))
     ∧ (0 < EntryData.requires_dialogue_count d →
        EntryData.requires_dialogue_count d ≤ dialogue_topics_asked (progress km))).
Proof.
  intros Hreg Hdata Hpct. unfold can_access_entry.
  rewrite bool_decide_eq_true_2 by exact Hreg. cbn [negb].
  rewrite Hdata, Hpct. cbn [andb].
  assert (Hall : has_all_knowledge (progress km) (EntryData.requires_knowledge d)
                 = true
                 ↔ ∀ k, k ∈ EntryData.requires_knowledge d →
                        k ∈ knowledge_gained (progress km)).
  { unfold has_all_knowledge. rewrite forallb_forall. split.
    - intros H k Hk. apply (bool_decide_eq_true_1 _), H, list_elem_of_In, Hk.
    - intros H k Hk. apply bool_decide_eq_true_2, H, list_elem_of_In, Hk. }
  destruct (has_all_knowledge (progress km) (EntryData.requires_knowledge d)).
  - cbn [negb].
    destruct (Z.gtb_spec (EntryData.requires_dialogue_count d) 0) as [G|G];
      destruct (Z.ltb_spec (dialogue_topics_asked (progress km))
                  (EntryData.requires_dialogue_count d)) as [L|L];
      cbn [andb fst]; split; intros H;
      first [ discriminate
            | reflexivity
            | split; [apply Hall; reflexivity | lia]
            | destruct H as [_ H]; lia ].
  - cbn [negb].
    assert (Hno : ¬ ∀ k, k ∈ EntryData.requires_knowledge d →
                         k ∈ knowledge_gained (progress km)).
    { intros H. apply Hall in H. discriminate. }
    repeat case_bool_decide; cbn [fst]; split; try discriminate; tauto.
Qed.

(** X7.  For a registered entry whose data is found and that asks for
    no exploration percentage, [can_access_entry] grants access exactly
    when every required knowledge token is held and the dialogue count,
    if one is asked for, is reached. *)
Theorem can_access_entry_granted (km : t) (id : string) (d : EntryData.t) :
  id ∈ dom (all_entries km) →
  _get_entry_data km id = Some d →
  Qlt_bool 0 (EntryData.requires_exploration_percentage d) = false →
  ((can_access_entry km id).1 = true
   ↔ (∀ k, k ∈ EntryData.requires_knowledge d →
           k ∈ knowledge_gained (progress km))
     ∧ (0 < EntryData.requires_dialogue_count d →
        EntryData.requires_dialogue_count d ≤ dialogue_topics_asked (progress km))).
Proof. apply can_access_entry_iff. Qed.

Lemma can_access_entry_granted_witness :
  (can_access_entry sample_menu "brittle_hollow.time_loop_intro").1 = true.
Proof.
  apply (can_access_entry_granted sample_menu "brittle_hollow.time_loop_intro"
           time_loop_intro).
  - apply (bool_decide_unpack _). vm_compute. exact I.
  - vm_compute. reflexivity.
  - reflexivity.
  - split.
    + intros k Hk. inversion Hk.
    + cbn. lia.
Defined.

(** X8.  [can_access_entry] gives the empty reason exactly when it
    grants access: every refusal names why. *)
Theorem can_access_entry_reason (km : t) (id : string) :
  (can_access_entry km id).1 = true ↔ (can_access_entry km id).2 = no_reason.
Proof.
  unfold can_access_entry.
  repeat first
    [ progress cbn [fst snd]
    | match goal with
      | |- context [if ?b then _ else _] => destruct b
      | |- context [match ?x with Some _ => _ | None => _ end] => destruct x
      end ];
    split; intros; congruence.
Qed.

End KnowledgeMore.

(** ** More on the spatial graph *)
Section SpatialMore.
Import POISystem.

Lemma move_to_poi_result (s : t) (poi_id : string) (r : (bool * Z * string) * t) :
  move_to_poi s poi_id = Py.Ok r →
  r.2 = s
  ∨ r.2 = mk (location_data s) (current_location s) poi_id (in_ship s)
            (ship_flying s)
            (discovered_pois s ∪ {[current_location s +:+ "." +:+ poi_id]})
            (visited_pois s ∪ {[current_location s +:+ "." +:+ poi_id]}).
Proof.
  unfold move_to_poi. destruct (negb _).
  - intros [= <-]. left. reflexivity.
  - cbn. unfold Py.getitem. destruct (_ !! _); cbn; [|discriminate].
    intros [= <-]. right. reflexivity.
Qed.

Lemma land_at_location_result (s : t) (location_id : string)
    (km : KnowledgeMenu.t) :
  (land_at_location s location_id km).2 = s
  ∨ ∃ loc_info,
      LocationData.locations (location_data s) !! location_id = Some loc_info
      ∧ (land_at_location s location_id km).2
        = mk (location_data s) location_id
            (default "landing_site" (Location.starting_poi loc_info))
            (in_ship s) false
            (discovered_pois s
             ∪ {[location_id +:+ "."
                 +:+ default "landing_site" (Location.starting_poi loc_info)]})
            (visited_pois s
             ∪ {[location_id +:+ "."
                 +:+ default "landing_site" (Location.starting_poi loc_info)]}).
Proof.
  unfold land_at_location. destruct (negb (ship_flying s)); [left; reflexivity|].
  destruct (_ !! location_id) as [loc_info|]; [|left; reflexivity].
  destruct (negb (KnowledgeMenu.has_all_knowledge _ _)); [left; reflexivity|].
  right. exists loc_info. split; reflexivity.
Qed.

(** X9.  No operation of the POI system puts the ship in flight without
    its pilot: if a flying ship has the player aboard before
    [enter_ship], [exit_ship], [launch_ship], [land_at_location] or
    [move_to_poi], it has afterwards. *)
Theorem ship_operations_keep_pilot_aboard (s : t) :
  pilot_aboard s →
  pilot_aboard (enter_ship s).2
  ∧ pilot_aboard (exit_ship s).2
  ∧ pilot_aboard (launch_ship s).2
  ∧ (∀ location_id km, pilot_aboard (land_at_location s location_id km).2)
  ∧ (∀ poi_id r, move_to_poi s poi_id = Py.Ok r → pilot_aboard r.2).
Proof.
  unfold pilot_aboard. intros Hinv. repeat split.
  - unfold enter_ship. destruct (negb _); [exact Hinv|].
    destruct s as [ld cl cp [] [] dp vp]; cbn in *; auto.
  - unfold exit_ship.
    destruct s as [ld cl cp [] [] dp vp]; cbn in *; auto; discriminate.
  - unfold launch_ship.
    destruct s as [ld cl cp [] [] dp vp]; cbn in *; auto.
  - intros location_id km.
    destruct (land_at_location_result s location_id km) as [->|(li & _ & ->)];
      [exact Hinv | cbn; discriminate].
  - intros poi_id r Hr.
    destruct (move_to_poi_result s poi_id r Hr) as [->| ->];
      [exact Hinv | cbn; exact Hinv].
Qed.

Lemma ship_operations_keep_pilot_aboard_witness :
  pilot_aboard (launch_ship (enter_ship sample_pad).2).2
  ∧ ship_flying (launch_ship (enter_ship sample_pad).2).2 = true.
Proof.
  split; [|reflexivity].
  apply (ship_operations_keep_pilot_aboard (enter_ship sample_pad).2).
  intros _. reflexivity.
Defined.

(** X10.  A refused ship operation changes nothing: when [enter_ship],
    [exit_ship], [launch_ship] or [land_at_location] answers [False],
    the POI system is as it was, and a refused landing costs 0. *)
Theorem refused_ship_operation_changes_nothing (s : t) :
  ((enter_ship s).1.1 = false → (enter_ship s).2 = s)
  ∧ ((exit_ship s).1.1 = false → (exit_ship s).2 = s)
  ∧ ((launch_ship s).1.1 = false → (launch_ship s).2 = s)
  ∧ (∀ location_id km,
       (land_at_location s location_id km).1.1.1 = false →
       (land_at_location s location_id km).2 = s
       ∧ (land_at_location s location_id km).1.1.2 = 0).
Proof.
  repeat split.
  - unfold enter_ship. destruct (negb _); [reflexivity|].
    destruct (in_ship s); [reflexivity | discriminate].
  - unfold exit_ship. destruct (negb _); [reflexivity|].
    destruct (ship_flying s); [reflexivity | discriminate].
  - unfold launch_ship. destruct (negb _); [reflexivity|].
    destruct (ship_flying s); [reflexivity | discriminate].
  - revert H. unfold land_at_location.
    destruct (negb (ship_flying s)); [reflexivity|].
    destruct (_ !! location_id); [|reflexivity].
    destruct (negb (KnowledgeMenu.has_all_knowledge _ _));
      [reflexivity | discriminate].
  - revert H. unfold land_at_location.
    destruct (negb (ship_flying s)); [reflexivity|].
    destruct (_ !! location_id); [|reflexivity].
    destruct (negb (KnowledgeMenu.has_all_knowledge _ _));
      [reflexivity | discriminate].
Qed.

(** X11.  Outside a grounded ship at a POI that has the ship: boarding
    succeeds and stepping out again gives back the starting state;
    launching after boarding succeeds, and then [exit_ship] is refused
    and [enter_ship] is refused. *)
Theorem board_launch_exit (s : t) (poi_data : POIData.t) :
  get_current_poi_data s = Some poi_data →
  POIData.has_ship poi_data = true →
  in_ship s = false →
  ship_flying s = false →
  (enter_ship s).1.1 = true
  ∧ exit_ship (enter_ship s).2 = ((true, "You step out of the ship."), s)
  ∧ (launch_ship (enter_ship s).2).1.1 = true
  ∧ ship_flying (launch_ship (enter_ship s).2).2 = true
  ∧ (exit_ship (launch_ship (enter_ship s).2).2).1
    = (false, "You can't exit while flying! Land first.")
  ∧ (enter_ship (launch_ship (enter_ship s).2).2).1
    = (false, "You're already in the ship.").
Proof.
  intros Hpoi Hship Hout Hground.
  unfold enter_ship, exit_ship, launch_ship.
  rewrite Hpoi. cbn [from_option]. rewrite Hship. cbn [negb].
  rewrite Hout. cbn. unfold get_current_poi_data in *. cbn.
  rewrite Hground. cbn. rewrite Hpoi. cbn. rewrite Hship. cbn.
  repeat split; try reflexivity.
  destruct s; cbn in *. subst. reflexivity.
Qed.

Lemma board_launch_exit_witness :
  (enter_ship sample_pad).1.1 = true
  ∧ exit_ship (enter_ship sample_pad).2
    = ((true, "You step out of the ship."), sample_pad).
Proof.
  destruct (board_launch_exit sample_pad
              (POIData.mk (Some "Launch Pad") "" ["village_center"] ∅ [] true []))
    as (A & B & _); [vm_compute; reflexivity | reflexivity | reflexivity
                     | reflexivity |].
  split; assumption.
Defined.

(** X12.  Landing from flight at a known location whose required
    knowledge is all held succeeds at the fixed cost 2: the player is
    at that location's starting POI ([landing_site] when none is
    given), the ship is grounded with the player still aboard, and the
    POI is marked visited and discovered. *)
Theorem land_at_location_lands (s : t) (location_id : string)
    (loc_info : Location.t) (km : KnowledgeMenu.t) :
  ship_flying s = true →
  LocationData.locations (location_data s) !! location_id = Some loc_info →
  (∀ k, k ∈ Location.requires_knowledge loc_info →
        k ∈ KnowledgeMenu.knowledge_gained (KnowledgeMenu.progress km)) →
  ∃ s',
    land_at_location s location_id km
    = ((true, 2,
        "You land on " +:+ default location_id (Location.name loc_info)
        +:+ "..."), s')
    ∧ current_location s' = location_id
    ∧ current_poi s' = default "landing_site" (Location.starting_poi loc_info)
    ∧ ship_flying s' = false
    ∧ in_ship s' = in_ship s
    ∧ position_recorded s'.
Proof.
  intros Hfly Hloc Hknow. unfold land_at_location.
  rewrite Hfly, Hloc. cbn [negb].
  assert (Hall : KnowledgeMenu.has_all_knowledge (KnowledgeMenu.progress km)
                   (Location.requires_knowledge loc_info) = true).
  { unfold KnowledgeMenu.has_all_knowledge. apply forallb_forall.
    intros k Hk. apply bool_decide_eq_true_2, Hknow, list_elem_of_In, Hk. }
  rewrite Hall. cbn [negb]. eexists. split; [reflexivity|].
  unfold position_recorded. cbn. repeat split; try reflexivity; set_solver.
Qed.

Lemma land_at_location_lands_witness :
  ∃ s',
    land_at_location sample_orbit "brittle_hollow" pilot_menu
    = ((true, 2, "You land on Brittle Hollow..."), s')
    ∧ current_location s' = "brittle_hollow"
    ∧ current_poi s' = "landing_site"
    ∧ ship_flying s' = false.
Proof.
  destruct (land_at_location_lands sample_orbit "brittle_hollow" brittle_hollow
              pilot_menu) as (s' & E & A & B & C & _).
  - reflexivity.
  - vm_compute. reflexivity.
  - intros k Hk. apply list_elem_of_singleton in Hk. subst k.
    apply (bool_decide_unpack _). vm_compute. exact I.
  - exists s'. repeat split; assumption.
Defined.

(** X13.  The POI system keeps its records: after
    [_initialize_starting_position], [move_to_poi] or
    [land_at_location] the POI the player stands at is marked visited
    and discovered if it was before the call (always, for the first),
    and no visited or discovered mark is ever removed. *)
Theorem position_stays_recorded (s : t) :
  position_recorded s →
  (∀ s', _initialize_starting_position s = Py.Ok s' →
         position_recorded s'
         ∧ visited_pois s ⊆ visited_pois s'
         ∧ discovered_pois s ⊆ discovered_pois s')
  ∧ (∀ poi_id r, move_to_poi s poi_id = Py.Ok r →
                 position_recorded r.2
                 ∧ visited_pois s ⊆ visited_pois r.2
                 ∧ discovered_pois s ⊆ discovered_pois r.2)
  ∧ (∀ location_id km,
       position_recorded (land_at_location s location_id km).2
       ∧ visited_pois s ⊆ visited_pois (land_at_location s location_id km).2
       ∧ discovered_pois s
           ⊆ discovered_pois (land_at_location s location_id km).2).
Proof.
  intros Hrec. split; [|split].
  - intros s'. unfold _initialize_starting_position, Py.getitem.
    destruct (_ !! _); cbn; [|discriminate]. intros [= <-].
    unfold position_recorded. cbn. repeat split; set_solver.
  - intros poi_id r Hr.
    destruct (move_to_poi_result s poi_id r Hr) as [->| ->].
    + repeat split; try apply Hrec; set_solver.
    + unfold position_recorded. cbn. repeat split; set_solver.
  - intros location_id km.
    destruct (land_at_location_result s location_id km) as [->|(li & _ & ->)].
    + repeat split; try apply Hrec; set_solver.
    + unfold position_recorded. cbn. repeat split; set_solver.
Qed.

Lemma position_stays_recorded_witness :
  position_recorded (land_at_location sample_orbit "brittle_hollow" pilot_menu).2
  ∧ visited_pois sample_orbit
      ⊆ visited_pois
          (land_at_location sample_orbit "brittle_hollow" pilot_menu).2.
Proof.
  destruct (position_stays_recorded sample_orbit) as (_ & _ & H).
  - split; apply (bool_decide_unpack _); vm_compute; exact I.
  - destruct (H "brittle_hollow" pilot_menu) as (A & B & _).
    split; assumption.
Defined.

Lemma elem_of_get_available_pois (s : t) (p : AvailablePOI) :
  p ∈ get_available_pois s →
  ∃ loc_data poi_data,
    LocationData.locations (location_data s) !! current_location s
      = Some loc_data
    ∧ id p ∈ from_option POIData.connections [] (get_current_poi_data s)
    ∧ Location.points_of_interest loc_data !! id p = Some poi_data
    ∧ distance p
      = default 1 (d ← get_current_poi_data s; POIData.distance_to d !! id p).
Proof.
  unfold get_available_pois.
  destruct (LocationData.locations (location_data s) !! current_location s)
    as [loc_data|] eqn:Hloc; [|intros Hin; inversion Hin].
  rewrite list_elem_of_omap. intros (poi_id & Hconn & Hsome).
  destruct (Location.points_of_interest loc_data !! poi_id) as [poi_data|]
    eqn:Hpoi; [|discriminate].
  injection Hsome as <-. cbn [id distance].
  exists loc_data, poi_data. auto.
Qed.

(** X14.  Whatever [get_available_pois] offers can be walked to: for
    each listed POI, [move_to_poi] on its id succeeds at the listed
    distance, and the player is then at that POI, which the content
    describes. *)
Theorem available_poi_is_reachable (s : t) (p : AvailablePOI) :
  p ∈ get_available_pois s →
  ∃ message s',
    move_to_poi s (id p) = Py.Ok ((true, distance p, message), s')
    ∧ current_poi s' = id p
    ∧ current_location s' = current_location s
    ∧ is_Some (get_current_poi_data s').
Proof.
  intros Hin. apply elem_of_get_available_pois in Hin.
  destruct Hin as (loc_data & poi_data & Hloc & Hconn & Hpoi & Hdist).
  unfold move_to_poi. rewrite bool_decide_eq_true_2 by exact Hconn.
  cbn [negb current_location set_current_poi _discover_poi add_visited
       location_data].
  unfold Py.getitem. rewrite Hloc. cbn [mbind result_bind Py.bind].
  rewrite Hdist. do 2 eexists. split; [reflexivity|].
  cbn. repeat split. unfold get_current_poi_data. cbn.
  rewrite Hloc, Hpoi. eauto.
Qed.

Lemma available_poi_is_reachable_witness :
  ∃ message s',
    move_to_poi sample_poi "landing_site"
    = Py.Ok ((true, 1, message), s')
    ∧ current_poi s' = "landing_site".
Proof.
  destruct (available_poi_is_reachable sample_poi
              (mkAvailable "landing_site" "Landing Site" 1 true ""))
    as (message & s' & E & A & _).
  - vm_compute. left.
  - exists message, s'. split; assumption.
Defined.

(** X15.  A connection to a POI the content does not describe is not
    offered by [get_available_pois], yet [move_to_poi] accepts it, at
    cost 1 unless a distance is given, naming the POI by its id; from
    there nothing is offered and every move is refused. *)
Theorem move_to_undescribed_poi (s : t) (poi_id : string) (loc_data : Location.t) :
  poi_id ∈ from_option POIData.connections [] (get_current_poi_data s) →
  LocationData.locations (location_data s) !! current_location s
    = Some loc_data →
  Location.points_of_interest loc_data !! poi_id = None →
  (∀ p, p ∈ get_available_pois s → id p ≠ poi_id)
  ∧ ∃ cost s',
      move_to_poi s poi_id
      = Py.Ok ((true, cost, "You travel to " +:+ poi_id +:+ "..."), s')
      ∧ current_poi s' = poi_id
      ∧ get_available_pois s' = []
      ∧ ∀ target,
          move_to_poi s' target
          = Py.Ok ((false, 0, "You can't reach " +:+ target +:+ " from here."),
                   s').
Proof.
  intros Hconn Hloc Hnone. split.
  - intros p Hp <-. apply elem_of_get_available_pois in Hp.
    destruct Hp as (loc_data' & poi_data & Hloc' & _ & Hpoi & _).
    rewrite Hloc in Hloc'. injection Hloc' as <-. congruence.
  - unfold move_to_poi at 1. rewrite bool_decide_eq_true_2 by exact Hconn.
    cbn [negb current_location set_current_poi _discover_poi add_visited
         location_data].
    unfold Py.getitem. rewrite Hloc. cbn [mbind result_bind Py.bind].
    rewrite Hnone. cbn [mbind option_bind default].
    do 2 eexists. split; [reflexivity|]. split; [reflexivity|].
    split.
    + unfold get_available_pois, get_current_poi_data. cbn.
      rewrite Hloc, Hnone. reflexivity.
    + intros target. unfold move_to_poi, get_current_poi_data. cbn.
      rewrite Hloc, Hnone. cbn [from_option].
      rewrite bool_decide_eq_false_2 by (apply not_elem_of_nil). reflexivity.
Qed.

Lemma move_to_undescribed_poi_witness :
  ∃ cost s',
    move_to_poi broken_poi "old_mine"
    = Py.Ok ((true, cost, "You travel to old_mine..."), s')
    ∧ get_available_pois s' = [].
Proof.
  destruct (move_to_undescribed_poi broken_poi "old_mine"
              (Location.mk (Some "Timber Hearth") (Some "village_center")
                 {["village_center" :=
                     POIData.mk (Some "Village Center") "" ["old_mine"] ∅ []
                       false []]}
                 ∅ [] true))
    as (_ & cost & s' & E & _ & A & _).
  - apply (bool_decide_unpack _). vm_compute. exact I.
  - vm_compute. reflexivity.
  - vm_compute. reflexivity.
  - exists cost, s'. split; assumption.
Defined.

End SpatialMore.

(** ** More on the quantum navigator *)
Section NavigatorMore.
Import QuantumNavigator.

(** X16.  At each of the four pre-terminal nodes and for each cardinal
    direction: if the node's table marks the direction as its stable
    path, every draw leads to the marked successor; otherwise the three
    equally likely draws lead, one each, to the three other
    pre-terminal nodes.  Each node has exactly one stable direction. *)
Theorem observe_direction_pre_terminal (visited : bool) :
  Forall
    (fun node =>
       Forall
         (fun direction =>
            match li ← locations !! node; stable_path li !! direction with
            | Some next =>
                ∀ r, destination
                       (observe_direction (mk node visited) direction r)
                     = Some next
            | None =>
                Py.outcomes 3
                  (fun r => destination
                              (observe_direction (mk node visited) direction r))
                = Some <$> List.filter (fun n => negb (String.eqb n node))
                             ["platform"; "crystals"; "tree"; "arch"]
            end)
         ["north"; "south"; "east"; "west"]
       ∧ length
           (List.filter
              (fun direction =>
                 bool_decide
                   (is_Some (li ← locations !! node;
                             stable_path li !! direction)))
              ["north"; "south"; "east"; "west"]) = 1%nat)
    ["platform"; "crystals"; "tree"; "arch"].
Proof.
  repeat constructor; vm_compute; intros; reflexivity.
Qed.

(** X17.  Whatever the generator draws, the stable route solves the
    puzzle: east, west, north, south from the platform and then closing
    the eyes ends at the grove with [reached_grove] set. *)
Theorem stable_route_reaches_grove (visited : bool) (r1 r2 r3 r4 r5 : nat) :
  (step1 ← observe_direction (mk "platform" visited) "east" r1;
   step2 ← observe_direction step1.2 "west" r2;
   step3 ← observe_direction step2.2 "north" r3;
   step4 ← observe_direction step3.2 "south" r4;
   observe_direction step4.2 "close eyes" r5)
  = Py.Ok ((true, "You've reached Solanum's Grove!", true), mk "grove" visited).
Proof. reflexivity. Qed.

Lemma direction_map_values (typed canonical : string) :
  direction_map !! typed = Some canonical →
  canonical ∈ ["east"; "west"; "north"; "south"; "close eyes"].
Proof.
  intros H. unfold direction_map in H. apply elem_of_list_to_map_2 in H.
  repeat (apply elem_of_cons in H; destruct H as [H|H];
          [injection H as _ ->; set_solver|]).
  inversion H.
Qed.

(** X18.  From any node of the puzzle, with a draw in range,
    [observe_direction] returns for every ASCII text typed, except for
    a cardinal direction at [convergence]: the navigator stays on a
    node of the puzzle, [has_visited_platform] is never taken back, and
    a text that is no known direction is refused without any change.
    The text is taken to be ASCII because [str.lower] is modelled on
    the ASCII letters. *)
Theorem observe_direction_returns (nav : t) (direction : string) (r : nat) :
  current_location nav
    ∈ ["platform"; "crystals"; "tree"; "arch"; "convergence"; "grove"] →
  Py.is_ascii direction = true →
  (r < 3)%nat →
  current_location nav ≠ "convergence"
  ∨ direction_map !! Py.str_strip (Py.str_lower direction)
      ∈ [None; Some "close eyes"] →
  ∃ res nav',
    observe_direction nav direction r = Py.Ok (res, nav')
    ∧ current_location nav'
        ∈ ["platform"; "crystals"; "tree"; "arch"; "convergence"; "grove"]
    ∧ (has_visited_platform nav = true → has_visited_platform nav' = true)
    ∧ (direction_map !! Py.str_strip (Py.str_lower direction) = None →
       res = (false, "Invalid direction.", false) ∧ nav' = nav).
Proof.
  intros Hnode _ Hr Hsafe. unfold observe_direction.
  destruct (direction_map !! Py.str_strip (Py.str_lower direction))
    as [canonical|] eqn:Hdir.
  2:{ exists (false, "Invalid direction.", false), nav. auto. }
  pose proof (direction_map_values _ _ Hdir) as Hcan.
  destruct nav as [node visited]. cbn [current_location] in *.
  assert (Hok : node ≠ "convergence" ∨ canonical = "close eyes").
  { destruct Hsafe as [H|H]; [left; exact H|]. right.
    apply elem_of_cons in H. destruct H as [H|H]; [discriminate|].
    apply list_elem_of_singleton in H. congruence. }
  clear Hsafe Hdir.
  assert (Hdraw : r = 0%nat ∨ r = 1%nat ∨ r = 2%nat) by lia. clear Hr.
  repeat (apply elem_of_cons in Hnode; destruct Hnode as [->|Hnode]);
    [..|inversion Hnode];
    (repeat (apply elem_of_cons in Hcan; destruct Hcan as [->|Hcan]);
     [..|inversion Hcan]);
    try (destruct Hok as [Hok|Hok]; [congruence|discriminate]);
    (destruct Hdraw as [->|[->| ->]]);
    (do 2 eexists; split; [vm_compute; reflexivity|];
     split; [set_solver|]; split; [destruct visited; cbn; congruence|];
     intros; discriminate).
Qed.

Lemma observe_direction_returns_witness :
  ∃ res nav',
    observe_direction (mk "convergence" false) "Close Eyes" 0 = Py.Ok (res, nav')
    ∧ current_location nav'
        ∈ ["platform"; "crystals"; "tree"; "arch"; "convergence"; "grove"].
Proof.
  destruct (observe_direction_returns (mk "convergence" false) "Close Eyes" 0)
    as (res & nav' & E & A & _).
  - apply (bool_decide_unpack _). vm_compute. exact I.
  - reflexivity.
  - lia.
  - right. apply (bool_decide_unpack _). vm_compute. exact I.
  - exists res, nav'. split; assumption.
Defined.

End NavigatorMore.

(** ** More on quantum observation and scrambling *)
Section QuantumMore.
Import QuantumSystem.

Lemma quantum_observation_rerolls_witness :
  ∃ qs',
    quantum_observation init sample_poi always_five = Py.Ok (false, qs')
    ∧ get_entry_state init "brittle_hollow.quantum_research_notes" = 0
    ∧ get_entry_state qs' "brittle_hollow.quantum_research_notes" = 6.
Proof.
  destruct (quantum_observation_rerolls init sample_poi always_five)
    as (qs' & E & _).
  - reflexivity.
  - vm_compute. split; [lia | intros; exact I].
  - exists qs'. split; [exact E|]. split; [reflexivity|].
    vm_compute in E. injection E as <-. reflexivity.
Defined.

(** X20.  [_get_all_quantum_entries_at_poi] returns, under the id
    [location.entry], exactly the entries listed at the current POI
    that the current location describes with [quantum] set; whether
    an entry is registered in the log or discovered plays no role. *)
Theorem quantum_entries_at_poi (location_system : POISystem.t)
    (full_entry_id : string) (entry_data : EntryData.t) :
  (full_entry_id, entry_data) ∈ _get_all_quantum_entries_at_poi location_system
  ↔ ∃ loc_info poi_info entry_id,
      LocationData.locations (POISystem.location_data location_system)
        !! POISystem.current_location location_system = Some loc_info
      ∧ Location.points_of_interest loc_info
          !! POISystem.current_poi location_system = Some poi_info
      ∧ entry_id ∈ POIData.entries poi_info
      ∧ Location.entries loc_info !! entry_id = Some entry_data
      ∧ EntryData.quantum entry_data = true
      ∧ full_entry_id
        = POISystem.current_location location_system +:+ "." +:+ entry_id.
Proof.
  unfold _get_all_quantum_entries_at_poi.
  destruct (LocationData.locations (POISystem.location_data location_system)
              !! POISystem.current_location location_system)
    as [loc_info|] eqn:Hloc.
  2:{ split; [intros H; inversion H|].
      intros (li & pi & e & H & _). discriminate. }
  destruct (Location.points_of_interest loc_info
              !! POISystem.current_poi location_system)
    as [poi_info|] eqn:Hpoi.
  2:{ split; [intros H; inversion H|].
      intros (li & pi & e & Hl & Hp & _). simplify_eq. }
  rewrite list_elem_of_omap. split.
  - intros (entry_id & Hin & Hsome).
    destruct (Location.entries loc_info !! entry_id) as [d|] eqn:Hent;
      [|discriminate].
    destruct (EntryData.quantum d) eqn:Hq; [|discriminate].
    injection Hsome as <- <-.
    exists loc_info, poi_info, entry_id. repeat split; auto.
  - intros (li & pi & entry_id & Hl & Hp & Hin & Hent & Hq & ->).
    simplify_eq. exists entry_id. split; [exact Hin|].
    rewrite Hent, Hq. reflexivity.
Qed.

End QuantumMore.

Section Scrambling.
Context `{PyRandom}.

(** X21.  When the library's shuffle only reorders, scrambling keeps
    the shape of the text: the result is the newline-join of as many
    lines as the content has, a line of white space only is kept as it
    is, and any other line becomes its own words, reordered, joined by
    single spaces; words are what the white space of Unicode
    separates.  Both copies of the routine do this for every state
    other than 6. *)
Theorem scramble_text_structure (content : string) (state : Z) :
  (∀ g words, (shuffle g words).1 ≡ₚ words) →
  state ≠ 6 →
  ∃ lines',
    ContentLoader._scramble_text content state = Py.str_join nl lines'
    ∧ QuantumSystem.scramble_text content state = Py.str_join nl lines'
    ∧ Forall2 scrambled_line (Py.str_split "010" content) lines'.
Proof.
  intros Hperm Hstate.
  exists (scramble_lines (Random state) (Py.str_split "010" content)).
  split; [reflexivity|]. split.
  - unfold QuantumSystem.scramble_text.
    destruct (Z.eqb_spec state 6); [contradiction|reflexivity].
  - apply scramble_lines_structure, Hperm.
Qed.

End Scrambling.

Lemma scramble_text_structure_witness :
  ∃ lines',
    ContentLoader._scramble_text (H := sample_random) spaced_content 3
    = Py.str_join nl lines'
    ∧ QuantumSystem.scramble_text (H := sample_random) spaced_content 3
      = Py.str_join nl lines'
    ∧ Forall2 scrambled_line (Py.str_split "010" spaced_content) lines'
    ∧ QuantumSystem.scramble_text (H := sample_random) spaced_content 3
      = "rules the observe" +:+ nl +:+ em_space +:+ nl +:+ "objects quantum of".
Proof.
  destruct (scramble_text_structure (H := sample_random) spaced_content 3)
    as (lines' & A & B & C).
  - intros g words. cbn. apply reverse_Permutation.
  - lia.
  - exists lines'. split; [exact A|]. split; [exact B|]. split; [exact C|].
    vm_compute. reflexivity.
Defined.

(** ** More on the orchestrator *)
Section GameMore.
Import Orchestrator.

Lemma cavern_death_returns (o : t) (home : Location.t) :
  LocationData.locations (POISystem.location_data (poi_system o))
    !! "timber_hearth" = Some home →
  POISystem.current_location (poi_system o) = "brittle_hollow" →
  POISystem.current_poi (poi_system o) = "quantum_cavern" →
  _handle_cavern_collapse o
  = Py.Ok
      (mk (location_data o)
         (clear_loop_flags (KnowledgeMenu.increment_loop (knowledge_menu o)))
         (LoopManager.mk
            (LoopManager.actions_until_supernova (loop_manager o)) 0
            (LoopManager.loop_count (loop_manager o) + 1)
            (LoopManager.is_first_loop (loop_manager o)) false)
         (POISystem.mk (POISystem.location_data (poi_system o))
            "timber_hearth"
            (default "village_center" (Location.starting_poi home))
            false false
            (POISystem.discovered_pois (poi_system o)
             ∪ {["timber_hearth" +:+ "."
                 +:+ default "village_center" (Location.starting_poi home)]})
            (POISystem.visited_pois (poi_system o)
             ∪ {["timber_hearth" +:+ "."
                 +:+ default "village_center" (Location.starting_poi home)]}))
         (quantum_system o) (quantum_navigator o)
         (content_loader o) (intro_complete o)
         (observatory_tutorial_shown o) false false false None).
Proof.
  intros Hhome Hloc Hpoi. unfold _handle_cavern_collapse.
  rewrite Hloc, Hpoi. cbn [String.eqb Ascii.eqb Bool.eqb andb].
  unfold reset_position, POISystem._initialize_starting_position, Py.getitem.
  cbn [POISystem.location_data POISystem.set_current_location
       POISystem.set_in_ship POISystem.set_ship_flying
       POISystem.current_location].
  rewrite Hhome. reflexivity.
Qed.

(** X22.  Dying in the collapsing cavern resets the game like the
    supernova does: both leave the same knowledge menu, the same POI
    system, the same quantum system, the same cleared flags, counter 0
    and the next loop number.  They differ only in that the supernova
    also puts the navigator back on the platform and takes down
    [is_first_loop]. *)
Theorem cavern_death_matches_supernova (o : t) (home : Location.t) :
  LocationData.locations (POISystem.location_data (poi_system o))
    !! "timber_hearth" = Some home →
  POISystem.current_location (poi_system o) = "brittle_hollow" →
  POISystem.current_poi (poi_system o) = "quantum_cavern" →
  ∃ died burnt,
    _handle_cavern_collapse o = Py.Ok died
    ∧ supernova_reset o = Py.Ok burnt
    ∧ burnt
      = mk (location_data died) (knowledge_menu died)
          (LoopManager.mk
             (LoopManager.actions_until_supernova (loop_manager died))
             (LoopManager.current_actions (loop_manager died))
             (LoopManager.loop_count (loop_manager died)) false
             (LoopManager.cavern_has_collapsed (loop_manager died)))
          (poi_system died) (quantum_system died)
          (QuantumNavigator.reset_navigation (quantum_navigator died))
          (content_loader died) (intro_complete died)
          (observatory_tutorial_shown died) (quantum_frequency_entered died)
          (launch_code_entered died) (eyes_closed died)
          (eyes_closed_at_location died)
    ∧ quantum_navigator died = quantum_navigator o
    ∧ LoopManager.is_first_loop (loop_manager died)
      = LoopManager.is_first_loop (loop_manager o).
Proof.
  intros Hhome Hloc Hpoi. do 2 eexists.
  split; [apply (cavern_death_returns o home Hhome Hloc Hpoi)|].
  split; [apply (supernova_reset_returns o home Hhome)|].
  repeat split.
Qed.

Lemma cavern_death_matches_supernova_witness :
  ∃ died burnt,
    _handle_cavern_collapse (sample_game 3) = Py.Ok died
    ∧ supernova_reset (sample_game 3) = Py.Ok burnt
    ∧ knowledge_menu burnt = knowledge_menu died
    ∧ poi_system burnt = poi_system died.
Proof.
  destruct (cavern_death_matches_supernova (sample_game 3) timber_hearth)
    as (died & burnt & D & B & E & _).
  - vm_compute. reflexivity.
  - reflexivity.
  - reflexivity.
  - exists died, burnt. subst burnt. repeat split; try assumption.
Defined.

(** What one tick leaves alone. *)
Lemma tick_frame_reset (o : t) (lm : LoopManager.t) (ps : POISystem.t)
    (nav : QuantumNavigator.t) (first : bool) :
  let o' :=
    mk (location_data o)
      (clear_loop_flags (KnowledgeMenu.increment_loop (knowledge_menu o)))
      (LoopManager.mk (LoopManager.actions_until_supernova lm) 0
         (LoopManager.loop_count (loop_manager o) + 1) first false)
      ps (quantum_system o) nav (content_loader o) (intro_complete o)
      (observatory_tutorial_shown o) false false false None in
  KnowledgeMenu.entries_discovered (KnowledgeMenu.progress (knowledge_menu o'))
  = KnowledgeMenu.entries_discovered (KnowledgeMenu.progress (knowledge_menu o))
  ∧ KnowledgeMenu.all_entries (knowledge_menu o')
    = KnowledgeMenu.all_entries (knowledge_menu o)
  ∧ quantum_system o' = quantum_system o
  ∧ (∀ k, k ≠ "cavern_collapse_witnessed" →
       (k ∈ KnowledgeMenu.knowledge_gained
              (KnowledgeMenu.progress (knowledge_menu o'))
        ↔ k ∈ KnowledgeMenu.knowledge_gained
                (KnowledgeMenu.progress (knowledge_menu o))))
  ∧ (loops_in_sync o → loops_in_sync o')
  ∧ LoopManager.loop_count (loop_manager o)
    ≤ LoopManager.loop_count (loop_manager o')
    ≤ LoopManager.loop_count (loop_manager o) + 1.
Proof.
  intros o'. subst o'. unfold loops_in_sync.
  cbn [knowledge_menu quantum_system loop_manager LoopManager.loop_count].
  rewrite clear_loop_flags_knowledge.
  destruct (clear_loop_flags_frame
              (KnowledgeMenu.increment_loop (knowledge_menu o)))
    as (-> & -> & ->).
  cbn. repeat split; try reflexivity; try set_solver; lia.
Qed.

(** X23.  One turn's clock tick, whatever it triggers, returns when the
    content has the home location and never costs knowledge: the
    discovered set, the registered entries and the quantum system are
    as before, every knowledge token other than
    [cavern_collapse_witnessed] is held exactly when it was, the loop
    number moves by at most one and never back, and the clock's and
    the log's loop numbers stay equal if they were. *)
Theorem after_command_keeps_knowledge (o : t) (home : Location.t)
    (costs_action : bool) :
  LocationData.locations (POISystem.location_data (poi_system o))
    !! "timber_hearth" = Some home →
  ∃ o',
    after_command o costs_action = Py.Ok o'
    ∧ KnowledgeMenu.entries_discovered
        (KnowledgeMenu.progress (knowledge_menu o'))
      = KnowledgeMenu.entries_discovered
          (KnowledgeMenu.progress (knowledge_menu o))
    ∧ KnowledgeMenu.all_entries (knowledge_menu o')
      = KnowledgeMenu.all_entries (knowledge_menu o)
    ∧ quantum_system o' = quantum_system o
    ∧ (∀ k, k ≠ "cavern_collapse_witnessed" →
         (k ∈ KnowledgeMenu.knowledge_gained
                (KnowledgeMenu.progress (knowledge_menu o'))
          ↔ k ∈ KnowledgeMenu.knowledge_gained
                  (KnowledgeMenu.progress (knowledge_menu o))))
    ∧ (loops_in_sync o → loops_in_sync o')
    ∧ LoopManager.loop_count (loop_manager o)
      ≤ LoopManager.loop_count (loop_manager o')
      ≤ LoopManager.loop_count (loop_manager o) + 1.
Proof.
  intros Hhome. unfold after_command.
  destruct (costs_action && negb _).
  2:{ exists o. repeat split; auto; lia. }
  unfold LoopManager.increment_action.
  cbn [LoopManager.current_actions LoopManager.set_current_actions
       LoopManager.cavern_has_collapsed LoopManager.actions_until_supernova].
  destruct ((LoopManager.current_actions (loop_manager o) + 1 =? 14)
            && negb (LoopManager.cavern_has_collapsed (loop_manager o))).
  - (* the cavern collapses *)
    set (o1 := set_loop_manager _ o).
    destruct (String.eqb (POISystem.current_location (poi_system o))
                "brittle_hollow") eqn:Hloc.
    + destruct (String.eqb (POISystem.current_poi (poi_system o))
                  "quantum_cavern") eqn:Hpoi.
      * apply String.eqb_eq in Hloc, Hpoi.
        eexists. split;
          [apply (cavern_death_returns o1 home Hhome Hloc Hpoi)|].
        apply (tick_frame_reset o).
      * unfold _handle_cavern_collapse.
        change (POISystem.current_location (poi_system o1))
          with (POISystem.current_location (poi_system o)).
        change (POISystem.current_poi (poi_system o1))
          with (POISystem.current_poi (poi_system o)).
        rewrite Hloc, Hpoi. cbn [andb].
        eexists. split; [reflexivity|]. unfold loops_in_sync. cbn.
        repeat split; auto; try set_solver; lia.
    + unfold _handle_cavern_collapse.
      change (POISystem.current_location (poi_system o1))
        with (POISystem.current_location (poi_system o)).
      rewrite Hloc. cbn [andb].
      exists o1. unfold loops_in_sync. cbn. repeat split; auto; lia.
  - destruct (_ >=? _).
    + (* the sun explodes *)
      set (o1 := set_loop_manager _ o).
      eexists. split; [apply (supernova_reset_returns o1 home Hhome)|].
      apply (tick_frame_reset o).
    + eexists. split; [reflexivity|]. unfold loops_in_sync. cbn.
      repeat split; auto; lia.
Qed.

Lemma after_command_keeps_knowledge_witness :
  ∃ o',
    after_command (sample_game 3) true = Py.Ok o'
    ∧ quantum_system o' = quantum_system (sample_game 3).
Proof.
  destruct (after_command_keeps_knowledge (sample_game 3) timber_hearth true)
    as (o' & E & _ & _ & Q & _).
  - vm_compute. reflexivity.
  - exists o'. split; assumption.
Defined.

End GameMore.

Section Commands.
Import Orchestrator.

Section PlainReading.
Context `{PyRandom}.

Lemma load_and_display_plain (cl : ContentLoader.t)
    (location_id entry_id file_name content : string) (d : EntryData.t) :
  ContentLoader.content_map !! (location_id +:+ "." +:+ entry_id)
    = Some file_name →
  ContentLoader.files cl !! file_name = Some content →
  ContentLoader.load_and_display_entry cl location_id entry_id (Some d) None
  = Py.Ok (true, ContentLoader.file_content content).
Proof.
  intros Hmap Hfile. unfold ContentLoader.load_and_display_entry.
  rewrite Hmap. cbn [mbind option_bind]. rewrite Hfile. reflexivity.
Qed.

Lemma read_entry_plain (o : t)
    (location_id entry_id file_name content : string) (d : EntryData.t) :
  let full_id := location_id +:+ "." +:+ entry_id in
  _get_entry_raw_data o full_id = Some d →
  EntryData.quantum d = false →
  (KnowledgeMenu.can_access_entry (knowledge_menu o) full_id).1 = true →
  ContentLoader.content_map !! full_id = Some file_name →
  ContentLoader.files (content_loader o) !! file_name = Some content →
  _read_entry o location_id entry_id
  = Py.Ok (displayed (ContentLoader.file_content content),
           set_knowledge_menu
             (KnowledgeMenu.discover_entry (knowledge_menu o) full_id).2 o).
Proof.
  intros full_id Hraw Hq Hacc Hmap Hfile. unfold _read_entry. fold full_id.
  rewrite Hraw. cbn [from_option]. rewrite Hq.
  destruct (KnowledgeMenu.can_access_entry (knowledge_menu o) full_id)
    as [b why]. cbn [fst] in Hacc. subst b. cbn [negb].
  destruct (KnowledgeMenu.discover_entry (knowledge_menu o) full_id)
    as [was_new km].
  rewrite bool_decide_eq_true_2 by eauto. rewrite andb_false_r.
  rewrite (load_and_display_plain _ _ _ file_name content) by assumption.
  reflexivity.
Qed.

(** X24.  Reading an ordinary entry that is registered, not yet
    discovered, accessible (no exploration percentage asked, required
    knowledge held, dialogue count reached) and whose content file
    exists shows the text as written and discovers the entry: its id
    joins the discovered set and its grants join the knowledge set.  A
    second read shows the same text and changes nothing; the quantum
    system is not touched. *)
Theorem read_plain_entry (o : t)
    (location_id entry_id file_name content : string)
    (d : EntryData.t) (e : KnowledgeMenu.KnowledgeEntry) :
  let full_id := location_id +:+ "." +:+ entry_id in
  _get_entry_raw_data o full_id = Some d →
  KnowledgeMenu._get_entry_data (knowledge_menu o) full_id = Some d →
  EntryData.quantum d = false →
  KnowledgeMenu.Qlt_bool 0 (EntryData.requires_exploration_percentage d)
    = false →
  (∀ k, k ∈ EntryData.requires_knowledge d →
        k ∈ KnowledgeMenu.knowledge_gained
              (KnowledgeMenu.progress (knowledge_menu o))) →
  (0 < EntryData.requires_dialogue_count d →
   EntryData.requires_dialogue_count d
   ≤ KnowledgeMenu.dialogue_topics_asked
       (KnowledgeMenu.progress (knowledge_menu o))) →
  ContentLoader.content_map !! full_id = Some file_name →
  ContentLoader.files (content_loader o) !! file_name = Some content →
  KnowledgeMenu.all_entries (knowledge_menu o) !! full_id = Some e →
  KnowledgeMenu.entry_id e
    ∉ KnowledgeMenu.entries_discovered
        (KnowledgeMenu.progress (knowledge_menu o)) →
  ∃ o',
    _read_entry o location_id entry_id
    = Py.Ok (displayed (ContentLoader.file_content content), o')
    ∧ _read_entry o' location_id entry_id
      = Py.Ok (displayed (ContentLoader.file_content content), o')
    ∧ KnowledgeMenu.entries_discovered
        (KnowledgeMenu.progress (knowledge_menu o'))
      = KnowledgeMenu.entries_discovered
          (KnowledgeMenu.progress (knowledge_menu o))
        ∪ {[KnowledgeMenu.entry_id e]}
    ∧ KnowledgeMenu.knowledge_gained
        (KnowledgeMenu.progress (knowledge_menu o'))
      = KnowledgeMenu.knowledge_gained
          (KnowledgeMenu.progress (knowledge_menu o))
        ∪ list_to_set (KnowledgeMenu.knowledge_grants e)
    ∧ quantum_system o' = quantum_system o.
Proof.
  intros full_id Hraw Hdata Hq Hpct Hknow Htalk Hmap Hfile Hreg Hnew.
  assert (Hacc : (KnowledgeMenu.can_access_entry (knowledge_menu o) full_id).1
                 = true).
  { apply (can_access_entry_iff _ _ d); auto.
    apply elem_of_dom. eauto. }
  pose proof (read_entry_plain o location_id entry_id file_name content d
                Hraw Hq Hacc Hmap Hfile) as Hread.
  fold full_id in Hread.
  rewrite (discover_entry_new _ _ e Hreg Hnew) in Hread. cbn [snd] in Hread.
  eexists. split; [exact Hread|].
  match goal with
  | |- context [set_knowledge_menu ?k o] => set (km' := k)
  end.
  assert (Hreg' : KnowledgeMenu.all_entries km' !! full_id
                  = Some (KnowledgeMenu.mark_discovered
                            (KnowledgeMenu.current_loop
                               (KnowledgeMenu.progress (knowledge_menu o))) e))
    by (apply lookup_insert_eq).
  assert (Hagain : KnowledgeMenu.discover_entry km' full_id = (false, km')).
  { apply (discover_entry_again km' full_id _ Hreg').
    cbn. apply elem_of_union. right. apply elem_of_singleton. reflexivity. }
  assert (Hacc' : (KnowledgeMenu.can_access_entry km' full_id).1 = true).
  { apply (can_access_entry_iff km' full_id d).
    - apply elem_of_dom. eauto.
    - exact Hdata.
    - exact Hpct.
    - split; [|exact Htalk].
      intros k Hk. cbn. apply elem_of_set_add_all. left. apply Hknow, Hk. }
  split; [|split; [|split]].
  - rewrite (read_entry_plain (set_knowledge_menu km' o) location_id entry_id
               file_name content d Hraw Hq Hacc' Hmap Hfile).
    fold full_id. cbn [knowledge_menu set_knowledge_menu].
    rewrite Hagain. reflexivity.
  - reflexivity.
  - cbn. apply set_add_all_union.
  - reflexivity.
Qed.

(** X30.  Reading an entry that is not quantum (or has no data at all)
    and that [can_access_entry] refuses shows the refusal with its
    reason and changes nothing: nothing is discovered, no knowledge is
    granted. *)
Theorem read_refused_changes_nothing (o : t) (location_id entry_id : string) :
  from_option EntryData.quantum false
    (_get_entry_raw_data o (location_id +:+ "." +:+ entry_id)) = false →
  (KnowledgeMenu.can_access_entry (knowledge_menu o)
     (location_id +:+ "." +:+ entry_id)).1 = false →
  _read_entry o location_id entry_id
  = Py.Ok (cannot_access
             (KnowledgeMenu.can_access_entry (knowledge_menu o)
                (location_id +:+ "." +:+ entry_id)).2, o).
Proof.
  intros Hq Hacc. unfold _read_entry. rewrite Hq.
  destruct (KnowledgeMenu.can_access_entry (knowledge_menu o)
              (location_id +:+ "." +:+ entry_id)) as [b why].
  cbn [fst snd] in *. subst b. reflexivity.
Qed.

End PlainReading.

Lemma read_plain_entry_witness :
  ∃ o',
    _read_entry (H := sample_random) reader_game "brittle_hollow"
      "time_loop_intro"
    = Py.Ok (displayed (ContentLoader.file_content sample_content), o')
    ∧ _read_entry (H := sample_random) o' "brittle_hollow" "time_loop_intro"
      = Py.Ok (displayed (ContentLoader.file_content sample_content), o').
Proof.
  destruct (read_plain_entry (H := sample_random) reader_game "brittle_hollow"
              "time_loop_intro" "brittle_hollow_time_loop_intro.md"
              sample_content time_loop_intro
              (KnowledgeMenu.entry_of_data "brittle_hollow"
                 "brittle_hollow.time_loop_intro" time_loop_intro))
    as (o' & A & B & _).
  - vm_compute; reflexivity.
  - vm_compute; reflexivity.
  - reflexivity.
  - reflexivity.
  - intros k Hk. inversion Hk.
  - cbn. lia.
  - vm_compute; reflexivity.
  - vm_compute; reflexivity.
  - vm_compute; reflexivity.
  - apply (bool_decide_unpack _). vm_compute. exact I.
  - exists o'. split; assumption.
Defined.

Lemma read_refused_changes_nothing_witness :
  _read_entry (H := sample_random) reader_game "timber_hearth" "no_such_entry"
  = Py.Ok (cannot_access KnowledgeMenu.something_missing, reader_game).
Proof.
  apply (read_refused_changes_nothing (H := sample_random) reader_game
           "timber_hearth" "no_such_entry"); vm_compute; reflexivity.
Defined.

Lemma has_all_knowledge_add (km : KnowledgeMenu.t) (k : string)
    (required : list string) :
  KnowledgeMenu.has_all_knowledge (KnowledgeMenu.progress km) required = true →
  KnowledgeMenu.has_all_knowledge
    (KnowledgeMenu.progress (KnowledgeMenu.add_knowledge km k)) required = true.
Proof.
  unfold KnowledgeMenu.has_all_knowledge. rewrite !forallb_forall.
  intros Hall x Hx. specialize (Hall x Hx).
  apply bool_decide_eq_true_2. apply (bool_decide_eq_true_1 _) in Hall.
  cbn. set_solver.
Qed.

Lemma moon_needs_frequency (o : t) (moon : Location.t) :
  quantum_frequency_entered o = false →
  LocationData.locations (location_data o) !! "quantum_moon" = Some moon →
  ∃ why, _can_access_location o "quantum_moon" = Py.Ok (false, why).
Proof.
  intros Hfreq Hmoon. unfold _can_access_location, Py.getitem.
  rewrite Hmoon, Hfreq. cbn [mbind result_bind Py.bind].
  destruct (negb (KnowledgeMenu.has_all_knowledge _ _)); eexists; reflexivity.
Qed.

(** X25.  After a supernova reset the Quantum Moon is closed again,
    whatever the player knows: the frequency and the launch code count
    as not entered, and [_can_access_location] refuses the moon. *)
Theorem quantum_moon_locked_after_reset (o : t) (home moon : Location.t) :
  LocationData.locations (POISystem.location_data (poi_system o))
    !! "timber_hearth" = Some home →
  LocationData.locations (location_data o) !! "quantum_moon" = Some moon →
  ∃ o' why,
    supernova_reset o = Py.Ok o'
    ∧ _can_access_location o' "quantum_moon" = Py.Ok (false, why)
    ∧ quantum_frequency_entered o' = false
    ∧ launch_code_entered o' = false.
Proof.
  intros Hhome Hmoon.
  pose proof (supernova_reset_returns o home Hhome) as Hret.
  match type of Hret with _ = Py.Ok ?x => set (o' := x) in * end.
  destruct (moon_needs_frequency o' moon) as [why Hwhy];
    [reflexivity | exact Hmoon |].
  exists o', why. repeat split; assumption || reflexivity.
Qed.

Lemma quantum_moon_locked_after_reset_witness :
  ∃ o' why,
    supernova_reset
      (_handle_insert_frequency moon_game "5555") = Py.Ok o'
    ∧ _can_access_location o' "quantum_moon" = Py.Ok (false, why).
Proof.
  destruct (quantum_moon_locked_after_reset
              (_handle_insert_frequency moon_game "5555")
              radio_hearth quantum_moon) as (o' & why & A & B & _).
  - vm_compute; reflexivity.
  - vm_compute; reflexivity.
  - exists o', why. split; assumption.
Defined.

(** X26.  At the radio station, knowing the signal frequencies, typing
    5555 (white space around it aside, that of Unicode included) marks
    the frequency as entered and grants [quantum_moon_frequency]; if
    the moon's required knowledge is held, [_can_access_location] then
    admits the moon.  Any other text leaves the game as it was. *)
Theorem insert_frequency_opens_moon (o : t) (typed : string) (moon : Location.t) :
  POISystem.current_location (poi_system o) = "timber_hearth" →
  POISystem.current_poi (poi_system o) = "radio_station" →
  KnowledgeMenu.has_knowledge (knowledge_menu o) "signal_scope_frequencies"
    = true →
  LocationData.locations (location_data o) !! "quantum_moon" = Some moon →
  KnowledgeMenu.has_all_knowledge (KnowledgeMenu.progress (knowledge_menu o))
    (Location.requires_knowledge moon) = true →
  (Py.str_strip typed = "5555" →
   quantum_frequency_entered (_handle_insert_frequency o typed) = true
   ∧ KnowledgeMenu.has_knowledge
       (knowledge_menu (_handle_insert_frequency o typed))
       "quantum_moon_frequency" = true
   ∧ _can_access_location (_handle_insert_frequency o typed) "quantum_moon"
     = Py.Ok (true, ""))
  ∧ (Py.str_strip typed ≠ "5555" → _handle_insert_frequency o typed = o).
Proof.
  intros Hloc Hpoi Hknows Hmoon Hall. unfold _handle_insert_frequency.
  rewrite Hloc, Hpoi, Hknows.
  cbn [String.eqb Ascii.eqb Bool.eqb andb orb negb].
  split.
  - intros ->. cbn [Py.str_isdigit String.length Nat.eqb negb orb].
    change (Py.str_isdigit "5555") with true.
    cbn [negb orb String.eqb Ascii.eqb Bool.eqb andb].
    split; [reflexivity|]. split.
    + unfold KnowledgeMenu.has_knowledge, KnowledgeMenu.progress_has_knowledge.
      apply bool_decide_eq_true_2. cbn. set_solver.
    + unfold _can_access_location, Py.getitem.
      cbn [location_data set_knowledge_menu set_quantum_frequency_entered
           knowledge_menu quantum_frequency_entered].
      rewrite Hmoon. cbn [mbind result_bind Py.bind].
      rewrite (has_all_knowledge_add _ _ _ Hall). reflexivity.
  - intros Hne. destruct (_ || _); [reflexivity|].
    destruct (String.eqb_spec (Py.str_strip typed) "5555");
      [contradiction|reflexivity].
Qed.

Lemma insert_frequency_opens_moon_witness :
  quantum_frequency_entered (_handle_insert_frequency moon_game typed_frequency)
  = true
  ∧ _can_access_location (_handle_insert_frequency moon_game typed_frequency)
      "quantum_moon" = Py.Ok (true, "")
  ∧ _handle_insert_frequency moon_game "5 555" = moon_game.
Proof.
  pose proof (insert_frequency_opens_moon moon_game typed_frequency
                quantum_moon) as Htyped.
  pose proof (insert_frequency_opens_moon moon_game "5 555" quantum_moon)
    as Hother.
  destruct Htyped as [Hyes _];
    [reflexivity | reflexivity | vm_compute; reflexivity
     | vm_compute; reflexivity | vm_compute; reflexivity |].
  destruct Hother as [_ Hno];
    [reflexivity | reflexivity | vm_compute; reflexivity
     | vm_compute; reflexivity | vm_compute; reflexivity |].
  destruct Hyes as (A & _ & B); [vm_compute; reflexivity|].
  split; [exact A|]. split; [exact B|].
  apply Hno. vm_compute. discriminate.
Defined.

(** X27.  Typing the launch code aboard the ship (any case, spaces
    around it aside) marks it entered and grants [ship_operation] and
    [launch_code_epistemic].  After a supernova reset the code counts
    as not entered, but both tokens are still known. *)
Theorem launch_code_outlives_reset (o : t) (typed : string) (home : Location.t) :
  POISystem.in_ship (poi_system o) = true →
  launch_code_entered o = false →
  Py.str_upper (Py.str_strip typed) = "EPISTEMIC" →
  LocationData.locations (POISystem.location_data (poi_system o))
    !! "timber_hearth" = Some home →
  launch_code_entered (_handle_enter_launch_code o typed) = true
  ∧ ∃ o',
      supernova_reset (_handle_enter_launch_code o typed) = Py.Ok o'
      ∧ launch_code_entered o' = false
      ∧ POISystem.in_ship (poi_system o') = false
      ∧ KnowledgeMenu.has_knowledge (knowledge_menu o') "ship_operation" = true
      ∧ KnowledgeMenu.has_knowledge (knowledge_menu o') "launch_code_epistemic"
        = true.
Proof.
  intros Hship Hnot Hcode Hhome. unfold _handle_enter_launch_code.
  rewrite Hship, Hnot, Hcode.
  cbn [String.eqb Ascii.eqb Bool.eqb andb negb].
  split; [reflexivity|].
  eexists. split.
  - apply (supernova_reset_returns _ home). exact Hhome.
  - cbn [launch_code_entered poi_system POISystem.in_ship knowledge_menu].
    unfold KnowledgeMenu.has_knowledge, KnowledgeMenu.progress_has_knowledge.
    rewrite clear_loop_flags_knowledge. cbn.
    repeat split; apply bool_decide_eq_true_2; set_solver.
Qed.

Lemma launch_code_outlives_reset_witness :
  launch_code_entered (_handle_enter_launch_code moon_game " epistemic ") = true
  ∧ ∃ o',
      supernova_reset (_handle_enter_launch_code moon_game " epistemic ")
      = Py.Ok o'
      ∧ launch_code_entered o' = false.
Proof.
  destruct (launch_code_outlives_reset moon_game " epistemic " radio_hearth)
    as (A & o' & B & C & _);
    [reflexivity | reflexivity | reflexivity | vm_compute; reflexivity |].
  split; [exact A|]. exists o'. split; assumption.
Defined.

End Commands.

(** ** Reaching the grove *)
Section Grove.
Import QuantumNavigator.

Lemma observe_reached_grove (nav nav' : t) (direction message : string)
    (r : nat) (success : bool) :
  observe_direction nav direction r = Py.Ok ((success, message, true), nav') →
  is_at_grove nav = true
  ∨ (current_location nav = "convergence"
     ∧ direction_map !! Py.str_strip (Py.str_lower direction)
       = Some "close eyes").
Proof.
  unfold observe_direction.
  destruct (direction_map !! Py.str_strip (Py.str_lower direction))
    as [canonical|]; [|discriminate].
  destruct (is_at_grove nav); [left; reflexivity|].
  destruct (String.eqb_spec canonical "close eyes") as [->|Hne].
  - unfold close_eyes_reset.
    destruct (String.eqb_spec (current_location nav) "convergence");
      [right; auto | discriminate].
  - unfold Py.getitem.
    destruct (locations !! current_location nav) as [loc_info|];
      cbn [mbind result_bind Py.bind]; [|discriminate].
    destruct (stable_path loc_info !! canonical) as [next|].
    + destruct (locations !! next); cbn [mbind result_bind Py.bind];
        discriminate.
    + destruct (Py.list_remove _ _) as [possible|];
        cbn [mbind result_bind Py.bind]; [|discriminate].
      destruct (Py.random_choice possible r) as [random_location|];
        cbn [mbind result_bind Py.bind]; [|discriminate].
      destruct (locations !! random_location);
        cbn [mbind result_bind Py.bind]; discriminate.
Qed.

(** X28.  [observe_direction] reports the grove as reached only when
    the navigator is already there or when the eyes are closed at
    [convergence]; no look in a cardinal direction, stable or random,
    ever reaches it. *)
Theorem grove_only_by_closing_eyes (nav nav' : t) (direction message : string)
    (r : nat) (success : bool) :
  observe_direction nav direction r = Py.Ok ((success, message, true), nav') →
  is_at_grove nav = true
  ∨ (current_location nav = "convergence"
     ∧ direction_map !! Py.str_strip (Py.str_lower direction)
       = Some "close eyes").
Proof. apply observe_reached_grove. Qed.

Lemma grove_only_by_closing_eyes_witness :
  is_at_grove (mk "convergence" false) = true
  ∨ (current_location (mk "convergence" false) = "convergence"
     ∧ direction_map !! Py.str_strip (Py.str_lower "Close Eyes")
       = Some "close eyes").
Proof.
  apply (grove_only_by_closing_eyes (mk "convergence" false) (mk "grove" false)
           "Close Eyes" "You've reached Solanum's Grove!" 0 true).
  reflexivity.
Defined.

(** X29.  While the navigator is not at the grove, a look in a
    cardinal direction changes nothing but the navigator: the POI
    system, the knowledge menu, the clock and every flag of the game
    are as before. *)
Theorem cardinal_look_moves_only_navigator (o o' : Orchestrator.t)
    (direction : string) (r : nat) :
  is_at_grove (Orchestrator.quantum_navigator o) = false →
  direction_map !! Py.str_strip (Py.str_lower direction)
    ∈ [Some "north"; Some "south"; Some "east"; Some "west"] →
  Orchestrator._handle_cardinal_navigation o direction r = Py.Ok o' →
  o' = Orchestrator.mk (Orchestrator.location_data o)
         (Orchestrator.knowledge_menu o) (Orchestrator.loop_manager o)
         (Orchestrator.poi_system o) (Orchestrator.quantum_system o)
         (Orchestrator.quantum_navigator o') (Orchestrator.content_loader o)
         (Orchestrator.intro_complete o)
         (Orchestrator.observatory_tutorial_shown o)
         (Orchestrator.quantum_frequency_entered o)
         (Orchestrator.launch_code_entered o) (Orchestrator.eyes_closed o)
         (Orchestrator.eyes_closed_at_location o).
Proof.
  intros Hgrove Hdir. unfold Orchestrator._handle_cardinal_navigation.
  destruct (observe_direction (Orchestrator.quantum_navigator o) direction r)
    as [[[[success message] reached] nav]|] eqn:Hobs;
    cbn [Py.bind]; [|discriminate].
  destruct reached.
  - apply observe_reached_grove in Hobs. exfalso.
    destruct Hobs as [Hat|[_ Hclose]]; [congruence|].
    rewrite Hclose in Hdir. set_solver.
  - intros [= <-]. reflexivity.
Qed.

Lemma cardinal_look_moves_only_navigator_witness :
  ∃ o',
    Orchestrator._handle_cardinal_navigation moon_game "Look East" 0 = Py.Ok o'
    ∧ Orchestrator.poi_system o' = Orchestrator.poi_system moon_game.
Proof.
  destruct (Orchestrator._handle_cardinal_navigation moon_game "Look East" 0)
    as [o'|err] eqn:E.
  - exists o'. split; [reflexivity|].
    rewrite (cardinal_look_moves_only_navigator moon_game o' "Look East" 0);
      [reflexivity | reflexivity | | exact E].
    apply (bool_decide_unpack _). vm_compute. exact I.
  - vm_compute in E. discriminate.
Defined.

End Grove.
